(** * Monthly sales-commission calculation (routers/sales.py)

    A shallow embedding of [calculate_monthly_commission] and of the parts of
    [models.py], [schemas.py], [routers/utils.py] and [database.py] it reads.

    Conventions of the embedding.
    - A Python [Decimal] (and the [int] literal [0] the accumulators start
      from) is its exact rational value, a [Q].  The operands come from
      [Numeric(12,2)], [Numeric(10,2)] and [Numeric(5,2)] columns, so every
      product, quotient by 100 and sum below stays far inside the 28
      significant digits of the default decimal context and no context
      rounding takes place.
    - A Python [float] is an IEEE-754 binary64 value, a [spec_float] with
      precision 53 and [emax] 1024, rounded to nearest even.
    - A table is the list of its rows in the order in which a query without
      [ORDER BY] returns them; [.all()] keeps that order and [.first()] is
      the first row that passes the filter.  PostgreSQL promises no such
      order from one call to the next.
    - The session runs with [autoflush=False]; attribute assignments reach
      the tables at [db.commit()] as [UPDATE ... WHERE id = ...] and
      [INSERT] statements.
    - A row of the model holds the values the handler assigned to it.
      PostgreSQL coerces a value to the type of its column when it stores
      it: a [Numeric(p,2)] column rounds to two decimal places, ties away
      from zero, and refuses a value of more than [p] digits with a
      [DataError].  [Numeric_2] is that rounding, [Numeric_fits] the range
      check, and [stored_sale] and [stored_summary] give a row as the
      database holds it, which is what [db.refresh] and every later query
      read.  The calculation never computes with a column a handler assigned
      a computed value to.  [db.commit()] itself is taken to succeed: what is
      said of the values a call stored or returned is said under the
      condition that they fit their columns.
    - A new summary row gets a primary key larger than every key in the
      table, and [datetime.utcnow()] is a parameter of the handler.
    - Columns the handler never reads (titles, notes, client data, ...) are
      left out of the row records.  The JSON text of [sales_breakdown] is
      kept as the dictionary it serialises.  [Sale.commission_rate] is never
      [NULL]: the column has a default and no modelled handler clears it. *)

From Stdlib Require Import ZArith QArith Qround List String Bool Lia Lqa.
From Stdlib Require Import SpecFloat.
Import ListNotations.
Local Open Scope Z_scope.

(* ================================================================== *)
(** ** Python numbers *)

(** A [Decimal] is its exact rational value. *)
Abbreviation Decimal := Q (only parsing).

(** [bool(d)] for a [Decimal]: true unless the value is zero. *)
Definition Decimal_bool (d : Decimal) : bool := negb (Qeq_bool d 0).

(** Truthiness of an optional (nullable) [Decimal]: [None] and zero are falsy. *)
Definition truthy (d : option Decimal) : bool :=
  match d with
  | None => false
  | Some v => Decimal_bool v
  end.

Module PyFloat.

Definition float : Set := spec_float.
Definition prec : Z := 53.
Definition emax : Z := 1024.

(** An integer as an (unnormalised) exact binary value. *)
Definition exact (z : Z) : float :=
  match z with
  | Z0 => S754_zero false
  | Zpos p => S754_finite false p 0
  | Zneg p => S754_finite true p 0
  end.

(** [float(n)] for an [int]. *)
Definition of_int (z : Z) : float := binary_normalize prec emax z 0 false.

(** [float(d)] for a [Decimal]: the binary64 value nearest to the exact
    decimal value, ties to even. *)
Definition of_Decimal (d : Decimal) : float :=
  SFdiv prec emax (exact (Qnum d)) (exact (Zpos (Qden d))).

Definition add (x y : float) : float := SFadd prec emax x y.

(** The exact rational value of a finite float. *)
Definition to_Q (x : float) : option Q :=
  match x with
  | S754_zero _ => Some 0%Q
  | S754_finite s m e =>
      let v := match e with
               | Zneg p => (Zpos m # Pos.pow 2 p)%Q
               | _ => inject_Z (Zpos m * 2 ^ e)
               end in
      Some (if s then Qopp v else v)
  | _ => None
  end.

End PyFloat.

(* ================================================================== *)
(** ** Enumerations of models.py *)

Inductive SaleType : Set :=
| store_opening | renovation | maintenance_contract | consulting | car_rental | other.

Inductive SaleStatus : Set :=
| lead | proposal_sent | negotiating | closed_won | closed_lost | cancelled.

Inductive CommissionStatus : Set :=
| pending | calculated | paid | disputed.

(** [sale_type.value] *)
Definition SaleType_value (t : SaleType) : string :=
  match t with
  | store_opening => "store_opening"
  | renovation => "renovation"
  | maintenance_contract => "maintenance_contract"
  | consulting => "consulting"
  | car_rental => "car_rental"
  | other => "other"
  end%string.

Definition SaleType_eqb (a b : SaleType) : bool :=
  match a, b with
  | store_opening, store_opening
  | renovation, renovation
  | maintenance_contract, maintenance_contract
  | consulting, consulting
  | car_rental, car_rental
  | other, other => true
  | _, _ => false
  end.

Definition SaleStatus_eqb (a b : SaleStatus) : bool :=
  match a, b with
  | lead, lead
  | proposal_sent, proposal_sent
  | negotiating, negotiating
  | closed_won, closed_won
  | closed_lost, closed_lost
  | cancelled, cancelled => true
  | _, _ => false
  end.

(* ================================================================== *)
(** ** Exceptions and results *)

Inductive exn : Set :=
| HTTPException (status_code : Z) (detail : string)
| ValueError (msg : string)
| OverflowError (msg : string).

Inductive outcome (A : Type) : Type :=
| Return (a : A)
| Raise (e : exn).
Arguments Return {A} a.
Arguments Raise {A} e.

(* ================================================================== *)
(** ** datetime.date *)

Module Date.

Record t : Set := mk { year : Z; month : Z; day : Z }.

Definition is_leap (y : Z) : bool :=
  ((y mod 4 =? 0) && negb (y mod 100 =? 0)) || (y mod 400 =? 0).

Definition days_in_month (y m : Z) : Z :=
  if m =? 2 then (if is_leap y then 29 else 28)
  else if (m =? 4) || (m =? 6) || (m =? 9) || (m =? 11) then 30
  else 31.

(** The range of a C [int]. *)
Definition c_int (z : Z) : bool := (- 2147483648 <=? z) && (z <=? 2147483647).

(** [date(y, m, d)]: the constructor converts its three arguments to C
    [int]s, in this order, and then checks the fields.  (Beyond the range
    of a C [long] the text of the [OverflowError] is another one.) *)
Definition date (y m d : Z) : outcome t :=
  if negb (c_int y && c_int m && c_int d)
  then Raise (OverflowError
                (if (2147483647 <? y)
                    || (c_int y && ((2147483647 <? m) || (c_int m && (2147483647 <? d))))
                 then "signed integer is greater than maximum"
                 else "signed integer is less than minimum"))
  else if negb ((1 <=? y) && (y <=? 9999)) then Raise (ValueError "year is out of range")
  else if negb ((1 <=? m) && (m <=? 12)) then Raise (ValueError "month must be in 1..12")
  else if negb ((1 <=? d) && (d <=? days_in_month y m))
       then Raise (ValueError "day is out of range for month")
  else Return (mk y m d).

(** [d - relativedelta(days=1)] *)
Definition minus_one_day (d : t) : t :=
  if 1 <? day d then mk (year d) (month d) (day d - 1)
  else if 1 <? month d
       then mk (year d) (month d - 1) (days_in_month (year d) (month d - 1))
  else mk (year d - 1) 12 31.

(** [a <= b] *)
Definition leb (a b : t) : bool :=
  (year a <? year b)
  || ((year a =? year b)
      && ((month a <? month b)
          || ((month a =? month b) && (day a <=? day b)))).

End Date.

(** A [datetime] is only stored, never inspected: a number of seconds. *)
Definition datetime : Set := Z.

(* ================================================================== *)
(** ** Rows of models.py *)

Module User.

Record t : Set := mk {
  id : Z;
  email : string;
  role : string;
  is_active : bool
}.

End User.

Module Sale.

Record t : Type := mk {
  id : Z;
  sale_type : SaleType;
  status : SaleStatus;
  sale_amount : Decimal;
  salesperson_id : Z;
  close_date : option Date.t;
  commission_rate : Decimal;
  commission_amount : option Decimal;
  commission_status : CommissionStatus
}.

(** The two attribute assignments of the commission loop. *)
Definition set_commission (s : t) (amount : option Decimal) (st : CommissionStatus) : t :=
  mk (id s) (sale_type s) (status s) (sale_amount s) (salesperson_id s)
     (close_date s) (commission_rate s) amount st.

End Sale.

Module Rule.

(** [EmployeeCommissionRule] *)
Record t : Type := mk {
  id : Z;
  employee_id : Z;
  sale_type : option SaleType;
  base_commission_rate : Decimal;
  min_sale_amount : Decimal;
  tier1_threshold : option Decimal;
  tier1_bonus_rate : Decimal;
  tier2_threshold : option Decimal;
  tier2_bonus_rate : Decimal;
  tier3_threshold : option Decimal;
  tier3_bonus_rate : Decimal;
  is_active : bool;
  effective_from : Date.t;
  effective_until : option Date.t
}.

End Rule.

Module Breakdown.

(** One value of the [sales_breakdown] dictionary. *)
Record entry : Set := mk {
  count : Z;
  total_amount : PyFloat.float;
  commission : PyFloat.float
}.

(** A Python [dict] with string keys, in insertion order. *)
Definition dict : Set := list (string * entry).

Fixpoint get (k : string) (d : dict) : option entry :=
  match d with
  | [] => None
  | (k', v) :: rest => if String.eqb k' k then Some v else get k rest
  end.

(** [d[k] = v]: an existing key keeps its position, a new key goes last. *)
Fixpoint set (k : string) (v : entry) (d : dict) : dict :=
  match d with
  | [] => [(k, v)]
  | (k', v') :: rest =>
      if String.eqb k' k then (k', v) :: rest else (k', v') :: set k v rest
  end.

End Breakdown.

Module Summary.

(** [MonthlyCommissionSummary] *)
Record t : Type := mk {
  id : Z;
  employee_id : Z;
  year : Z;
  month : Z;
  total_sales_amount : Decimal;
  closed_deals_count : Z;
  active_leads_count : Z;
  base_commission : Decimal;
  tier_bonus : Decimal;
  total_commission : Decimal;
  payment_status : CommissionStatus;
  payment_date : option Date.t;
  sales_breakdown : option Breakdown.dict;
  calculated_at : datetime;
  last_updated : datetime;
  calculated_by_id : Z
}.

(** The values the handler assigns under "Update summary data". *)
Record computed : Type := mk_computed {
  c_total_sales_amount : Decimal;
  c_closed_deals_count : Z;
  c_active_leads_count : Z;
  c_base_commission : Decimal;
  c_tier_bonus : Decimal;
  c_total_commission : Decimal;
  c_sales_breakdown : Breakdown.dict;
  c_last_updated : datetime
}.

Definition assign (c : computed) (s : t) : t :=
  mk (id s) (employee_id s) (year s) (month s)
     (c_total_sales_amount c) (c_closed_deals_count c) (c_active_leads_count c)
     (c_base_commission c) (c_tier_bonus c) (c_total_commission c)
     (payment_status s) (payment_date s)
     (Some (c_sales_breakdown c))
     (calculated_at s) (c_last_updated c) (calculated_by_id s).

End Summary.

(** [schemas.CommissionCalculationRequest] *)
Module Request.

Record t : Set := mk {
  employee_id : Z;
  year : Z;
  month : Z;
  recalculate : bool
}.

End Request.

(* ================================================================== *)
(** ** The database session *)

Record Database : Type := mkDatabase {
  users : list User.t;
  employee_commission_rules : list Rule.t;
  sales : list Sale.t;
  monthly_commission_summaries : list Summary.t
}.

(** The SQL statements the session sends, oldest first. *)
Inductive statement : Set :=
| SelectUser
| SelectSummary
| SelectRules
| SelectSales
| CountSales
| UpdateSale (id : Z)
| UpdateSummary (id : Z)
| InsertSummary (id : Z).

Definition is_write (st : statement) : bool :=
  match st with
  | UpdateSale _ | UpdateSummary _ | InsertSummary _ => true
  | _ => false
  end.

Record Session : Type := mkSession {
  tables : Database;
  log : list statement
}.

(** A handler step: it reads and changes the session and returns or raises. *)
Definition M (A : Type) : Type := Session -> outcome A * Session.

Definition ret {A} (a : A) : M A := fun s => (Return a, s).

Definition raise {A} (e : exn) : M A := fun s => (Raise e, s).

Definition bind {A B} (m : M A) (k : A -> M B) : M B :=
  fun s =>
    match m s with
    | (Return a, s') => k a s'
    | (Raise e, s') => (Raise e, s')
    end.

Definition lift {A} (o : outcome A) : M A := fun s => (o, s).

Declare Scope handler_scope.
Delimit Scope handler_scope with handler.
Notation "x <- m ;; k" := (bind m (fun x => k))
  (at level 100, m at next level, right associativity) : handler_scope.
Notation "m ;; k" := (bind m (fun _ => k))
  (at level 100, right associativity) : handler_scope.

(** Send one statement: it is logged and the tables are transformed. *)
Definition execute (st : statement) (f : Database -> Database) : M unit :=
  fun s => (Return tt, mkSession (f (tables s)) (log s ++ [st])).

(** Run a read-only query. *)
Definition query {A} (st : statement) (q : Database -> A) : M A :=
  fun s => (Return (q (tables s)), mkSession (tables s) (log s ++ [st])).

(* ================================================================== *)
(** ** routers/utils.py *)

(** [check_roles]: 403 unless the user's role is one of the allowed ones.
    (The debug [print] of the source is not modelled.) *)
Definition check_roles (current_user : User.t) (allowed_roles : list string) : M unit :=
  if negb (existsb (String.eqb (User.role current_user)) allowed_roles)
  then raise (HTTPException 403
                "Not authorized to perform this action. Insufficient role.")
  else ret tt.

(* ================================================================== *)
(** ** The queries of calculate_monthly_commission *)

Definition user_by_id (employee_id : Z) (u : User.t) : bool :=
  User.id u =? employee_id.

Definition summary_by_key (employee_id year month : Z) (s : Summary.t) : bool :=
  (Summary.employee_id s =? employee_id)
  && (Summary.year s =? year)
  && (Summary.month s =? month).

Definition summary_by_id (id : Z) (s : Summary.t) : bool :=
  Summary.id s =? id.

(** Only the employee and the [is_active] flag are filtered on. *)
Definition active_rule_of (employee_id : Z) (r : Rule.t) : bool :=
  (Rule.employee_id r =? employee_id) && Bool.eqb (Rule.is_active r) true.

(** A [NULL] close date fails both comparisons. *)
Definition closed_sale_in (employee_id : Z) (start_date end_date : Date.t)
           (s : Sale.t) : bool :=
  (Sale.salesperson_id s =? employee_id)
  && SaleStatus_eqb (Sale.status s) closed_won
  && match Sale.close_date s with
     | None => false
     | Some d => Date.leb start_date d && Date.leb d end_date
     end.

Definition active_lead_of (employee_id : Z) (s : Sale.t) : bool :=
  (Sale.salesperson_id s =? employee_id)
  && existsb (SaleStatus_eqb (Sale.status s)) [lead; proposal_sent; negotiating].

(* ================================================================== *)
(** ** The computation *)

(** [sum(sale.sale_amount for sale in closed_sales)] *)
Definition sum_amounts (closed_sales : list Sale.t) : Decimal :=
  fold_left (fun acc sale => (acc + Sale.sale_amount sale)%Q) closed_sales 0%Q.

(** The two nested conditions of the inner loop. *)
Definition rule_applies (rule : Rule.t) (sale : Sale.t) : bool :=
  match Rule.sale_type rule with
  | None => true
  | Some t => SaleType_eqb t (Sale.sale_type sale)
  end
  && Qle_bool (Rule.min_sale_amount rule) (Sale.sale_amount sale).

(** The inner [for rule in commission_rules: ... break] loop. *)
Fixpoint find_applicable_rule (commission_rules : list Rule.t) (sale : Sale.t)
  : option Rule.t :=
  match commission_rules with
  | [] => None
  | rule :: rest =>
      if match Rule.sale_type rule with
         | None => true
         | Some t => SaleType_eqb t (Sale.sale_type sale)
         end
      then if Qle_bool (Rule.min_sale_amount rule) (Sale.sale_amount sale)
           then Some rule
           else find_applicable_rule rest sale
      else find_applicable_rule rest sale
  end.

(** [(sale.sale_amount * applicable_rule.base_commission_rate) / 100] *)
Definition sale_commission (sale : Sale.t) (applicable_rule : Rule.t) : Decimal :=
  ((Sale.sale_amount sale * Rule.base_commission_rate applicable_rule) / 100)%Q.

(** [sales_breakdown[key][field] += ...] *)
Definition update_entry (key : string) (f : Breakdown.entry -> Breakdown.entry)
           (d : Breakdown.dict) : Breakdown.dict :=
  match Breakdown.get key d with
  | Some e => Breakdown.set key (f e) d
  | None => d
  end.

(** "Track breakdown by sale type".  The entry is created with the [int] 0
    in all three fields; [0 + x] for a float [x] is [float(0) + x], so the
    two float fields start from [float(0)]. *)
Definition track_breakdown (sales_breakdown : Breakdown.dict) (sale : Sale.t)
           (commission : Decimal) : Breakdown.dict :=
  let sale_type_key := SaleType_value (Sale.sale_type sale) in
  let sales_breakdown :=
    match Breakdown.get sale_type_key sales_breakdown with
    | None =>
        Breakdown.set sale_type_key
          (Breakdown.mk 0 (PyFloat.of_int 0) (PyFloat.of_int 0)) sales_breakdown
    | Some _ => sales_breakdown
    end in
  let sales_breakdown :=
    update_entry sale_type_key
      (fun e => Breakdown.mk (Breakdown.count e + 1)
                             (Breakdown.total_amount e) (Breakdown.commission e))
      sales_breakdown in
  let sales_breakdown :=
    update_entry sale_type_key
      (fun e => Breakdown.mk (Breakdown.count e)
                  (PyFloat.add (Breakdown.total_amount e)
                               (PyFloat.of_Decimal (Sale.sale_amount sale)))
                  (Breakdown.commission e))
      sales_breakdown in
  update_entry sale_type_key
    (fun e => Breakdown.mk (Breakdown.count e) (Breakdown.total_amount e)
                (PyFloat.add (Breakdown.commission e)
                             (PyFloat.of_Decimal commission)))
    sales_breakdown.

(** The state of the loop "Calculate base commission": the two
    accumulators and the sale objects whose attributes were assigned. *)
Record loop_state : Type := mk_loop_state {
  base_commission : Decimal;
  sales_breakdown : Breakdown.dict;
  dirty : list Sale.t
}.

(** One iteration of [for sale in closed_sales]. *)
Definition commission_step (commission_rules : list Rule.t)
           (st : loop_state) (sale : Sale.t) : loop_state :=
  match find_applicable_rule commission_rules sale with
  | Some applicable_rule =>
      let commission := sale_commission sale applicable_rule in
      mk_loop_state
        (base_commission st + commission)%Q
        (track_breakdown (sales_breakdown st) sale commission)
        (dirty st ++ [Sale.set_commission sale (Some commission) calculated])
  | None => st
  end.

Definition commission_loop (commission_rules : list Rule.t)
           (closed_sales : list Sale.t) : loop_state :=
  fold_left (commission_step commission_rules) closed_sales
            (mk_loop_state 0%Q [] []).

(** [rule.tierN_threshold and total_sales_amount >= rule.tierN_threshold] *)
Definition tier_reached (threshold : option Decimal) (total_sales_amount : Decimal)
  : bool :=
  match threshold with
  | None => false
  | Some t => Decimal_bool t && Qle_bool t total_sales_amount
  end.

(** [(total_sales_amount * rate) / 100] *)
Definition tier_amount (total_sales_amount rate : Decimal) : Decimal :=
  ((total_sales_amount * rate) / 100)%Q.

(** One iteration of the loop "Calculate tier bonuses". *)
Definition tier_step (total_sales_amount : Decimal) (tier_bonus : Decimal)
           (rule : Rule.t) : Decimal :=
  let tier_bonus :=
    if tier_reached (Rule.tier1_threshold rule) total_sales_amount
    then (tier_bonus + tier_amount total_sales_amount (Rule.tier1_bonus_rate rule))%Q
    else tier_bonus in
  let tier_bonus :=
    if tier_reached (Rule.tier2_threshold rule) total_sales_amount
    then (tier_bonus + tier_amount total_sales_amount (Rule.tier2_bonus_rate rule))%Q
    else tier_bonus in
  if tier_reached (Rule.tier3_threshold rule) total_sales_amount
  then (tier_bonus + tier_amount total_sales_amount (Rule.tier3_bonus_rate rule))%Q
  else tier_bonus.

Definition tier_loop (commission_rules : list Rule.t) (total_sales_amount : Decimal)
  : Decimal :=
  fold_left (tier_step total_sales_amount) commission_rules 0%Q.

(** Everything between the queries and the upsert. *)
Definition compute_summary (commission_rules : list Rule.t)
           (closed_sales : list Sale.t) (active_leads : Z) (utcnow : datetime)
  : Summary.computed * list Sale.t :=
  let total_sales_amount := sum_amounts closed_sales in
  let closed_deals_count := Z.of_nat (List.length closed_sales) in
  let st := commission_loop commission_rules closed_sales in
  let tier_bonus := tier_loop commission_rules total_sales_amount in
  let total_commission := (base_commission st + tier_bonus)%Q in
  (Summary.mk_computed total_sales_amount closed_deals_count active_leads
     (base_commission st) tier_bonus total_commission (sales_breakdown st)
     utcnow,
   dirty st).

(* ================================================================== *)
(** ** db.commit(): the unit of work *)

(** [UPDATE sales SET commission_amount = .., commission_status = ..
     WHERE sales.id = ..] for one assigned sale object. *)
Definition update_sale (sale : Sale.t) (d : Database) : Database :=
  mkDatabase (users d) (employee_commission_rules d)
    (map (fun row =>
            if Sale.id row =? Sale.id sale
            then Sale.set_commission row (Sale.commission_amount sale)
                                     (Sale.commission_status sale)
            else row)
         (sales d))
    (monthly_commission_summaries d).

Fixpoint flush_sales (dirty_sales : list Sale.t) : M unit :=
  match dirty_sales with
  | [] => ret tt
  | sale :: rest =>
      (execute (UpdateSale (Sale.id sale)) (update_sale sale) ;;
       flush_sales rest)%handler
  end.

(** [UPDATE monthly_commission_summaries SET <assigned columns> WHERE id = ..] *)
Definition update_summary (id : Z) (c : Summary.computed) (d : Database) : Database :=
  mkDatabase (users d) (employee_commission_rules d) (sales d)
    (map (fun row => if Summary.id row =? id then Summary.assign c row else row)
         (monthly_commission_summaries d)).

Definition insert_summary (row : Summary.t) (d : Database) : Database :=
  mkDatabase (users d) (employee_commission_rules d) (sales d)
    (monthly_commission_summaries d ++ [row]).

(** The primary key the database gives a new summary row. *)
Definition next_summary_id (d : Database) : Z :=
  Z.succ (fold_right Z.max 0 (map Summary.id (monthly_commission_summaries d))).

(** [models.MonthlyCommissionSummary(employee_id=.., year=.., month=..,
    calculated_by_id=..)] with the column defaults of the model, as inserted. *)
Definition new_summary (id employee_id year month calculated_by_id : Z)
           (utcnow : datetime) : Summary.t :=
  Summary.mk id employee_id year month 0%Q 0 0 0%Q 0%Q 0%Q pending None None
             utcnow utcnow calculated_by_id.

(* ================================================================== *)
(** ** The handler *)

(** "Calculate date range for the month": [start_date] and [end_date].
    Either [date(...)] call may raise. *)
Definition month_range (year month : Z) : outcome (Date.t * Date.t) :=
  match Date.date year month 1 with
  | Raise e => Raise e
  | Return start_date =>
      match (if month =? 12
             then Date.date (year + 1) 1 1
             else Date.date year (month + 1) 1) with
      | Raise e => Raise e
      | Return first_of_next => Return (start_date, Date.minus_one_day first_of_next)
      end
  end.

Definition calculate_monthly_commission
           (calculation_request : Request.t) (current_user : User.t)
           (utcnow : datetime) : M (option Summary.t) :=
  (check_roles current_user ["admin"; "Manager"; "Head"]%string ;;
   let employee_id := Request.employee_id calculation_request in
   let year := Request.year calculation_request in
   let month := Request.month calculation_request in
   (* Verify employee exists *)
   employee <- query SelectUser
                 (fun d => find (user_by_id employee_id) (users d)) ;;
   match employee with
   | None => raise (HTTPException 404 "Employee not found")
   | Some _ =>
     (* Check if summary already exists *)
     existing_summary <-
       query SelectSummary
         (fun d => find (summary_by_key employee_id year month)
                        (monthly_commission_summaries d)) ;;
     match existing_summary, Request.recalculate calculation_request with
     | Some existing, false =>
         query SelectSummary
           (fun d => find (summary_by_id (Summary.id existing))
                          (monthly_commission_summaries d))
     | _, _ =>
       (* Get commission rules for this employee *)
       commission_rules <-
         query SelectRules
           (fun d => filter (active_rule_of employee_id)
                            (employee_commission_rules d)) ;;
       match commission_rules with
       | [] => raise (HTTPException 400
                        "No commission rules found for this employee")
       | _ :: _ =>
         (* Calculate date range for the month *)
         range <- lift (month_range year month) ;;
         let '(start_date, end_date) := range in
         closed_sales <-
           query SelectSales
             (fun d => filter (closed_sale_in employee_id start_date end_date)
                              (sales d)) ;;
         active_leads <-
           query CountSales
             (fun d => Z.of_nat (List.length
                                   (filter (active_lead_of employee_id) (sales d)))) ;;
         let '(computed, dirty_sales) :=
           compute_summary commission_rules closed_sales active_leads utcnow in
         (* Create or update commission summary; db.commit() *)
         flush_sales dirty_sales ;;
         summary_id <-
           match existing_summary with
           | Some existing =>
               execute (UpdateSummary (Summary.id existing))
                       (update_summary (Summary.id existing) computed) ;;
               ret (Summary.id existing)
           | None =>
               id <- (fun s => (Return (next_summary_id (tables s)), s)) ;;
               execute (InsertSummary id)
                       (insert_summary
                          (Summary.assign computed
                             (new_summary id employee_id year month
                                          (User.id current_user) utcnow))) ;;
               ret id
           end ;;
         (* db.refresh(summary) *)
         query SelectSummary
           (fun d => find (summary_by_id summary_id)
                          (monthly_commission_summaries d)) ;;
         (* Load relationships for response *)
         query SelectSummary
           (fun d => find (summary_by_id summary_id)
                          (monthly_commission_summaries d))
       end
     end
   end)%handler.

(** Run the handler on a database with an empty statement log. *)
Definition run (calculation_request : Request.t) (current_user : User.t)
           (utcnow : datetime) (d : Database)
  : outcome (option Summary.t) * Session :=
  calculate_monthly_commission calculation_request current_user utcnow
                               (mkSession d []).

(* ================================================================== *)
(** * Vocabulary of the statements *)

(** A rule matches a sale: its type is [NULL] or the sale's, and the
    sale's amount reaches its minimum. *)
Definition Applies (rule : Rule.t) (sale : Sale.t) : Prop :=
  (Rule.sale_type rule = None \/ Rule.sale_type rule = Some (Sale.sale_type sale))
  /\ (Rule.min_sale_amount rule <= Sale.sale_amount sale)%Q.

(** What one sale adds to [base_commission]. *)
Definition contribution (commission_rules : list Rule.t) (sale : Sale.t) : Decimal :=
  match find_applicable_rule commission_rules sale with
  | Some rule => sale_commission sale rule
  | None => 0%Q
  end.

(** The sale object as the loop leaves it. *)
Definition processed (commission_rules : list Rule.t) (sale : Sale.t) : Sale.t :=
  match find_applicable_rule commission_rules sale with
  | Some rule => Sale.set_commission sale (Some (sale_commission sale rule)) calculated
  | None => sale
  end.

Definition has_rule (commission_rules : list Rule.t) (sale : Sale.t) : bool :=
  match find_applicable_rule commission_rules sale with
  | Some _ => true
  | None => false
  end.

Definition Qsum (l : list Q) : Q := fold_right Qplus 0%Q l.


(** *** The handler's intermediate values, as functions of the database *)

Definition authorised (current_user : User.t) : Prop :=
  In (User.role current_user) ["admin"; "Manager"; "Head"]%string.

Definition employee_of (req : Request.t) (d : Database) : option User.t :=
  find (user_by_id (Request.employee_id req)) (users d).

Definition existing_summary_of (req : Request.t) (d : Database) : option Summary.t :=
  find (summary_by_key (Request.employee_id req) (Request.year req)
                       (Request.month req))
       (monthly_commission_summaries d).

Definition commission_rules_of (req : Request.t) (d : Database) : list Rule.t :=
  filter (active_rule_of (Request.employee_id req)) (employee_commission_rules d).

Definition closed_sales_of (req : Request.t) (range : Date.t * Date.t)
           (d : Database) : list Sale.t :=
  filter (closed_sale_in (Request.employee_id req) (fst range) (snd range)) (sales d).

Definition active_leads_of (req : Request.t) (d : Database) : Z :=
  Z.of_nat (List.length (filter (active_lead_of (Request.employee_id req)) (sales d))).

Definition computed_of (req : Request.t) (utcnow : datetime)
           (range : Date.t * Date.t) (d : Database) : Summary.computed * list Sale.t :=
  compute_summary (commission_rules_of req d) (closed_sales_of req range d)
                  (active_leads_of req d) utcnow.

(** The tables after the [UPDATE]s of the assigned sales. *)
Definition flushed (dirty_sales : list Sale.t) (d : Database) : Database :=
  fold_left (fun d sale => update_sale sale d) dirty_sales d.

Definition summary_lookup (id : Z) (d : Database) : option Summary.t :=
  find (summary_by_id id) (monthly_commission_summaries d).

(** The statements of a calculation up to the commit. *)
Definition reads_before_commit : list statement :=
  [SelectUser; SelectSummary; SelectRules; SelectSales; CountSales].

Definition sale_updates (dirty_sales : list Sale.t) : list statement :=
  map (fun sale => UpdateSale (Sale.id sale)) dirty_sales.

(** The number of summary rows of one (employee, year, month). *)
Definition summary_rows (employee_id year month : Z) (d : Database) : nat :=
  List.length (filter (summary_by_key employee_id year month)
                      (monthly_commission_summaries d)).

(** *** Sample rows *)

Module Sample.

Definition manager : User.t := User.mk 1 "manager@bwc.test" "Manager" true.
Definition agent : User.t := User.mk 2 "agent@bwc.test" "Agent" true.

Definition jan_2024 : Date.t := Date.mk 2024 1 1.

(** 10% on every sale of at least 500, with the three tiers of seed.py. *)
Definition rule : Rule.t :=
  Rule.mk 1 2 None 10%Q 500%Q (Some 10000%Q) 2%Q (Some 20000%Q) 3%Q
          (Some 30000%Q) 5%Q true jan_2024 None.

Definition sale (id : Z) (t : SaleType) (amount : Decimal) (day : Z) : Sale.t :=
  Sale.mk id t closed_won amount 2 (Some (Date.mk 2025 6 day)) 10%Q None pending.

Definition june : Request.t := Request.mk 2 2025 6 false.
Definition june_again : Request.t := Request.mk 2 2025 6 true.
Definition month_13 : Request.t := Request.mk 2 2025 13 false.

Definition db : Database :=
  mkDatabase [manager; agent] [rule]
             [sale 1 consulting 1000%Q 30; sale 2 consulting 100%Q 1;
              sale 3 other 24000%Q 15]
             [].

(** The same users and sales, no commission rule. *)
Definition db_no_rules : Database :=
  mkDatabase [manager; agent] [] (sales db) [].

(** A stored summary of June 2025. *)
Definition stored : Summary.t :=
  Summary.mk 7 2 2025 6 25100%Q 3 0 2500%Q 1255%Q 3755%Q pending None None 50 50 1.

Definition db_with_summary : Database :=
  mkDatabase [manager; agent] [rule] (sales db) [stored].

End Sample.

(** *** Sequences of calls *)

(** One request as the handler receives it: the body, the authenticated
    user and the clock. *)
Definition call : Type := (Request.t * User.t * datetime)%type.

(** The tables after one call, whether it returned or raised. *)
Definition after (c : call) (d : Database) : Database :=
  let '(req, u, now) := c in tables (snd (run req u now d)).

(** The tables after a sequence of calls, one after the other. *)
Definition after_all (calls : list call) (d : Database) : Database :=
  fold_left (fun d c => after c d) calls d.

(** Every way a call can end, with the tables it leaves. *)
Inductive call_effect (req : Request.t) (d d' : Database) : Prop :=
| effect_none :
    d' = d -> call_effect req d d'
| effect_update (existing : Summary.t) (c : Summary.computed) (dirty_sales : list Sale.t) :
    existing_summary_of req d = Some existing ->
    d' = update_summary (Summary.id existing) c (flushed dirty_sales d) ->
    call_effect req d d'
| effect_insert (row : Summary.t) (dirty_sales : list Sale.t) :
    existing_summary_of req d = None ->
    summary_by_key (Request.employee_id req) (Request.year req)
                   (Request.month req) row = true ->
    d' = insert_summary row (flushed dirty_sales d) ->
    call_effect req d d'.

(** The row carries the values the handler assigned. *)
Definition carries (c : Summary.computed) (s : Summary.t) : Prop :=
  Summary.total_sales_amount s = Summary.c_total_sales_amount c
  /\ Summary.closed_deals_count s = Summary.c_closed_deals_count c
  /\ Summary.active_leads_count s = Summary.c_active_leads_count c
  /\ Summary.base_commission s = Summary.c_base_commission c
  /\ Summary.tier_bonus s = Summary.c_tier_bonus c
  /\ Summary.total_commission s = Summary.c_total_commission c
  /\ Summary.sales_breakdown s = Some (Summary.c_sales_breakdown c)
  /\ Summary.last_updated s = Summary.c_last_updated c.

(** The conditions under which a call gets to the calculation. *)
Definition calculates (req : Request.t) (u : User.t) (d : Database)
           (range : Date.t * Date.t) : Prop :=
  authorised u
  /\ employee_of req d <> None
  /\ (existing_summary_of req d = None \/ Request.recalculate req = true)
  /\ commission_rules_of req d <> []
  /\ month_range (Request.year req) (Request.month req) = Return range.

(** Primary keys are unique. *)
Definition summary_ids_unique (d : Database) : Prop :=
  NoDup (map Summary.id (monthly_commission_summaries d)).

Definition sale_ids_unique (d : Database) : Prop :=
  NoDup (map Sale.id (sales d)).

(** *** Tier bonuses *)

(** The tier rule in the words of the specification: a tier counts when its
    threshold is present and the total reaches it. *)
Definition tier_present_and_reached (threshold : option Decimal)
           (total_sales_amount : Decimal) : bool :=
  match threshold with
  | None => false
  | Some t => Qle_bool t total_sales_amount
  end.

Definition rule_bonus_as_claimed (total_sales_amount : Decimal) (rule : Rule.t)
  : Decimal :=
  ((if tier_present_and_reached (Rule.tier1_threshold rule) total_sales_amount
    then tier_amount total_sales_amount (Rule.tier1_bonus_rate rule) else 0)
   + (if tier_present_and_reached (Rule.tier2_threshold rule) total_sales_amount
      then tier_amount total_sales_amount (Rule.tier2_bonus_rate rule) else 0)
   + (if tier_present_and_reached (Rule.tier3_threshold rule) total_sales_amount
      then tier_amount total_sales_amount (Rule.tier3_bonus_rate rule) else 0))%Q.

Definition tier_bonus_as_claimed (commission_rules : list Rule.t)
           (total_sales_amount : Decimal) : Decimal :=
  Qsum (map (rule_bonus_as_claimed total_sales_amount) commission_rules).

(** The tier rule of the code: the threshold is present, not zero, and
    reached. *)
Definition tier_pays (threshold : option Decimal) (total_sales_amount : Decimal)
  : Prop :=
  exists t, threshold = Some t /\ ~ (t == 0)%Q /\ (t <= total_sales_amount)%Q.

Definition tier_part (threshold : option Decimal) (rate total_sales_amount : Decimal)
  : Decimal :=
  if tier_reached threshold total_sales_amount
  then tier_amount total_sales_amount rate
  else 0%Q.

Definition rule_tier_bonus (total_sales_amount : Decimal) (rule : Rule.t) : Decimal :=
  (tier_part (Rule.tier1_threshold rule) (Rule.tier1_bonus_rate rule) total_sales_amount
   + tier_part (Rule.tier2_threshold rule) (Rule.tier2_bonus_rate rule) total_sales_amount
   + tier_part (Rule.tier3_threshold rule) (Rule.tier3_bonus_rate rule) total_sales_amount)%Q.

(** A zero threshold replaced by an absent one. *)
Definition drop_zero (threshold : option Decimal) : option Decimal :=
  if truthy threshold then threshold else None.

Definition without_zero_tiers (r : Rule.t) : Rule.t :=
  Rule.mk (Rule.id r) (Rule.employee_id r) (Rule.sale_type r)
          (Rule.base_commission_rate r) (Rule.min_sale_amount r)
          (drop_zero (Rule.tier1_threshold r)) (Rule.tier1_bonus_rate r)
          (drop_zero (Rule.tier2_threshold r)) (Rule.tier2_bonus_rate r)
          (drop_zero (Rule.tier3_threshold r)) (Rule.tier3_bonus_rate r)
          (Rule.is_active r) (Rule.effective_from r) (Rule.effective_until r).

(** *** Rewriting the rule table *)

Definition map_rules (f : Rule.t -> Rule.t) (d : Database) : Database :=
  mkDatabase (users d) (map f (employee_commission_rules d)) (sales d)
             (monthly_commission_summaries d).

(** [f] keeps everything of a rule that the calculation reads. *)
Definition same_calculation (f : Rule.t -> Rule.t) : Prop :=
  forall r,
    Rule.employee_id (f r) = Rule.employee_id r
    /\ Rule.is_active (f r) = Rule.is_active r
    /\ Rule.sale_type (f r) = Rule.sale_type r
    /\ Rule.base_commission_rate (f r) = Rule.base_commission_rate r
    /\ Rule.min_sale_amount (f r) = Rule.min_sale_amount r
    /\ forall total acc, tier_step total acc (f r) = tier_step total acc r.

(** The rule with another effective window. *)
Definition set_window (effective_from : Date.t) (effective_until : option Date.t)
           (r : Rule.t) : Rule.t :=
  Rule.mk (Rule.id r) (Rule.employee_id r) (Rule.sale_type r)
          (Rule.base_commission_rate r) (Rule.min_sale_amount r)
          (Rule.tier1_threshold r) (Rule.tier1_bonus_rate r)
          (Rule.tier2_threshold r) (Rule.tier2_bonus_rate r)
          (Rule.tier3_threshold r) (Rule.tier3_bonus_rate r)
          (Rule.is_active r) effective_from effective_until.

(** The window covers some day of the month (year, month). *)
Definition window_covers (r : Rule.t) (year month : Z) : bool :=
  Date.leb (Rule.effective_from r) (Date.mk year month 31)
  && match Rule.effective_until r with
     | None => true
     | Some u => Date.leb (Date.mk year month 1) u
     end.

Module SampleTiers.

(** A rule whose first tier has threshold 0 and bonus rate 5. *)
Definition zero_tier_rule : Rule.t :=
  Rule.mk 1 2 None 10%Q 0%Q (Some 0%Q) 5%Q None 0%Q None 0%Q true
          Sample.jan_2024 None.

Definition db : Database :=
  mkDatabase [Sample.manager; Sample.agent] [zero_tier_rule]
             [Sample.sale 1 consulting 1000%Q 30] [].

(** A rule that was only in force during 2024. *)
Definition expired_rule : Rule.t :=
  Rule.mk 1 2 None 10%Q 500%Q (Some 10000%Q) 2%Q (Some 20000%Q) 3%Q
          (Some 30000%Q) 5%Q true Sample.jan_2024 (Some (Date.mk 2024 12 31)).

Definition db_expired : Database :=
  mkDatabase [Sample.manager; Sample.agent] [expired_rule]
             [Sample.sale 1 consulting 25000%Q 30] [].

End SampleTiers.

(** *** A sale below the minimum of every rule of its type *)

Definition below_every_minimum (commission_rules : list Rule.t) (sale : Sale.t)
  : Prop :=
  forall r,
    In r commission_rules ->
    Rule.sale_type r = None \/ Rule.sale_type r = Some (Sale.sale_type sale) ->
    (Sale.sale_amount sale < Rule.min_sale_amount r)%Q.

(** The sales table with one more row between [before] and [after]. *)
Definition with_sales (d : Database) (rows : list Sale.t) : Database :=
  mkDatabase (users d) (employee_commission_rules d) rows
             (monthly_commission_summaries d).

(** *** The breakdown, one sale type at a time *)

(** [float(x1) + float(x2) + ...], added left to right from [float(0)]. *)
Definition float_sum (l : list Decimal) : PyFloat.float :=
  fold_left (fun acc x => PyFloat.add acc (PyFloat.of_Decimal x)) l (PyFloat.of_int 0).

(** The sales of type [t] that found a rule, in loop order. *)
Definition matched (commission_rules : list Rule.t) (t : SaleType)
           (closed_sales : list Sale.t) : list Sale.t :=
  filter (fun sale => has_rule commission_rules sale
                      && SaleType_eqb (Sale.sale_type sale) t)
         closed_sales.

Definition breakdown_entry (commission_rules : list Rule.t) (t : SaleType)
           (closed_sales : list Sale.t) : option Breakdown.entry :=
  match matched commission_rules t closed_sales with
  | [] => None
  | l => Some (Breakdown.mk (Z.of_nat (List.length l))
                            (float_sum (map Sale.sale_amount l))
                            (float_sum (map (contribution commission_rules) l)))
  end.

(** What one iteration does to the entry of type [t]. *)
Definition bump (e : option Breakdown.entry) (amount commission : Decimal)
  : Breakdown.entry :=
  let e := match e with
           | Some e => e
           | None => Breakdown.mk 0 (PyFloat.of_int 0) (PyFloat.of_int 0)
           end in
  Breakdown.mk (Breakdown.count e + 1)
               (PyFloat.add (Breakdown.total_amount e) (PyFloat.of_Decimal amount))
               (PyFloat.add (Breakdown.commission e) (PyFloat.of_Decimal commission)).

(** The entry of [t] after the loop, from the entry before it. *)
Definition entry_after (rules : list Rule.t) (t : SaleType) (sales : list Sale.t)
           (e : option Breakdown.entry) : option Breakdown.entry :=
  fold_left (fun e sale => Some (bump e (Sale.sale_amount sale) (contribution rules sale)))
            (matched rules t sales) e.

Module SampleCents.

(** Three consulting sales of 0.10 each and a 10% rule without minimum. *)
Definition rule : Rule.t :=
  Rule.mk 1 2 None 10%Q 0%Q None 0%Q None 0%Q None 0%Q true Sample.jan_2024 None.

Definition db : Database :=
  mkDatabase [Sample.manager; Sample.agent] [rule]
             [Sample.sale 1 consulting 0.10%Q 1; Sample.sale 2 consulting 0.10%Q 2;
              Sample.sale 3 consulting 0.10%Q 3]
             [].

End SampleCents.

(** *** The sales table after the commit *)

(** The effect of one [UPDATE sales ... WHERE id = ..] on one row. *)
Definition updated_by (sale row : Sale.t) : Sale.t :=
  if Sale.id row =? Sale.id sale
  then Sale.set_commission row (Sale.commission_amount sale)
                           (Sale.commission_status sale)
  else row.

(** A row of the sales table after a calculation over [range]: the
    selected sales that found a rule carry their commission, every other
    row is as before. *)
Definition row_after (req : Request.t) (range : Date.t * Date.t) (d : Database)
           (row : Sale.t) : Sale.t :=
  if closed_sale_in (Request.employee_id req) (fst range) (snd range) row
  then processed (commission_rules_of req d) row
  else row.

(** A first calculation, a forced recalculation and a plain repeat. *)
Definition three_calls : list call :=
  [(Sample.june, Sample.manager, 60);
   (Sample.june_again, Sample.manager, 61);
   (Sample.june, Sample.manager, 62)].

(** The same request with [recalculate] set. *)
Definition forced (req : Request.t) : Request.t :=
  Request.mk (Request.employee_id req) (Request.year req) (Request.month req) true.

(** *** The rows as PostgreSQL holds them *)

(** [round(numeric)]: the nearest integer, ties away from zero. *)
Definition round_half_away (q : Q) : Z :=
  if Qle_bool 0 q then Qfloor (q + (1 # 2)) else - Qfloor (- q + (1 # 2)).

(** The value a [Numeric(p, 2)] column holds once [v] was written to it. *)
Definition Numeric_2 (v : Decimal) : Decimal :=
  Qmake (round_half_away (v * 100)) 100.

(** The rounded value has at most [precision] digits; PostgreSQL refuses
    any other with "numeric field overflow". *)
Definition Numeric_fits (precision : Z) (v : Decimal) : bool :=
  Z.abs (round_half_away (v * 100)) <? 10 ^ precision.

(** A sale row as stored: [sale_amount] is [Numeric(12,2)],
    [commission_rate] is [Numeric(5,2)], [commission_amount] is
    [Numeric(10,2)]. *)
Definition stored_sale (s : Sale.t) : Sale.t :=
  Sale.mk (Sale.id s) (Sale.sale_type s) (Sale.status s)
          (Numeric_2 (Sale.sale_amount s)) (Sale.salesperson_id s)
          (Sale.close_date s) (Numeric_2 (Sale.commission_rate s))
          (option_map Numeric_2 (Sale.commission_amount s))
          (Sale.commission_status s).

(** A summary row as stored, and as [db.refresh(summary)] reads it back
    for the response: [total_sales_amount] is [Numeric(12,2)], the three
    commission columns are [Numeric(10,2)]. *)
Definition stored_summary (s : Summary.t) : Summary.t :=
  Summary.mk (Summary.id s) (Summary.employee_id s) (Summary.year s)
             (Summary.month s)
             (Numeric_2 (Summary.total_sales_amount s))
             (Summary.closed_deals_count s) (Summary.active_leads_count s)
             (Numeric_2 (Summary.base_commission s))
             (Numeric_2 (Summary.tier_bonus s))
             (Numeric_2 (Summary.total_commission s))
             (Summary.payment_status s) (Summary.payment_date s)
             (Summary.sales_breakdown s) (Summary.calculated_at s)
             (Summary.last_updated s) (Summary.calculated_by_id s).

(** Every value the commit of a calculation writes fits its column. *)
Definition commit_fits (work : Summary.computed * list Sale.t) : bool :=
  Numeric_fits 12 (Summary.c_total_sales_amount (fst work))
  && Numeric_fits 10 (Summary.c_base_commission (fst work))
  && Numeric_fits 10 (Summary.c_tier_bonus (fst work))
  && Numeric_fits 10 (Summary.c_total_commission (fst work))
  && forallb (fun sale => match Sale.commission_amount sale with
                          | Some v => Numeric_fits 10 v
                          | None => true
                          end)
             (snd work).

(** The row carries, as stored, the values the handler assigned. *)
Definition stores (c : Summary.computed) (s : Summary.t) : Prop :=
  Summary.total_sales_amount (stored_summary s)
  = Numeric_2 (Summary.c_total_sales_amount c)
  /\ Summary.closed_deals_count s = Summary.c_closed_deals_count c
  /\ Summary.active_leads_count s = Summary.c_active_leads_count c
  /\ Summary.base_commission (stored_summary s)
     = Numeric_2 (Summary.c_base_commission c)
  /\ Summary.tier_bonus (stored_summary s) = Numeric_2 (Summary.c_tier_bonus c)
  /\ Summary.total_commission (stored_summary s)
     = Numeric_2 (Summary.c_total_commission c)
  /\ Summary.sales_breakdown s = Some (Summary.c_sales_breakdown c)
  /\ Summary.last_updated s = Summary.c_last_updated c.

Module SampleRounding.

(** One consulting sale of 12345.64 and a 10% rule whose first tier pays 2%
    from 10000 on: the commission is 1234.564, the bonus 246.9128. *)
Definition rule : Rule.t :=
  Rule.mk 1 2 None 10%Q 0%Q (Some 10000%Q) 2%Q None 0%Q None 0%Q true
          Sample.jan_2024 None.

Definition db : Database :=
  mkDatabase [Sample.manager; Sample.agent] [rule]
             [Sample.sale 1 consulting 12345.64%Q 1] [].

End SampleRounding.
(* ================================================================== *)
(** * The other endpoints of routers/sales.py and routers/payments.py

    The same conventions hold.  In addition:
    - The handlers below run in a state-and-error monad over the tables
      they touch: the four tables of [Database], with the payments table
      beside them for routers/payments.py.  They raise [HTTPException] or
      one of the exceptions that no handler of the source catches.
    - A handler is the route as the client sees it: a route declared with a
      [response_model] that hands FastAPI a value the model does not accept
      ends in [ResponseValidationError], a 500 for the client.
    - [datetime.utcnow().date()] and [date.today()] are a parameter
      [today]; assignments to columns that no modelled function reads
      ([notes], [updated_at], titles and descriptions) are left out.
    - [create_sale] writes a row of client data, most of whose columns are
      not modelled: whether the database accepts it, and under which key,
      is the parameter [commit] of the handler.
    - [ORDER BY] is a stable insertion sort; the order among rows with equal
      keys is the database's choice and no statement below depends on it. *)

From Stdlib Require Import Sorted Permutation.

(* ================================================================== *)
(** ** Results and handlers *)

(** What a request can end with besides a response. *)
Inductive error : Set :=
| Exn (e : exn)
| NameError (name : string)
| IndexError (msg : string)
| AttributeError (msg : string)
| DBAPIError (detail : string)
| ResponseValidationError.

Inductive result (A : Type) : Type :=
| Ok (a : A)
| Err (e : error).
Arguments Ok {A} a.
Arguments Err {A} e.

(** A handler over the state [S]. *)
Definition St (S A : Type) : Type := S -> result A * S.

Definition st_ret {S A} (a : A) : St S A := fun s => (Ok a, s).

Definition st_raise {S A} (e : error) : St S A := fun s => (Err e, s).

Definition st_http {S A} (status_code : Z) (detail : string) : St S A :=
  st_raise (Exn (HTTPException status_code detail)).

Definition st_bind {S A B} (m : St S A) (k : A -> St S B) : St S B :=
  fun s =>
    match m s with
    | (Ok a, s') => k a s'
    | (Err e, s') => (Err e, s')
    end.

(** Read from the tables. *)
Definition st_query {S A} (q : S -> A) : St S A := fun s => (Ok (q s), s).

(** Change the tables. *)
Definition st_execute {S} (f : S -> S) : St S unit := fun s => (Ok tt, f s).

Declare Scope st_scope.
Delimit Scope st_scope with st.
Notation "x <- m ;; k" := (st_bind m (fun x => k))
  (at level 100, m at next level, right associativity) : st_scope.
Notation "m ;; k" := (st_bind m (fun _ => k))
  (at level 100, right associativity) : st_scope.

(** [check_roles] of routers/utils.py, for these handlers. *)
Definition check_roles_st {S} (current_user : User.t) (allowed_roles : list string)
  : St S unit :=
  if negb (existsb (String.eqb (User.role current_user)) allowed_roles)
  then st_http 403 "Not authorized to perform this action. Insufficient role."
  else st_ret tt.

(** [if x:] for an [Optional[int]]: [None] and 0 are falsy. *)
Definition truthy_int (x : option Z) : bool :=
  match x with
  | None => false
  | Some z => negb (z =? 0)
  end.

(* ================================================================== *)
(** ** models.py: Sale.calculate_commission *)

(** The method assigns [commission_amount] (and, in the first branch,
    [commission_status]) and returns the amount it assigned. *)
Definition Sale_calculate_commission (self : Sale.t) : Sale.t :=
  if SaleStatus_eqb (Sale.status self) closed_won
     && Decimal_bool (Sale.sale_amount self)
  then Sale.set_commission self
         (Some ((Sale.sale_amount self * Sale.commission_rate self) / 100)%Q)
         calculated
  else Sale.set_commission self (Some 0%Q) (Sale.commission_status self).

Definition set_status (s : Sale.t) (st : SaleStatus) : Sale.t :=
  Sale.mk (Sale.id s) (Sale.sale_type s) st (Sale.sale_amount s)
          (Sale.salesperson_id s) (Sale.close_date s) (Sale.commission_rate s)
          (Sale.commission_amount s) (Sale.commission_status s).

Definition set_close_date (s : Sale.t) (d : option Date.t) : Sale.t :=
  Sale.mk (Sale.id s) (Sale.sale_type s) (Sale.status s) (Sale.sale_amount s)
          (Sale.salesperson_id s) d (Sale.commission_rate s)
          (Sale.commission_amount s) (Sale.commission_status s).

(* ================================================================== *)
(** ** routers/sales.py: the sale endpoints *)

Definition sale_by_id (sale_id : Z) (s : Sale.t) : bool := Sale.id s =? sale_id.

Definition with_sale_rows (f : list Sale.t -> list Sale.t) (d : Database) : Database :=
  mkDatabase (users d) (employee_commission_rules d) (f (sales d))
             (monthly_commission_summaries d).

(** [schemas.SaleCreate]: the fields that fill the columns of [Sale.t]. *)
Module SaleCreate.

Record t : Set := mk {
  sale_type : SaleType;
  sale_amount : Decimal;
  salesperson_id : Z;
  commission_rate : Decimal
}.

End SaleCreate.

(** The [models.Sale] row built from the dumped request, with the column
    defaults: status [lead], no close date, no commission amount,
    commission status [pending]. *)
Definition new_sale (id : Z) (sale : SaleCreate.t) : Sale.t :=
  Sale.mk id (SaleCreate.sale_type sale) lead (SaleCreate.sale_amount sale)
          (SaleCreate.salesperson_id sale) None (SaleCreate.commission_rate sale)
          None pending.

(** The answer of the database to the [db.commit()] of a new row: it
    stores the row under the next key of its sequence, or it refuses it (a
    [company_id] or [project_id] that references no row, a value that does
    not fit its column, ...) and the session raises the error. *)
Inductive commit_result : Set :=
| Stored (id : Z)
| Refused (detail : string).

(** [create_sale].  The reload after the commit filters on [sale_id], a
    name that is bound nowhere in the function or the module. *)
Definition create_sale (sale : SaleCreate.t) (current_user : User.t)
           (commit : commit_result) : St Database Sale.t :=
  (check_roles_st current_user ["admin"; "Manager"; "Head"; "Pillar"]%string ;;
   (* Verify salesperson exists *)
   salesperson <- st_query (fun d => find (user_by_id (SaleCreate.salesperson_id sale))
                                          (users d)) ;;
   match salesperson with
   | None => st_http 404 "Salesperson not found"
   | Some _ =>
       (* db.add(db_sale); db.commit(); db.refresh(db_sale) *)
       match commit with
       | Refused detail => st_raise (DBAPIError detail)
       | Stored id =>
           st_execute (with_sale_rows (fun rows => rows ++ [new_sale id sale])) ;;
           (* Load relationships for response *)
           st_raise (NameError "sale_id")
       end
   end)%st.

(** [get_sale] *)
Definition get_sale (sale_id : Z) : St Database Sale.t :=
  (sale <- st_query (fun d => find (sale_by_id sale_id) (sales d)) ;;
   match sale with
   | None => st_http 404 "Sale not found"
   | Some s => st_ret s
   end)%st.

(** [delete_sale]: [DELETE FROM sales WHERE id = ..]. *)
Definition delete_sale (sale_id : Z) (current_user : User.t) : St Database unit :=
  (check_roles_st current_user ["admin"]%string ;;
   db_sale <- st_query (fun d => find (sale_by_id sale_id) (sales d)) ;;
   match db_sale with
   | None => st_http 404 "Sale not found"
   | Some s =>
       st_execute (with_sale_rows
                     (filter (fun row => negb (Sale.id row =? Sale.id s))))
   end)%st.

(** [schemas.SaleStatusUpdate] ([notes] is not modelled). *)
Module SaleStatusUpdate.

Record t : Set := mk {
  status : SaleStatus;
  close_date : option Date.t
}.

End SaleStatusUpdate.

(** The attribute assignments of [update_sale_status], on the loaded row. *)
Definition apply_status_update (status_update : SaleStatusUpdate.t) (today : Date.t)
           (db_sale : Sale.t) : Sale.t :=
  (* Update status *)
  let db_sale := set_status db_sale (SaleStatusUpdate.status status_update) in
  let db_sale :=
    match SaleStatusUpdate.close_date status_update with
    | Some d => set_close_date db_sale (Some d)
    | None => db_sale
    end in
  (* Auto-set close date if closing deal *)
  let db_sale :=
    if existsb (SaleStatus_eqb (SaleStatusUpdate.status status_update))
               [closed_won; closed_lost]
    then match Sale.close_date db_sale with
         | None => set_close_date db_sale (Some today)
         | Some _ => db_sale
         end
    else db_sale in
  (* Calculate commission if deal is won *)
  if SaleStatus_eqb (SaleStatusUpdate.status status_update) closed_won
  then Sale_calculate_commission db_sale
  else db_sale.

(** [UPDATE sales SET status, close_date, commission_amount,
    commission_status WHERE id = ..] *)
Definition write_sale (db_sale : Sale.t) (row : Sale.t) : Sale.t :=
  if Sale.id row =? Sale.id db_sale
  then Sale.mk (Sale.id row) (Sale.sale_type row) (Sale.status db_sale)
               (Sale.sale_amount row) (Sale.salesperson_id row)
               (Sale.close_date db_sale) (Sale.commission_rate row)
               (Sale.commission_amount db_sale) (Sale.commission_status db_sale)
  else row.

(** [update_sale_status].  The body ends after the reload of the row and
    has no [return] statement: the function hands [None] to a route
    declared with [response_model=schemas.SaleResponse]. *)
Definition update_sale_status (sale_id : Z) (status_update : SaleStatusUpdate.t)
           (current_user : User.t) (today : Date.t) : St Database Sale.t :=
  (check_roles_st current_user ["admin"; "Manager"; "Head"; "Pillar"]%string ;;
   db_sale <- st_query (fun d => find (sale_by_id sale_id) (sales d)) ;;
   match db_sale with
   | None => st_http 404 "Sale not found"
   | Some s =>
       let db_sale := apply_status_update status_update today s in
       (* db.commit(); db.refresh(db_sale) *)
       st_execute (with_sale_rows (map (write_sale db_sale))) ;;
       (* Load relationships for response *)
       st_query (fun d => find (sale_by_id sale_id) (sales d)) ;;
       st_raise ResponseValidationError
   end)%st.

(* ================================================================== *)
(** ** routers/sales.py: commission rules and summaries *)

(** [schemas.CommissionRuleCreate] *)
Module RuleCreate.

Record t : Type := mk {
  employee_id : Z;
  sale_type : option SaleType;
  base_commission_rate : Decimal;
  min_sale_amount : Decimal;
  tier1_threshold : option Decimal;
  tier1_bonus_rate : Decimal;
  tier2_threshold : option Decimal;
  tier2_bonus_rate : Decimal;
  tier3_threshold : option Decimal;
  tier3_bonus_rate : Decimal;
  effective_from : Date.t;
  effective_until : option Date.t
}.

End RuleCreate.

Definition next_rule_id (d : Database) : Z :=
  Z.succ (fold_right Z.max 0 (map Rule.id (employee_commission_rules d))).

(** The [models.EmployeeCommissionRule] row built from the dumped request;
    [is_active] takes its column default [True]. *)
Definition new_rule (id : Z) (rule : RuleCreate.t) : Rule.t :=
  Rule.mk id (RuleCreate.employee_id rule) (RuleCreate.sale_type rule)
          (RuleCreate.base_commission_rate rule) (RuleCreate.min_sale_amount rule)
          (RuleCreate.tier1_threshold rule) (RuleCreate.tier1_bonus_rate rule)
          (RuleCreate.tier2_threshold rule) (RuleCreate.tier2_bonus_rate rule)
          (RuleCreate.tier3_threshold rule) (RuleCreate.tier3_bonus_rate rule)
          true (RuleCreate.effective_from rule) (RuleCreate.effective_until rule).

Definition insert_rule (row : Rule.t) (d : Database) : Database :=
  mkDatabase (users d) (employee_commission_rules d ++ [row]) (sales d)
             (monthly_commission_summaries d).

Definition rule_by_id (id : Z) (r : Rule.t) : bool := Rule.id r =? id.

(** [create_commission_rule] *)
Definition create_commission_rule (rule : RuleCreate.t) (current_user : User.t)
  : St Database (option Rule.t) :=
  (check_roles_st current_user ["admin"; "Manager"; "Head"]%string ;;
   (* Verify employee exists *)
   employee <- st_query (fun d => find (user_by_id (RuleCreate.employee_id rule))
                                       (users d)) ;;
   match employee with
   | None => st_http 404 "Employee not found"
   | Some _ =>
       id <- st_query next_rule_id ;;
       st_execute (insert_rule (new_rule id rule)) ;;
       (* Load relationships for response *)
       st_query (fun d => find (rule_by_id id) (employee_commission_rules d))
   end)%st.

(** [get_commission_rules]: the employee filter is applied when
    [employee_id] is truthy, the [is_active] filter always. *)
Definition get_commission_rules (employee_id : option Z) (current_user : User.t)
  : St Database (list Rule.t) :=
  (check_roles_st current_user ["admin"; "Manager"; "Head"]%string ;;
   st_query (fun d =>
     let query := employee_commission_rules d in
     let query :=
       if truthy_int employee_id
       then filter (fun r => match employee_id with
                             | Some e => Rule.employee_id r =? e
                             | None => false
                             end) query
       else query in
     filter (fun r => Bool.eqb (Rule.is_active r) true) query))%st.

(** [x] is not after [y] under [ORDER BY year DESC, month DESC]. *)
Definition summary_not_after (x y : Summary.t) : bool :=
  (Summary.year y <? Summary.year x)
  || ((Summary.year x =? Summary.year y) && (Summary.month y <=? Summary.month x)).

Fixpoint insert_summary_desc (x : Summary.t) (l : list Summary.t) : list Summary.t :=
  match l with
  | [] => [x]
  | y :: rest =>
      if summary_not_after x y then x :: y :: rest
      else y :: insert_summary_desc x rest
  end.

(** [order_by(desc(year), desc(month))] *)
Definition order_by_period_desc (l : list Summary.t) : list Summary.t :=
  fold_right insert_summary_desc [] l.

(** One optional filter of [get_commission_summaries]. *)
Definition filter_if_truthy (x : option Z) (column : Summary.t -> Z)
           (l : list Summary.t) : list Summary.t :=
  if truthy_int x
  then filter (fun s => match x with
                        | Some v => column s =? v
                        | None => false
                        end) l
  else l.

(** [get_commission_summaries] *)
Definition get_commission_summaries (employee_id year month : option Z)
           (current_user : User.t) : St Database (list Summary.t) :=
  (check_roles_st current_user ["admin"; "Manager"; "Head"]%string ;;
   st_query (fun d =>
     let query := monthly_commission_summaries d in
     let query := filter_if_truthy employee_id Summary.employee_id query in
     let query := filter_if_truthy year Summary.year query in
     let query := filter_if_truthy month Summary.month query in
     order_by_period_desc query))%st.

(** [calculate_monthly_commission] as a handler over the tables. *)
Definition calculate (calculation_request : Request.t) (current_user : User.t)
           (utcnow : datetime) : St Database (option Summary.t) :=
  fun d =>
    match run calculation_request current_user utcnow d with
    | (Return a, s) => (Ok a, tables s)
    | (Raise e, s) => (Err (Exn e), tables s)
    end.

(* ================================================================== *)
(** ** models.py: Payment, and routers/payments.py *)

Inductive PaymentType : Set :=
| commission_payment | base_salary | bonus | car_rental_income | business_expense
| office_rent | utility_bill | equipment_purchase | other_income | other_expense.

Inductive PaymentStatus : Set :=
| payment_pending | payment_approved | payment_paid | payment_overdue
| payment_cancelled | payment_disputed.

Definition PaymentStatus_eqb (a b : PaymentStatus) : bool :=
  match a, b with
  | payment_pending, payment_pending
  | payment_approved, payment_approved
  | payment_paid, payment_paid
  | payment_overdue, payment_overdue
  | payment_cancelled, payment_cancelled
  | payment_disputed, payment_disputed => true
  | _, _ => false
  end.

Module Payment.

Record t : Type := mk {
  id : Z;
  amount : Decimal;
  payment_type : PaymentType;
  status : PaymentStatus;
  due_date : Date.t;
  paid_date : option Date.t;
  employee_id : option Z;
  commission_summary_id : option Z;
  approved_by_id : option Z;
  created_by_id : Z
}.

Definition set_status (p : t) (st : PaymentStatus) : t :=
  mk (id p) (amount p) (payment_type p) st (due_date p) (paid_date p)
     (employee_id p) (commission_summary_id p) (approved_by_id p) (created_by_id p).

Definition set_paid_date (p : t) (d : option Date.t) : t :=
  mk (id p) (amount p) (payment_type p) (status p) (due_date p) d
     (employee_id p) (commission_summary_id p) (approved_by_id p) (created_by_id p).

(** The property [is_income]. *)
Definition is_income (p : t) : bool :=
  match payment_type p with
  | car_rental_income | other_income => true
  | _ => false
  end.

(** The property [is_expense]. *)
Definition is_expense (p : t) : bool := negb (is_income p).

End Payment.

(** The tables of routers/payments.py. *)
Record World : Type := mkWorld {
  db : Database;
  payments : list Payment.t
}.

Definition payment_by_id (id : Z) (p : Payment.t) : bool := Payment.id p =? id.

(** [Payment.commission_summary_id == commission_summary_id]; a [NULL]
    column is equal to nothing. *)
Definition payment_of_summary (commission_summary_id : Z) (p : Payment.t) : bool :=
  match Payment.commission_summary_id p with
  | Some i => i =? commission_summary_id
  | None => false
  end.

Definition next_payment_id (w : World) : Z :=
  Z.succ (fold_right Z.max 0 (map Payment.id (payments w))).

Definition insert_payment (row : Payment.t) (w : World) : World :=
  mkWorld (db w) (payments w ++ [row]).

(** The two payment columns of a summary row. *)
Definition set_payment (row : Summary.t) (st : CommissionStatus)
           (date : option Date.t) : Summary.t :=
  Summary.mk (Summary.id row) (Summary.employee_id row)
             (Summary.year row) (Summary.month row)
             (Summary.total_sales_amount row) (Summary.closed_deals_count row)
             (Summary.active_leads_count row)
             (Summary.base_commission row) (Summary.tier_bonus row)
             (Summary.total_commission row) st date
             (Summary.sales_breakdown row) (Summary.calculated_at row)
             (Summary.last_updated row) (Summary.calculated_by_id row).

(** [UPDATE monthly_commission_summaries SET <payment columns> WHERE id = ..],
    [f] giving the assigned columns. *)
Definition update_summary_payment (id : Z) (f : Summary.t -> Summary.t)
           (w : World) : World :=
  mkWorld
    (mkDatabase (users (db w)) (employee_commission_rules (db w)) (sales (db w))
       (map (fun row => if Summary.id row =? id then f row else row)
            (monthly_commission_summaries (db w))))
    (payments w).

Definition month_names : list string :=
  ["January"; "February"; "March"; "April"; "May"; "June";
   "July"; "August"; "September"; "October"; "November"; "December"]%string.

(** [l[i]] for a list: indices from [-len(l)] to [len(l) - 1]. *)
Definition py_getitem {S A} (l : list A) (i : Z) : St S A :=
  let n := Z.of_nat (List.length l) in
  match (if (0 <=? i) && (i <? n) then nth_error l (Z.to_nat i)
         else if (- n <=? i) && (i <? 0) then nth_error l (Z.to_nat (n + i))
         else None) with
  | Some x => st_ret x
  | None => st_raise (IndexError "list index out of range")
  end.

(** [create_commission_payment].  The title reads
    [summary.employee.full_name]; the title itself is not modelled. *)
Definition create_commission_payment (commission_summary_id : Z)
           (current_user : User.t) (today : Date.t) : St World (option Payment.t) :=
  (check_roles_st current_user ["admin"; "Manager"; "Head"]%string ;;
   (* Get commission summary *)
   summary <- st_query (fun w => find (summary_by_id commission_summary_id)
                                      (monthly_commission_summaries (db w))) ;;
   match summary with
   | None => st_http 404 "Commission summary not found"
   | Some summary =>
     (* Check if payment already exists for this summary *)
     existing_payment <-
       st_query (fun w => find (payment_of_summary commission_summary_id)
                               (payments w)) ;;
     match existing_payment with
     | Some _ => st_http 400 "Payment already exists for this commission summary"
     | None =>
       (* Create commission payment *)
       py_getitem month_names (Summary.month summary - 1) ;;
       employee <- st_query (fun w => find (user_by_id (Summary.employee_id summary))
                                           (users (db w))) ;;
       match employee with
       | None => st_raise (AttributeError
                             "'NoneType' object has no attribute 'full_name'")
       | Some _ =>
         id <- st_query next_payment_id ;;
         st_execute
           (insert_payment
              (Payment.mk id (Summary.total_commission summary) commission_payment
                          payment_pending today None
                          (Some (Summary.employee_id summary))
                          (Some commission_summary_id) None
                          (User.id current_user))) ;;
         (* Update commission summary payment status *)
         st_execute
           (update_summary_payment (Summary.id summary)
              (fun row => set_payment row pending (Summary.payment_date row))) ;;
         (* Load relationships for response *)
         st_query (fun w => find (payment_by_id id) (payments w))
       end
     end
   end)%st.

(** [schemas.PaymentStatusUpdate] ([notes] is not modelled). *)
Module PaymentStatusUpdate.

Record t : Set := mk {
  status : PaymentStatus;
  paid_date : option Date.t
}.

End PaymentStatusUpdate.

(** The attribute assignments of [update_payment_status] on the payment. *)
Definition apply_payment_status (status_update : PaymentStatusUpdate.t)
           (today : Date.t) (db_payment : Payment.t) : Payment.t :=
  (* Update status *)
  let db_payment :=
    Payment.set_status db_payment (PaymentStatusUpdate.status status_update) in
  let db_payment :=
    match PaymentStatusUpdate.paid_date status_update with
    | Some d => Payment.set_paid_date db_payment (Some d)
    | None => db_payment
    end in
  (* Auto-set paid date if status is paid *)
  if PaymentStatus_eqb (PaymentStatusUpdate.status status_update) payment_paid
  then match Payment.paid_date db_payment with
       | None => Payment.set_paid_date db_payment (Some today)
       | Some _ => db_payment
       end
  else db_payment.

(** [UPDATE payments SET status = .., paid_date = .. WHERE id = ..] *)
Definition write_payment (db_payment : Payment.t) (w : World) : World :=
  mkWorld (db w)
    (map (fun row =>
            if Payment.id row =? Payment.id db_payment
            then Payment.set_paid_date
                   (Payment.set_status row (Payment.status db_payment))
                   (Payment.paid_date db_payment)
            else row)
         (payments w)).

(** [update_payment_status] *)
Definition update_payment_status (payment_id : Z)
           (status_update : PaymentStatusUpdate.t) (current_user : User.t)
           (today : Date.t) : St World (option Payment.t) :=
  (check_roles_st current_user ["admin"; "Manager"; "Head"]%string ;;
   db_payment <- st_query (fun w => find (payment_by_id payment_id) (payments w)) ;;
   match db_payment with
   | None => st_http 404 "Payment not found"
   | Some p =>
     let db_payment := apply_payment_status status_update today p in
     (* Update commission summary if this is a commission payment *)
     commission_summary <-
       (if truthy_int (Payment.commission_summary_id db_payment)
           && PaymentStatus_eqb (PaymentStatusUpdate.status status_update) payment_paid
        then st_query (fun w =>
               match Payment.commission_summary_id db_payment with
               | Some i => find (summary_by_id i)
                                (monthly_commission_summaries (db w))
               | None => None
               end)
        else st_ret None) ;;
     (* db.commit() *)
     st_execute (write_payment db_payment) ;;
     match commission_summary with
     | Some s =>
         st_execute
           (update_summary_payment (Summary.id s)
              (fun row => set_payment row paid (Payment.paid_date db_payment)))
     | None => st_ret tt
     end ;;
     (* Load relationships for response *)
     st_query (fun w => find (payment_by_id payment_id) (payments w))
   end)%st.

(** [delete_payment] *)
Definition delete_payment (payment_id : Z) (current_user : User.t) : St World unit :=
  (check_roles_st current_user ["admin"; "Manager"; "Head"]%string ;;
   db_payment <- st_query (fun w => find (payment_by_id payment_id) (payments w)) ;;
   match db_payment with
   | None => st_http 404 "Payment not found"
   | Some p =>
       st_execute (fun w =>
         mkWorld (db w)
                 (filter (fun row => negb (Payment.id row =? Payment.id p))
                         (payments w)))
   end)%st.

(* ================================================================== *)
(** ** Vocabulary of the further statements *)

(** The columns of a sale that no calculation assigns. *)
Definition sale_core (s : Sale.t)
  : Z * SaleType * SaleStatus * Decimal * Z * option Date.t * Decimal :=
  (Sale.id s, Sale.sale_type s, Sale.status s, Sale.sale_amount s,
   Sale.salesperson_id s, Sale.close_date s, Sale.commission_rate s).

(** A date the constructor accepts. *)
Definition valid_date (d : Date.t) : Prop :=
  Date.date (Date.year d) (Date.month d) (Date.day d) = Return d.

(** The (year, month) for which the date range exists. *)
Definition valid_period (year month : Z) : Prop :=
  1 <= year <= 9999 /\ 1 <= month <= 12 /\ ~ (year = 9999 /\ month = 12).

(** The sum of the counts of a breakdown. *)
Definition total_count (d : Breakdown.dict) : Z :=
  fold_right (fun kv acc => Breakdown.count (snd kv) + acc) 0 d.

(** Rates and amounts that are not negative. *)
Definition nonnegative_rule (r : Rule.t) : Prop :=
  (0 <= Rule.base_commission_rate r)%Q
  /\ (0 <= Rule.tier1_bonus_rate r)%Q
  /\ (0 <= Rule.tier2_bonus_rate r)%Q
  /\ (0 <= Rule.tier3_bonus_rate r)%Q.

(** The caller has one of the roles. *)
Definition has_role (current_user : User.t) (allowed_roles : list string) : Prop :=
  In (User.role current_user) allowed_roles.

(** The rows in the order of [ORDER BY year DESC, month DESC]. *)
Definition period_descending (l : list Summary.t) : Prop :=
  Sorted (fun x y => summary_not_after x y = true) l.

(** The filters of [get_commission_summaries] before the sort. *)
Definition listed_summaries (employee_id year month : option Z) (d : Database)
  : list Summary.t :=
  filter_if_truthy month Summary.month
    (filter_if_truthy year Summary.year
       (filter_if_truthy employee_id Summary.employee_id
          (monthly_commission_summaries d))).

(** The roles that may create and update sales. *)
Definition sales_roles : list string := ["admin"; "Manager"; "Head"; "Pillar"]%string.

(** The close date [update_sale_status] leaves on a row. *)
Definition close_date_after (status_update : SaleStatusUpdate.t) (today : Date.t)
           (stored : option Date.t) : option Date.t :=
  match SaleStatusUpdate.close_date status_update, stored with
  | Some given, _ => Some given
  | None, Some kept => Some kept
  | None, None =>
      match SaleStatusUpdate.status status_update with
      | closed_won | closed_lost => Some today
      | _ => None
      end
  end.

(** The sale with that id is replaced by [row'], the others stay. *)
Definition replace_sale (sale_id : Z) (row' : Sale.t) (rows : list Sale.t)
  : list Sale.t :=
  map (fun x => if Sale.id x =? sale_id then row' else x) rows.

Module SampleLead.

(** An open lead of the sample employee, without close date. *)
Definition lead_row : Sale.t := Sale.mk 5 consulting lead 700 2 None 10 None pending.

Definition db : Database := with_sales Sample.db [lead_row].

Definition admin : User.t := User.mk 9 "admin@bwc.test" "admin" true.

End SampleLead.

(** The number of payments that reference a summary. *)
Definition payments_for (commission_summary_id : Z) (w : World) : nat :=
  List.length (filter (payment_of_summary commission_summary_id) (payments w)).

Definition payment_ids_unique (w : World) : Prop :=
  NoDup (map Payment.id (payments w)).

(** The paid date [update_payment_status] leaves on a payment. *)
Definition paid_date_after (status_update : PaymentStatusUpdate.t) (today : Date.t)
           (stored : option Date.t) : option Date.t :=
  match PaymentStatusUpdate.paid_date status_update, stored with
  | Some given, _ => Some given
  | None, Some kept => Some kept
  | None, None =>
      match PaymentStatusUpdate.status status_update with
      | payment_paid => Some today
      | _ => None
      end
  end.

(** The summary [update_payment_status] marks as paid, if any. *)
Definition paid_summary (status_update : PaymentStatusUpdate.t) (p : Payment.t)
           (w : World) : option Summary.t :=
  if truthy_int (Payment.commission_summary_id p)
     && PaymentStatus_eqb (PaymentStatusUpdate.status status_update) payment_paid
  then match Payment.commission_summary_id p with
       | Some i => find (summary_by_id i) (monthly_commission_summaries (db w))
       | None => None
       end
  else None.

(** The payment [create_commission_payment] inserts for a summary. *)
Definition commission_payment_of (id : Z) (summary : Summary.t) (u : User.t)
           (today : Date.t) : Payment.t :=
  Payment.mk id (Summary.total_commission summary) commission_payment
             payment_pending today None (Some (Summary.employee_id summary))
             (Some (Summary.id summary)) None (User.id u).

Module SamplePayments.

(** The tables after the June calculation, without payments. *)
Definition calculated : World :=
  mkWorld (tables (snd (run Sample.june Sample.manager 60 Sample.db))) [].

(** The same after the commission payment of the June summary was created. *)
Definition with_payment : World :=
  snd (create_commission_payment 1 Sample.manager (Date.mk 2025 7 1) calculated).

End SamplePayments.
(* ================================================================== *)
(** * Properties *)

(** ** Rule selection *)

Lemma SaleType_eqb_eq (a b : SaleType) : SaleType_eqb a b = true <-> a = b.
Proof. destruct a, b; simpl; split; intro H; try reflexivity; discriminate H. Qed.

Lemma SaleStatus_eqb_eq (a b : SaleStatus) : SaleStatus_eqb a b = true <-> a = b.
Proof. destruct a, b; simpl; split; intro H; try reflexivity; discriminate H. Qed.

Lemma rule_applies_iff (rule : Rule.t) (sale : Sale.t) :
  rule_applies rule sale = true <-> Applies rule sale.
Proof.
  unfold rule_applies, Applies.
  rewrite andb_true_iff, Qle_bool_iff.
  destruct (Rule.sale_type rule) as [t|].
  - rewrite SaleType_eqb_eq. split; intros [H1 H2]; split; trivial.
    + right. now subst.
    + destruct H1 as [H1|H1]; [discriminate | now injection H1].
  - split; intros [_ H2]; split; auto.
Qed.

Lemma rule_applies_false_iff (rule : Rule.t) (sale : Sale.t) :
  rule_applies rule sale = false <-> ~ Applies rule sale.
Proof.
  rewrite <- rule_applies_iff. destruct (rule_applies rule sale); split; intro H;
    try reflexivity; try discriminate; try (intro; discriminate).
  exfalso. now apply H.
Qed.

(** The inner loop, one rule at a time. *)
Lemma find_applicable_rule_cons (rule : Rule.t) (rest : list Rule.t) (sale : Sale.t) :
  find_applicable_rule (rule :: rest) sale =
  if rule_applies rule sale then Some rule else find_applicable_rule rest sale.
Proof.
  unfold rule_applies. simpl.
  destruct (Rule.sale_type rule) as [t|]; simpl.
  - destruct (SaleType_eqb t (Sale.sale_type sale)); simpl; [|reflexivity].
    now destruct (Qle_bool _ _).
  - now destruct (Qle_bool _ _).
Qed.

Lemma find_applicable_rule_Some (rules : list Rule.t) (sale : Sale.t) (rule : Rule.t) :
  find_applicable_rule rules sale = Some rule ->
  exists before after,
    rules = before ++ rule :: after
    /\ (forall r, In r before -> ~ Applies r sale)
    /\ Applies rule sale.
Proof.
  induction rules as [|r rest IH]; [discriminate|].
  rewrite find_applicable_rule_cons.
  destruct (rule_applies r sale) eqn:E.
  - intros [= <-]. exists [], rest. repeat split.
    + intros ? [].
    + now apply rule_applies_iff.
    + now apply rule_applies_iff.
  - intros H. destruct (IH H) as (before & after & -> & Hb & Ha).
    exists (r :: before), after. repeat split; try apply Ha.
    intros r' [<-|Hin]; [now apply rule_applies_false_iff | now apply Hb].
Qed.

Lemma find_applicable_rule_None (rules : list Rule.t) (sale : Sale.t) :
  find_applicable_rule rules sale = None <->
  (forall r, In r rules -> ~ Applies r sale).
Proof.
  induction rules as [|r rest IH].
  - split; [intros _ ? [] | reflexivity].
  - rewrite find_applicable_rule_cons. destruct (rule_applies r sale) eqn:E.
    + split; [discriminate|]. intros H. exfalso.
      apply (H r (or_introl eq_refl)). now apply rule_applies_iff.
    + rewrite IH. split.
      * intros H r' [<-|Hin]; [now apply rule_applies_false_iff | now apply H].
      * intros H r' Hin. apply H. now right.
Qed.

(** The first matching rule of a list in which [rule] follows only
    non-matching rules is [rule]. *)
Lemma find_applicable_rule_first (before after : list Rule.t) (rule : Rule.t)
      (sale : Sale.t) :
  (forall r, In r before -> ~ Applies r sale) ->
  Applies rule sale ->
  find_applicable_rule (before ++ rule :: after) sale = Some rule.
Proof.
  induction before as [|r before IH]; intros Hb Ha; simpl app;
    rewrite find_applicable_rule_cons.
  - apply rule_applies_iff in Ha. now rewrite Ha.
  - assert (E : rule_applies r sale = false)
      by (apply rule_applies_false_iff, Hb; now left).
    rewrite E. apply IH; trivial. intros r' Hin. apply Hb. now right.
Qed.

(** ** The base-commission loop *)

Lemma commission_fold_base (rules : list Rule.t) (sales : list Sale.t) (st : loop_state) :
  (base_commission (fold_left (commission_step rules) sales st)
   == base_commission st + Qsum (map (contribution rules) sales))%Q.
Proof.
  revert st. induction sales as [|s sales IH]; intros st; simpl.
  - ring.
  - rewrite IH. unfold commission_step, contribution.
    destruct (find_applicable_rule rules s); simpl; ring.
Qed.

Lemma commission_fold_dirty (rules : list Rule.t) (sales : list Sale.t) (st : loop_state) :
  dirty (fold_left (commission_step rules) sales st)
  = dirty st ++ map (processed rules) (filter (has_rule rules) sales).
Proof.
  revert st. induction sales as [|s sales IH]; intros st; simpl.
  - now rewrite app_nil_r.
  - rewrite IH. unfold commission_step, processed, has_rule.
    destruct (find_applicable_rule rules s) eqn:E; simpl.
    + rewrite E. now rewrite <- app_assoc.
    + reflexivity.
Qed.


(** ** The handler, path by path *)

Lemma authorised_iff (u : User.t) :
  existsb (String.eqb (User.role u)) ["admin"; "Manager"; "Head"]%string = true
  <-> authorised u.
Proof.
  unfold authorised. rewrite existsb_exists. split.
  - intros (x & Hin & Heq). apply String.eqb_eq in Heq. now subst.
  - intros Hin. exists (User.role u). split; [assumption | apply String.eqb_refl].
Qed.

Lemma flush_sales_run (dirty_sales : list Sale.t) (s : Session) :
  flush_sales dirty_sales s
  = (Return tt,
     mkSession (flushed dirty_sales (tables s)) (log s ++ sale_updates dirty_sales)).
Proof.
  revert s. induction dirty_sales as [|sale rest IH]; intros s; simpl.
  - unfold ret. rewrite app_nil_r. now destruct s.
  - unfold bind, execute. rewrite IH. simpl. now rewrite <- app_assoc.
Qed.

Ltac run_step := cbn [tables log app negb fst snd].

Ltac run_unfold :=
  unfold run, calculate_monthly_commission, bind, check_roles, query, raise,
    ret, lift, execute; run_step.

Lemma run_forbidden (req : Request.t) (u : User.t) (now : datetime) (d : Database) :
  ~ authorised u ->
  run req u now d
  = (Raise (HTTPException 403
              "Not authorized to perform this action. Insufficient role."),
     mkSession d []).
Proof.
  intros H. rewrite <- authorised_iff in H. apply not_true_is_false in H.
  run_unfold. now rewrite H.
Qed.

Lemma run_employee_missing (req : Request.t) (u : User.t) (now : datetime)
      (d : Database) :
  authorised u ->
  employee_of req d = None ->
  run req u now d
  = (Raise (HTTPException 404 "Employee not found"), mkSession d [SelectUser]).
Proof.
  intros Ha He. apply authorised_iff in Ha. unfold employee_of in He.
  run_unfold. rewrite Ha. run_step. now rewrite He.
Qed.

Lemma run_existing (req : Request.t) (u : User.t) (now : datetime) (d : Database)
      (existing : Summary.t) :
  authorised u ->
  employee_of req d <> None ->
  existing_summary_of req d = Some existing ->
  Request.recalculate req = false ->
  run req u now d
  = (Return (summary_lookup (Summary.id existing) d),
     mkSession d [SelectUser; SelectSummary; SelectSummary]).
Proof.
  intros Ha He Hx Hr. apply authorised_iff in Ha.
  unfold employee_of in He. unfold existing_summary_of in Hx.
  run_unfold. rewrite Ha. run_step.
  destruct (find _ (users d)); [|contradiction]. run_step.
  rewrite Hx, Hr. now run_step.
Qed.

Lemma run_no_rules (req : Request.t) (u : User.t) (now : datetime) (d : Database) :
  authorised u ->
  employee_of req d <> None ->
  existing_summary_of req d = None \/ Request.recalculate req = true ->
  commission_rules_of req d = [] ->
  run req u now d
  = (Raise (HTTPException 400 "No commission rules found for this employee"),
     mkSession d [SelectUser; SelectSummary; SelectRules]).
Proof.
  intros Ha He Hx Hr. apply authorised_iff in Ha.
  unfold employee_of in He. unfold existing_summary_of in Hx.
  unfold commission_rules_of in Hr.
  run_unfold. rewrite Ha. run_step.
  destruct (find _ (users d)); [|contradiction]. run_step.
  destruct Hx as [Hx|Hx]; rewrite Hx; run_step.
  - now rewrite Hr.
  - destruct (find _ (monthly_commission_summaries d)); run_step; now rewrite Hr.
Qed.

Lemma run_bad_date (req : Request.t) (u : User.t) (now : datetime) (d : Database)
      (e : exn) :
  authorised u ->
  employee_of req d <> None ->
  existing_summary_of req d = None \/ Request.recalculate req = true ->
  commission_rules_of req d <> [] ->
  month_range (Request.year req) (Request.month req) = Raise e ->
  run req u now d
  = (Raise e, mkSession d [SelectUser; SelectSummary; SelectRules]).
Proof.
  intros Ha He Hx Hr Hm. apply authorised_iff in Ha.
  unfold employee_of in He. unfold existing_summary_of in Hx.
  unfold commission_rules_of in Hr.
  run_unfold. rewrite Ha. run_step.
  destruct (find _ (users d)); [|contradiction]. run_step.
  assert (Hgo : forall s : Session,
             match filter (active_rule_of (Request.employee_id req))
                          (employee_commission_rules d) with
             | [] => fun s => (@Raise (option Summary.t)
                                 (HTTPException 400
                                    "No commission rules found for this employee"), s)
             | _ :: _ => fun s => (@Raise (option Summary.t) e, s)
             end s = (Raise e, s)).
  { intros s. destruct (filter _ (employee_commission_rules d)); [contradiction|].
    reflexivity. }
  destruct Hx as [Hx|Hx]; rewrite Hx; run_step.
  - rewrite Hm. apply Hgo.
  - destruct (find _ (monthly_commission_summaries d)); run_step;
      rewrite Hm; apply Hgo.
Qed.

Lemma run_update (req : Request.t) (u : User.t) (now : datetime) (d : Database)
      (existing : Summary.t) (range : Date.t * Date.t) :
  authorised u ->
  employee_of req d <> None ->
  existing_summary_of req d = Some existing ->
  Request.recalculate req = true ->
  commission_rules_of req d <> [] ->
  month_range (Request.year req) (Request.month req) = Return range ->
  let c := fst (computed_of req now range d) in
  let dirty_sales := snd (computed_of req now range d) in
  let d' := update_summary (Summary.id existing) c (flushed dirty_sales d) in
  run req u now d
  = (Return (summary_lookup (Summary.id existing) d'),
     mkSession d'
       (reads_before_commit ++ sale_updates dirty_sales
        ++ [UpdateSummary (Summary.id existing); SelectSummary; SelectSummary])).
Proof.
  intros Ha He Hx Hrc Hr Hm c dirty_sales d'.
  apply authorised_iff in Ha.
  unfold employee_of in He. unfold existing_summary_of in Hx.
  subst d' c dirty_sales.
  unfold computed_of, closed_sales_of, active_leads_of, commission_rules_of in *.
  run_unfold. rewrite Ha. run_step.
  destruct (find _ (users d)); [|contradiction]. run_step.
  rewrite Hx, Hrc. run_step.
  destruct (filter _ (employee_commission_rules d)) as [|r0 rs] eqn:Er;
    [contradiction|].
  rewrite Hm. destruct range as [start_date end_date]. run_step.
  destruct (compute_summary _ _ _ _) as [c dirty_sales] eqn:Ec.
  rewrite flush_sales_run. run_step.
  unfold summary_lookup, reads_before_commit. run_step.
  repeat rewrite <- app_assoc. reflexivity.
Qed.

Lemma run_insert (req : Request.t) (u : User.t) (now : datetime) (d : Database)
      (range : Date.t * Date.t) :
  authorised u ->
  employee_of req d <> None ->
  existing_summary_of req d = None ->
  commission_rules_of req d <> [] ->
  month_range (Request.year req) (Request.month req) = Return range ->
  let c := fst (computed_of req now range d) in
  let dirty_sales := snd (computed_of req now range d) in
  let id := next_summary_id (flushed dirty_sales d) in
  let row := Summary.assign c
               (new_summary id (Request.employee_id req) (Request.year req)
                            (Request.month req) (User.id u) now) in
  let d' := insert_summary row (flushed dirty_sales d) in
  run req u now d
  = (Return (summary_lookup id d'),
     mkSession d'
       (reads_before_commit ++ sale_updates dirty_sales
        ++ [InsertSummary id; SelectSummary; SelectSummary])).
Proof.
  intros Ha He Hx Hr Hm c dirty_sales id row d'.
  apply authorised_iff in Ha.
  unfold employee_of in He. unfold existing_summary_of in Hx.
  subst d' row id c dirty_sales.
  unfold computed_of, closed_sales_of, active_leads_of, commission_rules_of in *.
  run_unfold. rewrite Ha. run_step.
  destruct (find _ (users d)); [|contradiction]. run_step.
  rewrite Hx. run_step.
  destruct (filter _ (employee_commission_rules d)) as [|r0 rs] eqn:Er;
    [contradiction|].
  rewrite Hm. destruct range as [start_date end_date]. run_step.
  destruct (compute_summary _ _ _ _) as [c dirty_sales] eqn:Ec.
  rewrite flush_sales_run. run_step.
  unfold summary_lookup, reads_before_commit. run_step.
  repeat rewrite <- app_assoc. reflexivity.
Qed.

(** ** Lookups by primary key *)

Lemma find_some_in {A} (p : A -> bool) (l : list A) (x : A) :
  find p l = Some x -> In x l /\ p x = true.
Proof. apply find_some. Qed.

Lemma summary_lookup_unique (d : Database) (row : Summary.t) :
  NoDup (map Summary.id (monthly_commission_summaries d)) ->
  In row (monthly_commission_summaries d) ->
  summary_lookup (Summary.id row) d = Some row.
Proof.
  unfold summary_lookup.
  induction (monthly_commission_summaries d) as [|x l IH]; simpl; [intros _ []|].
  intros Hnd Hin. inversion Hnd as [|? ? Hx Hl]; subst.
  unfold summary_by_id at 1. destruct (Z.eqb_spec (Summary.id x) (Summary.id row)) as [E|E].
  - destruct Hin as [->|Hin]; [reflexivity|].
    exfalso. apply Hx. rewrite E. now apply in_map.
  - destruct Hin as [->|Hin]; [congruence|]. now apply IH.
Qed.

(** ** Early return and precondition failure *)

(** C3.  When a summary of the requested (employee, year, month) exists and
    [recalculate] is false, the handler returns that row as stored, sends
    only [SELECT]s and leaves every table as it was; a second such call
    returns the same row again. *)
Theorem C3_existing_summary_returned_unchanged :
  forall (req : Request.t) (u : User.t) (now : datetime) (d : Database)
         (existing : Summary.t),
    authorised u ->
    employee_of req d <> None ->
    NoDup (map Summary.id (monthly_commission_summaries d)) ->
    existing_summary_of req d = Some existing ->
    Request.recalculate req = false ->
    fst (run req u now d) = Return (Some existing)
    /\ tables (snd (run req u now d)) = d
    /\ existsb is_write (log (snd (run req u now d))) = false
    /\ forall now' : datetime,
        fst (run req u now' (tables (snd (run req u now d))))
        = fst (run req u now d).
Proof.
  intros req u now d existing Ha He Hnd Hx Hr.
  assert (Hrun : forall t, run req u t d
                 = (Return (Some existing),
                    mkSession d [SelectUser; SelectSummary; SelectSummary])).
  { intros t. rewrite (run_existing req u t d existing Ha He Hx Hr).
    rewrite summary_lookup_unique; trivial.
    unfold existing_summary_of in Hx. now apply find_some_in in Hx. }
  rewrite Hrun. cbn [fst snd tables log]. repeat split.
  intros now'. now rewrite Hrun.
Qed.

(** C3 on the sample database that already holds the June summary. *)
Lemma C3_existing_summary_returned_unchanged_witness :
  fst (run Sample.june Sample.manager 60 Sample.db_with_summary)
  = Return (Some Sample.stored)
  /\ tables (snd (run Sample.june Sample.manager 60 Sample.db_with_summary))
     = Sample.db_with_summary.
Proof.
  destruct (C3_existing_summary_returned_unchanged
              Sample.june Sample.manager 60 Sample.db_with_summary Sample.stored)
    as (H1 & H2 & _).
  - right. left. reflexivity.
  - discriminate.
  - repeat constructor. intros [].
  - reflexivity.
  - reflexivity.
  - split; assumption.
Defined.

(** C5.  For an employee who exists and has no active commission rule, a
    calculation that gets past the early return (no stored summary, or
    [recalculate] set) fails with HTTP 400 "No commission rules found for
    this employee"; it sends no [UPDATE] or [INSERT] and leaves every
    table as it was. *)
Theorem C5_no_active_rules_rejected_without_writes :
  forall (req : Request.t) (u : User.t) (now : datetime) (d : Database),
    authorised u ->
    employee_of req d <> None ->
    commission_rules_of req d = [] ->
    existing_summary_of req d = None \/ Request.recalculate req = true ->
    fst (run req u now d)
    = Raise (HTTPException 400 "No commission rules found for this employee")
    /\ tables (snd (run req u now d)) = d
    /\ existsb is_write (log (snd (run req u now d))) = false.
Proof.
  intros req u now d Ha He Hr Hx.
  rewrite (run_no_rules req u now d Ha He Hx Hr). repeat split.
Qed.

(** C5 on the sample database without rules, with [recalculate] set. *)
Lemma C5_no_active_rules_rejected_without_writes_witness :
  fst (run Sample.june_again Sample.manager 60 Sample.db_no_rules)
  = Raise (HTTPException 400 "No commission rules found for this employee")
  /\ tables (snd (run Sample.june_again Sample.manager 60 Sample.db_no_rules))
     = Sample.db_no_rules.
Proof.
  destruct (C5_no_active_rules_rejected_without_writes
              Sample.june_again Sample.manager 60 Sample.db_no_rules)
    as (H1 & H2 & _).
  - right. left. reflexivity.
  - discriminate.
  - reflexivity.
  - right. reflexivity.
  - split; assumption.
Defined.

(** ** The date range *)

(** The constructor on arguments that fit a C [int]. *)
Lemma date_c_int (y m d : Z) :
  Date.c_int y = true -> Date.c_int m = true -> Date.c_int d = true ->
  Date.date y m d
  = if negb ((1 <=? y) && (y <=? 9999)) then Raise (ValueError "year is out of range")
    else if negb ((1 <=? m) && (m <=? 12)) then Raise (ValueError "month must be in 1..12")
    else if negb ((1 <=? d) && (d <=? Date.days_in_month y m))
         then Raise (ValueError "day is out of range for month")
    else Return (Date.mk y m d).
Proof. intros Hy Hm Hd. unfold Date.date. now rewrite Hy, Hm, Hd. Qed.

Lemma c_int_iff (z : Z) : Date.c_int z = true <-> - 2147483648 <= z <= 2147483647.
Proof. unfold Date.c_int. rewrite andb_true_iff, !Z.leb_le. reflexivity. Qed.

Lemma month_range_out_of_range (year month : Z) :
  1 <= year <= 9999 ->
  - 2147483648 <= month <= 2147483647 ->
  ~ (1 <= month <= 12) ->
  month_range year month = Raise (ValueError "month must be in 1..12").
Proof.
  intros Hy Hc Hm. unfold month_range.
  rewrite date_c_int by (apply c_int_iff; lia).
  assert (E1 : (1 <=? year) && (year <=? 9999) = true)
    by (apply andb_true_iff; split; apply Z.leb_le; lia).
  rewrite E1. cbn [negb].
  assert (E2 : (1 <=? month) && (month <=? 12) = false).
  { apply andb_false_iff.
    destruct (Z.leb_spec 1 month); [right|left; reflexivity].
    apply Z.leb_gt. lia. }
  now rewrite E2.
Qed.

(** C6.  A request for month 13 is not rejected up front: the handler runs
    the user, summary and rule queries and then [date(2025, 13, 1)] raises
    [ValueError], which no handler of the module catches. *)
Theorem C6_month_13_raises_ValueError_after_rule_query :
  run Sample.month_13 Sample.manager 60 Sample.db
  = (Raise (ValueError "month must be in 1..12"),
     mkSession Sample.db [SelectUser; SelectSummary; SelectRules]).
Proof. vm_compute. reflexivity. Qed.

(** ** The summary table under a call *)

Lemma flushed_users (l : list Sale.t) (d : Database) : users (flushed l d) = users d.
Proof. revert d. induction l as [|s l IH]; intros d; simpl; [reflexivity|]. now rewrite IH. Qed.

Lemma flushed_rules (l : list Sale.t) (d : Database) :
  employee_commission_rules (flushed l d) = employee_commission_rules d.
Proof. revert d. induction l as [|s l IH]; intros d; simpl; [reflexivity|]. now rewrite IH. Qed.

Lemma flushed_summaries (l : list Sale.t) (d : Database) :
  monthly_commission_summaries (flushed l d) = monthly_commission_summaries d.
Proof. revert d. induction l as [|s l IH]; intros d; simpl; [reflexivity|]. now rewrite IH. Qed.

Lemma assign_key (c : Summary.computed) (row : Summary.t) (e y m : Z) :
  summary_by_key e y m (Summary.assign c row) = summary_by_key e y m row.
Proof. reflexivity. Qed.

Lemma update_summary_ids (id : Z) (c : Summary.computed) (d : Database) :
  map Summary.id (monthly_commission_summaries (update_summary id c d))
  = map Summary.id (monthly_commission_summaries d).
Proof.
  simpl. rewrite map_map. apply map_ext. intros row.
  now destruct (Summary.id row =? id).
Qed.

Lemma update_summary_rows (id : Z) (c : Summary.computed) (d : Database) (e y m : Z) :
  summary_rows e y m (update_summary id c d) = summary_rows e y m d.
Proof.
  unfold summary_rows. simpl.
  induction (monthly_commission_summaries d) as [|row l IH]; simpl; [reflexivity|].
  assert (E : summary_by_key e y m
                (if Summary.id row =? id then Summary.assign c row else row)
              = summary_by_key e y m row)
    by now destruct (Summary.id row =? id).
  rewrite E. destruct (summary_by_key e y m row); simpl; now rewrite IH.
Qed.

Lemma find_none_filter {A} (p : A -> bool) (l : list A) :
  find p l = None -> filter p l = [].
Proof.
  induction l as [|x l IH]; simpl; [reflexivity|].
  destruct (p x); [discriminate | assumption].
Qed.

Lemma authorised_dec (u : User.t) : {authorised u} + {~ authorised u}.
Proof.
  destruct (existsb (String.eqb (User.role u)) ["admin"; "Manager"; "Head"]%string)
    eqn:E.
  - left. now apply authorised_iff.
  - right. intros H. apply authorised_iff in H. congruence.
Qed.

Lemma request_key_refl (req : Request.t) (c : Summary.computed) (id by_id : Z)
      (now : datetime) :
  summary_by_key (Request.employee_id req) (Request.year req) (Request.month req)
    (Summary.assign c
       (new_summary id (Request.employee_id req) (Request.year req)
                    (Request.month req) by_id now)) = true.
Proof. unfold summary_by_key. simpl. now rewrite !Z.eqb_refl. Qed.

Lemma run_effect (req : Request.t) (u : User.t) (now : datetime) (d : Database) :
  call_effect req d (tables (snd (run req u now d))).
Proof.
  destruct (authorised_dec u) as [Ha|Ha].
  2: { rewrite run_forbidden by assumption. now apply effect_none. }
  destruct (employee_of req d) as [emp|] eqn:He.
  2: { rewrite run_employee_missing by assumption. now apply effect_none. }
  assert (He' : employee_of req d <> None) by congruence.
  destruct (existing_summary_of req d) as [existing|] eqn:Hx;
    [destruct (Request.recalculate req) eqn:Hr|].
  - (* recalculation of a stored summary *)
    destruct (commission_rules_of req d) as [|r rs] eqn:Hrules.
    { rewrite run_no_rules; auto. now apply effect_none. }
    assert (Hrules' : commission_rules_of req d <> []) by congruence.
    destruct (month_range (Request.year req) (Request.month req)) as [range|e] eqn:Hm.
    + rewrite (run_update req u now d existing range); auto.
      eapply effect_update; [eassumption | reflexivity].
    + rewrite (run_bad_date req u now d e); auto. now apply effect_none.
  - rewrite (run_existing req u now d existing); auto. now apply effect_none.
  - destruct (commission_rules_of req d) as [|r rs] eqn:Hrules.
    { rewrite run_no_rules; auto. now apply effect_none. }
    assert (Hrules' : commission_rules_of req d <> []) by congruence.
    destruct (month_range (Request.year req) (Request.month req)) as [range|e] eqn:Hm.
    + rewrite (run_insert req u now d range); auto.
      eapply effect_insert; [assumption | apply request_key_refl | reflexivity].
    + rewrite (run_bad_date req u now d e); auto. now apply effect_none.
Qed.

Lemma call_keeps_one_row (req : Request.t) (d d' : Database) (e y m : Z) :
  call_effect req d d' ->
  (summary_rows e y m d <= 1)%nat ->
  (summary_rows e y m d' <= 1)%nat.
Proof.
  intros [->|existing c dirty_sales Hx ->|row dirty_sales Hx Hkey ->] H.
  - assumption.
  - rewrite update_summary_rows. unfold summary_rows.
    now rewrite flushed_summaries.
  - unfold summary_rows. simpl. rewrite flushed_summaries, filter_app, length_app.
    fold (summary_rows e y m d). simpl.
    destruct (summary_by_key e y m row) eqn:Hrow; simpl; [|lia].
    (* the new row has the requested key, for which no row was stored *)
    assert (Hsame : forall row', summary_by_key e y m row' =
              summary_by_key (Request.employee_id req) (Request.year req)
                             (Request.month req) row').
    { unfold summary_by_key in *. intros row'.
      apply andb_true_iff in Hrow as [Hrow Hm']. apply andb_true_iff in Hrow as [He' Hy'].
      apply andb_true_iff in Hkey as [Hkey Hm'']. apply andb_true_iff in Hkey as [He'' Hy''].
      apply Z.eqb_eq in He', Hy', Hm', He'', Hy'', Hm''.
      replace e with (Request.employee_id req) by congruence.
      replace y with (Request.year req) by congruence.
      replace m with (Request.month req) by congruence. reflexivity. }
    unfold summary_rows. rewrite (filter_ext _ _ Hsame).
    unfold existing_summary_of in Hx. rewrite (find_none_filter _ _ Hx). simpl. lia.
Qed.


(** ** What a successful calculation returns *)

Lemma next_summary_id_fresh (d : Database) (row : Summary.t) :
  In row (monthly_commission_summaries d) -> Summary.id row < next_summary_id d.
Proof.
  unfold next_summary_id.
  induction (monthly_commission_summaries d) as [|x l IH]; simpl; [intros []|].
  intros [->|Hin]; [lia|]. specialize (IH Hin). lia.
Qed.

Lemma summary_lookup_fresh (d : Database) :
  summary_lookup (next_summary_id d) d = None.
Proof.
  unfold summary_lookup.
  destruct (find _ _) as [row|] eqn:E; [|reflexivity].
  apply find_some_in in E as [Hin Hid]. apply Z.eqb_eq in Hid.
  apply next_summary_id_fresh in Hin. lia.
Qed.

Lemma find_app_none {A} (p : A -> bool) (l l' : list A) :
  find p l = None -> find p (l ++ l') = find p l'.
Proof.
  induction l as [|x l IH]; simpl; [reflexivity|].
  destruct (p x); [discriminate | assumption].
Qed.

Lemma summary_lookup_update (id : Z) (c : Summary.computed) (d : Database)
      (row : Summary.t) :
  summary_lookup id d = Some row ->
  summary_lookup id (update_summary id c d) = Some (Summary.assign c row).
Proof.
  unfold summary_lookup. simpl.
  induction (monthly_commission_summaries d) as [|x l IH]; simpl; [discriminate|].
  unfold summary_by_id at 1 3. destruct (Summary.id x =? id) eqn:E.
  - intros [= ->]. simpl. unfold summary_by_id. simpl. now rewrite E.
  - rewrite E. assumption.
Qed.

Lemma carries_assign (c : Summary.computed) (row : Summary.t) :
  carries c (Summary.assign c row).
Proof. unfold carries. simpl. repeat split. Qed.

(** The rounding of a column depends on the value only. *)
Lemma Numeric_2_comp (v w : Decimal) : (v == w)%Q -> Numeric_2 v = Numeric_2 w.
Proof.
  intros E. unfold Numeric_2, round_half_away.
  assert (E' : (v * 100 == w * 100)%Q) by now rewrite E.
  rewrite (Qleb_comp 0%Q 0%Q (Qeq_refl 0%Q) _ _ E').
  assert (E1 : (v * 100 + (1 # 2) == w * 100 + (1 # 2))%Q) by now rewrite E'.
  assert (E2 : (- (v * 100) + (1 # 2) == - (w * 100) + (1 # 2))%Q) by now rewrite E'.
  now rewrite (Qfloor_comp _ _ E1), (Qfloor_comp _ _ E2).
Qed.

Lemma carries_stores (c : Summary.computed) (s : Summary.t) :
  carries c s -> stores c s.
Proof.
  intros (H1 & H2 & H3 & H4 & H5 & H6 & H7 & H8). unfold stores, stored_summary.
  cbn [Summary.total_sales_amount Summary.base_commission Summary.tier_bonus
       Summary.total_commission].
  now rewrite H1, H4, H5, H6.
Qed.

Lemma run_returns_summary (req : Request.t) (u : User.t) (now : datetime)
      (d : Database) (range : Date.t * Date.t) :
  calculates req u d range ->
  summary_ids_unique d ->
  exists summary,
    fst (run req u now d) = Return (Some summary)
    /\ In summary (monthly_commission_summaries (tables (snd (run req u now d))))
    /\ carries (fst (computed_of req now range d)) summary
    /\ Summary.employee_id summary = Request.employee_id req
    /\ Summary.year summary = Request.year req
    /\ Summary.month summary = Request.month req
    /\ (forall existing, existing_summary_of req d = Some existing ->
                         Summary.id summary = Summary.id existing).
Proof.
  intros (Ha & He & Hx & Hr & Hm) Hnd.
  destruct (existing_summary_of req d) as [existing|] eqn:Ex.
  - destruct Hx as [Hx|Hx]; [discriminate|].
    rewrite (run_update req u now d existing range); auto. cbn [fst snd tables].
    set (c := fst (computed_of req now range d)).
    set (dirty_sales := snd (computed_of req now range d)).
    pose proof Ex as Hin. unfold existing_summary_of in Hin.
    apply find_some_in in Hin as [Hin Hkey].
    assert (Hl : summary_lookup (Summary.id existing) (flushed dirty_sales d)
                 = Some existing).
    { apply summary_lookup_unique.
      - now rewrite flushed_summaries.
      - now rewrite flushed_summaries. }
    exists (Summary.assign c existing).
    rewrite (summary_lookup_update _ c _ existing Hl).
    split; [reflexivity|]. split.
    { simpl. rewrite flushed_summaries. apply in_map_iff. exists existing.
      split; [|assumption]. now rewrite Z.eqb_refl. }
    split; [apply carries_assign|].
    unfold summary_by_key in Hkey.
    apply andb_true_iff in Hkey as [Hkey Hm']. apply andb_true_iff in Hkey as [He' Hy'].
    apply Z.eqb_eq in He', Hy', Hm'. simpl. repeat split; trivial.
    now intros ? [= <-].
  - rewrite (run_insert req u now d range); auto. cbn [fst snd tables].
    set (c := fst (computed_of req now range d)).
    set (dirty_sales := snd (computed_of req now range d)).
    set (id := next_summary_id (flushed dirty_sales d)).
    eexists. split.
    { unfold summary_lookup. simpl.
      rewrite find_app_none by apply summary_lookup_fresh.
      simpl. unfold summary_by_id. simpl. now rewrite Z.eqb_refl. }
    split; [simpl; apply in_or_app; right; now left|].
    split; [apply carries_assign|].
    simpl. repeat split. discriminate.
Qed.

Lemma NoDup_snoc {A} (l : list A) (x : A) :
  NoDup l -> ~ In x l -> NoDup (l ++ [x]).
Proof.
  induction l as [|y l IH]; simpl; intros Hnd Hx.
  - constructor; [intros [] | constructor].
  - inversion Hnd as [|? ? Hy Hl]; subst. constructor.
    + intros Hin. apply in_app_or in Hin as [Hin|[->|[]]]; [now apply Hy|].
      apply Hx. now left.
    + apply IH; [assumption|]. intros Hin. apply Hx. now right.
Qed.

(** A call keeps the primary keys of the summary table unique. *)
Lemma call_keeps_summary_ids_unique (req : Request.t) (u : User.t) (now : datetime)
      (d : Database) :
  summary_ids_unique d ->
  summary_ids_unique (tables (snd (run req u now d))).
Proof.
  unfold summary_ids_unique. intros Hnd.
  assert (Hgen : forall dirty_sales row,
             Summary.id row = next_summary_id (flushed dirty_sales d) ->
             NoDup (map Summary.id
                      (monthly_commission_summaries
                         (insert_summary row (flushed dirty_sales d))))).
  { intros dirty_sales row Hid. simpl. rewrite flushed_summaries, map_app. simpl.
    apply NoDup_snoc; [assumption|].
    intros Hin. apply in_map_iff in Hin as (x & Hx & Hin).
    assert (Hlt : Summary.id x < next_summary_id (flushed dirty_sales d)).
    { apply next_summary_id_fresh. now rewrite flushed_summaries. }
    lia. }
  destruct (authorised_dec u) as [Ha|Ha].
  2: { now rewrite run_forbidden. }
  destruct (employee_of req d) as [emp|] eqn:He.
  2: { now rewrite run_employee_missing. }
  assert (He' : employee_of req d <> None) by congruence.
  destruct (commission_rules_of req d) as [|r rs] eqn:Hrules.
  { destruct (existing_summary_of req d) as [existing|] eqn:Hx;
      [destruct (Request.recalculate req) eqn:Hr|].
    - rewrite run_no_rules; auto.
    - rewrite (run_existing req u now d existing); auto.
    - rewrite run_no_rules; auto. }
  assert (Hrules' : commission_rules_of req d <> []) by congruence.
  destruct (existing_summary_of req d) as [existing|] eqn:Hx;
    [destruct (Request.recalculate req) eqn:Hr|].
  - destruct (month_range (Request.year req) (Request.month req)) as [range|e] eqn:Hm.
    + rewrite (run_update req u now d existing range); auto. cbn [snd tables].
      rewrite update_summary_ids. now rewrite flushed_summaries.
    + rewrite (run_bad_date req u now d e); auto.
  - rewrite (run_existing req u now d existing); auto.
  - destruct (month_range (Request.year req) (Request.month req)) as [range|e] eqn:Hm.
    + rewrite (run_insert req u now d range); auto. cbn [snd tables].
      now apply Hgen.
    + rewrite (run_bad_date req u now d e); auto.
Qed.

(** ** Rewriting rules in what the calculation does not read *)

Section RuleRewriting.

Variable f : Rule.t -> Rule.t.
Hypothesis f_same : same_calculation f.

Lemma active_rule_of_map (e : Z) (r : Rule.t) :
  active_rule_of e (f r) = active_rule_of e r.
Proof.
  unfold active_rule_of. destruct (f_same r) as (-> & -> & _). reflexivity.
Qed.

Lemma filter_active_map (e : Z) (l : list Rule.t) :
  filter (active_rule_of e) (map f l) = map f (filter (active_rule_of e) l).
Proof.
  induction l as [|r l IH]; simpl; [reflexivity|].
  rewrite active_rule_of_map. destruct (active_rule_of e r); simpl; now rewrite IH.
Qed.

Lemma find_applicable_rule_map (l : list Rule.t) (sale : Sale.t) :
  find_applicable_rule (map f l) sale = option_map f (find_applicable_rule l sale).
Proof.
  induction l as [|r l IH]; simpl; [reflexivity|].
  destruct (f_same r) as (_ & _ & -> & _ & -> & _). rewrite IH.
  destruct (Rule.sale_type r) as [t|].
  - destruct (SaleType_eqb t (Sale.sale_type sale)); [|reflexivity].
    now destruct (Qle_bool _ _).
  - now destruct (Qle_bool _ _).
Qed.

Lemma commission_step_map (l : list Rule.t) (st : loop_state) (sale : Sale.t) :
  commission_step (map f l) st sale = commission_step l st sale.
Proof.
  unfold commission_step. rewrite find_applicable_rule_map.
  destruct (find_applicable_rule l sale) as [r|]; simpl; [|reflexivity].
  unfold sale_commission. destruct (f_same r) as (_ & _ & _ & -> & _). reflexivity.
Qed.

Lemma commission_loop_map (l : list Rule.t) (closed_sales : list Sale.t) :
  commission_loop (map f l) closed_sales = commission_loop l closed_sales.
Proof.
  unfold commission_loop. generalize (mk_loop_state 0%Q [] []).
  induction closed_sales as [|s sales IH]; intros st; simpl; [reflexivity|].
  now rewrite commission_step_map, IH.
Qed.

Lemma tier_loop_map (l : list Rule.t) (total : Decimal) :
  tier_loop (map f l) total = tier_loop l total.
Proof.
  unfold tier_loop. generalize 0%Q.
  induction l as [|r l IH]; intros acc; simpl; [reflexivity|].
  destruct (f_same r) as (_ & _ & _ & _ & _ & ->). apply IH.
Qed.

Lemma compute_summary_map (l : list Rule.t) (closed_sales : list Sale.t)
      (active_leads : Z) (now : datetime) :
  compute_summary (map f l) closed_sales active_leads now
  = compute_summary l closed_sales active_leads now.
Proof.
  unfold compute_summary. now rewrite commission_loop_map, tier_loop_map.
Qed.

Lemma commission_rules_of_map (req : Request.t) (d : Database) :
  commission_rules_of req (map_rules f d) = map f (commission_rules_of req d).
Proof. unfold commission_rules_of. simpl. apply filter_active_map. Qed.

Lemma computed_of_map (req : Request.t) (now : datetime) (range : Date.t * Date.t)
      (d : Database) :
  computed_of req now range (map_rules f d) = computed_of req now range d.
Proof.
  unfold computed_of. rewrite commission_rules_of_map.
  unfold closed_sales_of, active_leads_of. simpl. apply compute_summary_map.
Qed.

Lemma flushed_map_rules (l : list Sale.t) (d : Database) :
  flushed l (map_rules f d) = map_rules f (flushed l d).
Proof.
  revert d. induction l as [|s l IH]; intros d; simpl; [reflexivity|].
  now rewrite <- IH.
Qed.

Lemma run_map_rules (req : Request.t) (u : User.t) (now : datetime) (d : Database) :
  run req u now (map_rules f d)
  = (fst (run req u now d),
     mkSession (map_rules f (tables (snd (run req u now d))))
               (log (snd (run req u now d)))).
Proof.
  destruct (authorised_dec u) as [Ha|Ha].
  2: { now rewrite !run_forbidden. }
  destruct (employee_of req d) as [emp|] eqn:He.
  2: { now rewrite !run_employee_missing. }
  assert (He' : employee_of req d <> None) by congruence.
  assert (He'' : employee_of req (map_rules f d) <> None) by exact He'.
  assert (Hrules : commission_rules_of req (map_rules f d) = []
                   <-> commission_rules_of req d = []).
  { rewrite commission_rules_of_map.
    destruct (commission_rules_of req d); simpl; split; congruence. }
  destruct (existing_summary_of req d) as [existing|] eqn:Hx.
  - assert (Hx' : existing_summary_of req (map_rules f d) = Some existing) by exact Hx.
    destruct (Request.recalculate req) eqn:Hr.
    + destruct (commission_rules_of req d) as [|r rs] eqn:Hl.
      { rewrite !run_no_rules; auto. now apply Hrules. }
      assert (Hl1 : commission_rules_of req d <> []) by congruence.
      assert (Hl2 : commission_rules_of req (map_rules f d) <> [])
        by (intros E; apply Hrules in E; congruence).
      destruct (month_range (Request.year req) (Request.month req))
        as [range|e] eqn:Hm.
      * rewrite (run_update req u now (map_rules f d) existing range); auto.
        rewrite (run_update req u now d existing range); auto.
        cbn [fst snd tables log]. rewrite computed_of_map, flushed_map_rules.
        reflexivity.
      * rewrite (run_bad_date req u now (map_rules f d) e); auto.
        rewrite (run_bad_date req u now d e); auto.
    + rewrite (run_existing req u now (map_rules f d) existing); auto.
      rewrite (run_existing req u now d existing); auto.
  - assert (Hx' : existing_summary_of req (map_rules f d) = None) by exact Hx.
    destruct (commission_rules_of req d) as [|r rs] eqn:Hl.
    { rewrite !run_no_rules; auto. now apply Hrules. }
    assert (Hl1 : commission_rules_of req d <> []) by congruence.
    assert (Hl2 : commission_rules_of req (map_rules f d) <> [])
      by (intros E; apply Hrules in E; congruence).
    destruct (month_range (Request.year req) (Request.month req))
      as [range|e] eqn:Hm.
    + rewrite (run_insert req u now (map_rules f d) range); auto.
      rewrite (run_insert req u now d range); auto.
      cbn [fst snd tables log]. rewrite computed_of_map, flushed_map_rules.
      reflexivity.
    + rewrite (run_bad_date req u now (map_rules f d) e); auto.
      rewrite (run_bad_date req u now d e); auto.
Qed.

End RuleRewriting.

(** ** Tier bonuses *)

Lemma Decimal_bool_true_iff (t : Decimal) : Decimal_bool t = true <-> ~ (t == 0)%Q.
Proof.
  unfold Decimal_bool. rewrite negb_true_iff. split.
  - intros H E. apply Qeq_bool_iff in E. congruence.
  - intros H. destruct (Qeq_bool t 0) eqn:E; [|reflexivity].
    exfalso. apply H. now apply Qeq_bool_iff.
Qed.

Lemma tier_reached_iff (threshold : option Decimal) (total : Decimal) :
  tier_reached threshold total = true <-> tier_pays threshold total.
Proof.
  unfold tier_reached, tier_pays. destruct threshold as [t|].
  - rewrite andb_true_iff, Decimal_bool_true_iff, Qle_bool_iff. split.
    + intros [H1 H2]. now exists t.
    + intros (t' & [= <-] & H1 & H2). now split.
  - split; [discriminate | intros (t & H & _); discriminate].
Qed.

Lemma tier_step_sum (total acc : Decimal) (rule : Rule.t) :
  (tier_step total acc rule == acc + rule_tier_bonus total rule)%Q.
Proof.
  unfold tier_step, rule_tier_bonus, tier_part.
  destruct (tier_reached (Rule.tier1_threshold rule) total);
    destruct (tier_reached (Rule.tier2_threshold rule) total);
    destruct (tier_reached (Rule.tier3_threshold rule) total); ring.
Qed.

Lemma tier_fold_sum (rules : list Rule.t) (total acc : Decimal) :
  (fold_left (tier_step total) rules acc
   == acc + Qsum (map (rule_tier_bonus total) rules))%Q.
Proof.
  revert acc. induction rules as [|r rules IH]; intros acc; simpl.
  - ring.
  - rewrite IH, tier_step_sum. ring.
Qed.

Lemma tier_loop_sum (rules : list Rule.t) (total : Decimal) :
  (tier_loop rules total == Qsum (map (rule_tier_bonus total) rules))%Q.
Proof. unfold tier_loop. rewrite tier_fold_sum. ring. Qed.

Lemma Qle_bool_compat (a b b' : Q) : (b == b')%Q -> Qle_bool a b = Qle_bool a b'.
Proof.
  intros E. destruct (Qle_bool a b') eqn:H.
  - apply Qle_bool_iff. apply Qle_bool_iff in H. now rewrite E.
  - destruct (Qle_bool a b) eqn:H'; [|reflexivity].
    apply Qle_bool_iff in H'. rewrite E in H'. apply Qle_bool_iff in H'. congruence.
Qed.

(** C2 as worded fails for a tier with threshold 0 and rate 5 and one sale
    of 1000: the handler stores a tier bonus of 0, the worded sum is 50. *)
Lemma C2_counterexample_zero_threshold :
  exists summary,
    fst (run Sample.june Sample.manager 60 SampleTiers.db) = Return (Some summary)
    /\ ~ (Summary.tier_bonus summary
          == tier_bonus_as_claimed
               (commission_rules_of Sample.june SampleTiers.db)
               (Summary.total_sales_amount summary))%Q.
Proof.
  eexists. split.
  - vm_compute. reflexivity.
  - vm_compute. discriminate.
Qed.

(** C2 (amended).  [tier_bonus] is the sum, over the active rules of the
    employee and over the three tiers of each, of total * rate / 100 for the
    tiers whose threshold is present, not zero, and at most the total; the
    tiers of one rule and of several rules add up.  The handler computes
    this sum from the total of the selected sales, and the summary it
    returns holds it rounded to the two places of the column.  With one
    rule of thresholds 10000/20000/30000 and rates 2/3/5 and a total of
    25000 the bonus is 25000 * 0.02 + 25000 * 0.03. *)
Theorem C2_tier_bonus_is_sum_of_reached_nonzero_tiers :
  (forall threshold total,
      tier_reached threshold total = true <-> tier_pays threshold total)
  /\ (forall (commission_rules : list Rule.t) (total_sales_amount : Decimal),
         (tier_loop commission_rules total_sales_amount
          == Qsum (map (rule_tier_bonus total_sales_amount) commission_rules))%Q)
  /\ (forall (req : Request.t) (u : User.t) (now : datetime) (d : Database)
             (range : Date.t * Date.t),
         calculates req u d range ->
         summary_ids_unique d ->
         commit_fits (computed_of req now range d) = true ->
         let total := sum_amounts (closed_sales_of req range d) in
         (Summary.c_tier_bonus (fst (computed_of req now range d))
          == Qsum (map (rule_tier_bonus total) (commission_rules_of req d)))%Q
         /\ exists summary,
             fst (run req u now d) = Return (Some summary)
             /\ Summary.tier_bonus (stored_summary summary)
                = Numeric_2 (Qsum (map (rule_tier_bonus total)
                                       (commission_rules_of req d))))
  /\ (forall (total : Decimal) id e t base min active from until,
         (total == 25000)%Q ->
         (tier_loop
            [Rule.mk id e t base min (Some 10000) 2 (Some 20000) 3 (Some 30000) 5
                     active from until]%Q
            total
          == 25000 * 0.02 + 25000 * 0.03)%Q).
Proof.
  split; [exact tier_reached_iff|].
  split; [exact tier_loop_sum|].
  split.
  - intros req u now d range Hc Hnd _ total.
    assert (Hsum : (Summary.c_tier_bonus (fst (computed_of req now range d))
                    == Qsum (map (rule_tier_bonus total)
                                 (commission_rules_of req d)))%Q).
    { unfold computed_of, compute_summary. cbn [fst Summary.c_tier_bonus].
      apply tier_loop_sum. }
    split; [exact Hsum|].
    destruct (run_returns_summary req u now d range Hc Hnd)
      as (summary & Hrun & _ & Hcar & _).
    exists summary. split; [assumption|].
    apply carries_stores in Hcar. destruct Hcar as (_ & _ & _ & _ & -> & _).
    now apply Numeric_2_comp.
  - intros total id e t base min active from until E.
    unfold tier_loop, tier_step, tier_reached, tier_amount. cbn [fold_left
      Rule.tier1_threshold Rule.tier2_threshold Rule.tier3_threshold
      Rule.tier1_bonus_rate Rule.tier2_bonus_rate Rule.tier3_bonus_rate].
    rewrite !(Qle_bool_compat _ total 25000 E).
    change (Decimal_bool 10000 && Qle_bool 10000 25000) with true.
    change (Decimal_bool 20000 && Qle_bool 20000 25000) with true.
    change (Decimal_bool 30000 && Qle_bool 30000 25000) with false.
    cbn iota. rewrite E. reflexivity.
Qed.

(** C2 (amended) on the sample rule, for a total of 0 + 25000.00, and for
    one sale of 12345.64 with a 2% tier: the bonus 246.9128 is returned as
    246.91. *)
Lemma C2_tier_bonus_is_sum_of_reached_nonzero_tiers_witness :
  (tier_loop [Sample.rule] (0 + 25000.00) == 25000 * 0.02 + 25000 * 0.03)%Q
  /\ Qeq (Summary.c_tier_bonus
             (fst (computed_of Sample.june 60
                               (Date.mk 2025 6 1, Date.mk 2025 6 30)
                               SampleRounding.db)))
         246.9128%Q
  /\ exists summary,
      fst (run Sample.june Sample.manager 60 SampleRounding.db)
      = Return (Some summary)
      /\ Summary.tier_bonus (stored_summary summary) = Qmake 24691 100.
Proof.
  destruct C2_tier_bonus_is_sum_of_reached_nonzero_tiers as (_ & _ & H3 & H4).
  split.
  - apply (H4 (0 + 25000.00)%Q 1 2 None 10%Q 500%Q true Sample.jan_2024 None).
    reflexivity.
  - destruct (H3 Sample.june Sample.manager 60 SampleRounding.db
                 (Date.mk 2025 6 1, Date.mk 2025 6 30))
      as (Hsum & summary & Hrun & Hst).
    + repeat split.
      * right. left. reflexivity.
      * discriminate.
      * left. reflexivity.
      * discriminate.
    + constructor.
    + vm_compute. reflexivity.
    + split.
      * rewrite Hsum. vm_compute. reflexivity.
      * exists summary. split; [exact Hrun|]. rewrite Hst. vm_compute. reflexivity.
Defined.

Lemma tier_reached_drop_zero (threshold : option Decimal) (total : Decimal) :
  tier_reached (drop_zero threshold) total = tier_reached threshold total.
Proof.
  unfold drop_zero, tier_reached, truthy. destruct threshold as [t|]; [|reflexivity].
  destruct (Decimal_bool t) eqn:E; [|reflexivity]. now rewrite E.
Qed.

Lemma without_zero_tiers_same : same_calculation without_zero_tiers.
Proof.
  intros r. repeat split. intros total acc.
  unfold tier_step, without_zero_tiers. cbn [Rule.tier1_threshold
    Rule.tier2_threshold Rule.tier3_threshold Rule.tier1_bonus_rate
    Rule.tier2_bonus_rate Rule.tier3_bonus_rate].
  now rewrite !tier_reached_drop_zero.
Qed.

(** C10.  A tier whose threshold is zero (in any decimal representation)
    is never counted as reached, although the words "present and reached"
    would count it for every non-negative total.  The tier loop and the
    whole handler behave on rules with zero thresholds exactly as on the
    same rules with those thresholds absent. *)
Theorem C10_zero_threshold_is_an_absent_tier :
  (forall (den : positive) (total_sales_amount : Decimal),
      tier_reached (Some (0 # den)) total_sales_amount = false
      /\ tier_reached None total_sales_amount = false
      /\ tier_present_and_reached (Some (0 # den)) total_sales_amount
         = Qle_bool 0 total_sales_amount)
  /\ (forall (total_sales_amount tier_bonus : Decimal) rule,
         tier_step total_sales_amount tier_bonus rule
         = tier_step total_sales_amount tier_bonus (without_zero_tiers rule))
  /\ (forall (commission_rules : list Rule.t) (total_sales_amount : Decimal),
         tier_loop commission_rules total_sales_amount
         = tier_loop (map without_zero_tiers commission_rules) total_sales_amount)
  /\ (forall (req : Request.t) (u : User.t) (now : datetime) (d : Database),
         run req u now (map_rules without_zero_tiers d)
         = (fst (run req u now d),
            mkSession (map_rules without_zero_tiers (tables (snd (run req u now d))))
                      (log (snd (run req u now d))))).
Proof.
  split; [|split; [|split]].
  - intros den total. repeat split.
    unfold tier_present_and_reached.
    apply eq_true_iff_eq. rewrite !Qle_bool_iff. unfold Qle. simpl. lia.
  - intros total acc rule. symmetry.
    now destruct (without_zero_tiers_same rule) as (_ & _ & _ & _ & _ & H).
  - intros rules total. symmetry. apply tier_loop_map, without_zero_tiers_same.
  - intros req u now d. apply run_map_rules, without_zero_tiers_same.
Qed.

(** ** The effective window of a rule *)

Lemma set_window_same (w : Rule.t -> Date.t * option Date.t) :
  same_calculation (fun r => set_window (fst (w r)) (snd (w r)) r).
Proof. intros r. repeat split. Qed.

(** C9.  The rule query filters on the employee and on [is_active] only.
    Giving every rule any other effective window changes neither the rules
    selected, nor the outcome of the handler, nor the statements it sends,
    nor the tables it leaves (apart from the windows themselves): a rule
    outside its window passes the at-least-one-rule check and pays base
    commission and tier bonuses like a rule inside it. *)
Theorem C9_effective_window_is_never_consulted :
  forall (w : Rule.t -> Date.t * option Date.t),
    let rewindow := fun r => set_window (fst (w r)) (snd (w r)) r in
    (forall (employee_id : Z) (r : Rule.t),
        active_rule_of employee_id (rewindow r) = active_rule_of employee_id r
        /\ active_rule_of employee_id r
           = (Rule.employee_id r =? employee_id) && Rule.is_active r)
    /\ (forall (req : Request.t) (d : Database),
           commission_rules_of req (map_rules rewindow d)
           = map rewindow (commission_rules_of req d))
    /\ (forall (req : Request.t) (u : User.t) (now : datetime) (d : Database),
           run req u now (map_rules rewindow d)
           = (fst (run req u now d),
              mkSession (map_rules rewindow (tables (snd (run req u now d))))
                        (log (snd (run req u now d))))).
Proof.
  intros w rewindow. split; [|split].
  - intros e r. split; [reflexivity|].
    unfold active_rule_of. now destruct (Rule.is_active r).
  - intros req d. apply commission_rules_of_map, set_window_same.
  - intros req u now d. apply (run_map_rules rewindow), set_window_same.
Qed.

(** A rule in force during 2024 only still pays for June 2025. *)
Example expired_rule_still_pays :
  window_covers SampleTiers.expired_rule 2025 6 = false
  /\ exists summary,
      fst (run Sample.june Sample.manager 60 SampleTiers.db_expired)
      = Return (Some summary)
      /\ (Summary.base_commission summary == 2500)%Q
      /\ (Summary.tier_bonus summary == 1250)%Q.
Proof.
  split; [reflexivity|]. eexists. split; [vm_compute; reflexivity|].
  split; reflexivity.
Qed.

(** ** Sales that no rule matches *)

Lemma sum_amounts_fold (sales : list Sale.t) (acc : Decimal) :
  (fold_left (fun acc sale => acc + Sale.sale_amount sale) sales acc
   == acc + Qsum (map Sale.sale_amount sales))%Q.
Proof.
  revert acc. induction sales as [|s sales IH]; intros acc; simpl.
  - ring.
  - rewrite IH. ring.
Qed.

Lemma sum_amounts_Qsum (sales : list Sale.t) :
  (sum_amounts sales == Qsum (map Sale.sale_amount sales))%Q.
Proof. unfold sum_amounts. rewrite sum_amounts_fold. ring. Qed.

Lemma Qsum_app (l l' : list Q) : (Qsum (l ++ l') == Qsum l + Qsum l')%Q.
Proof.
  induction l as [|x l IH]; simpl.
  - ring.
  - rewrite IH. ring.
Qed.

Lemma sum_amounts_insert (before after : list Sale.t) (sale : Sale.t) :
  (sum_amounts (before ++ sale :: after)
   == sum_amounts (before ++ after) + Sale.sale_amount sale)%Q.
Proof.
  rewrite !sum_amounts_Qsum, !map_app, !Qsum_app. simpl. ring.
Qed.

Lemma below_every_minimum_no_rule (rules : list Rule.t) (sale : Sale.t) :
  below_every_minimum rules sale -> find_applicable_rule rules sale = None.
Proof.
  intros H. apply find_applicable_rule_None. intros r Hin [Ht Hmin].
  specialize (H r Hin Ht). apply Qlt_not_le in H. contradiction.
Qed.

Lemma commission_loop_skip (rules : list Rule.t) (before after : list Sale.t)
      (sale : Sale.t) :
  find_applicable_rule rules sale = None ->
  commission_loop rules (before ++ sale :: after)
  = commission_loop rules (before ++ after).
Proof.
  intros H. unfold commission_loop. rewrite !fold_left_app. simpl.
  unfold commission_step at 2. now rewrite H.
Qed.

Lemma filter_insert {A} (p : A -> bool) (before after : list A) (x : A) :
  p x = true ->
  filter p (before ++ x :: after) = filter p before ++ x :: filter p after.
Proof. intros H. rewrite filter_app. simpl. now rewrite H. Qed.

(** C8.  A closed-won sale of the month whose amount is below the minimum
    of every rule of its type adds nothing to [base_commission], while its
    amount is part of [total_sales_amount] and it counts in
    [closed_deals_count]: the summary computed with the sale in the table
    differs from the one computed without it by exactly the sale's amount
    and one deal. *)
Theorem C8_sale_below_minimum_counts_without_commission :
  forall (req : Request.t) (u : User.t) (now : datetime) (d : Database)
         (range : Date.t * Date.t) (before after : list Sale.t) (sale : Sale.t),
    calculates req u d range ->
    summary_ids_unique d ->
    closed_sale_in (Request.employee_id req) (fst range) (snd range) sale = true ->
    below_every_minimum (commission_rules_of req d) sale ->
    exists with_sale without_sale,
      fst (run req u now (with_sales d (before ++ sale :: after)))
      = Return (Some with_sale)
      /\ fst (run req u now (with_sales d (before ++ after)))
         = Return (Some without_sale)
      /\ Summary.base_commission with_sale = Summary.base_commission without_sale
      /\ (Summary.total_sales_amount with_sale
          == Summary.total_sales_amount without_sale + Sale.sale_amount sale)%Q
      /\ Summary.closed_deals_count with_sale
         = Summary.closed_deals_count without_sale + 1.
Proof.
  intros req u now d range before after sale Hc Hnd Hsel Hbelow.
  destruct (run_returns_summary req u now (with_sales d (before ++ sale :: after))
              range Hc Hnd) as (s1 & Hrun1 & _ & Hcar1 & _).
  destruct (run_returns_summary req u now (with_sales d (before ++ after))
              range Hc Hnd) as (s0 & Hrun0 & _ & Hcar0 & _).
  exists s1, s0. split; [assumption|]. split; [assumption|].
  destruct Hcar1 as (Ht1 & Hn1 & _ & Hb1 & _).
  destruct Hcar0 as (Ht0 & Hn0 & _ & Hb0 & _).
  rewrite Ht1, Ht0, Hn1, Hn0, Hb1, Hb0.
  unfold computed_of, compute_summary, closed_sales_of.
  cbn [fst Summary.c_total_sales_amount Summary.c_closed_deals_count
       Summary.c_base_commission with_sales sales].
  change (commission_rules_of req (with_sales d (before ++ sale :: after)))
    with (commission_rules_of req d).
  change (commission_rules_of req (with_sales d (before ++ after)))
    with (commission_rules_of req d).
  rewrite (filter_insert _ before after sale Hsel), filter_app.
  apply below_every_minimum_no_rule in Hbelow.
  rewrite (commission_loop_skip _ _ _ _ Hbelow).
  split; [reflexivity|]. split; [apply sum_amounts_insert|].
  rewrite !length_app. simpl. lia.
Qed.

(** C8 on the sample database: the sale of 100 is below the minimum 500. *)
Lemma C8_sale_below_minimum_counts_without_commission_witness :
  exists with_sale without_sale,
    fst (run Sample.june Sample.manager 60 Sample.db) = Return (Some with_sale)
    /\ fst (run Sample.june Sample.manager 60
                (with_sales Sample.db
                   [Sample.sale 1 consulting 1000 30; Sample.sale 3 other 24000 15]))
       = Return (Some without_sale)
    /\ Summary.base_commission with_sale = Summary.base_commission without_sale
    /\ (Summary.total_sales_amount with_sale
        == Summary.total_sales_amount without_sale + 100)%Q
    /\ Summary.closed_deals_count with_sale
       = Summary.closed_deals_count without_sale + 1.
Proof.
  apply (C8_sale_below_minimum_counts_without_commission
           Sample.june Sample.manager 60 Sample.db
           (Date.mk 2025 6 1, Date.mk 2025 6 30)
           [Sample.sale 1 consulting 1000 30] [Sample.sale 3 other 24000 15]
           (Sample.sale 2 consulting 100 1)).
  - repeat split.
    + right. left. reflexivity.
    + discriminate.
    + left. reflexivity.
    + discriminate.
  - constructor.
  - reflexivity.
  - intros r [<-|[]] _. reflexivity.
Defined.

(** ** Binary floats *)

(** [float(Decimal('0.1'))] is 0x1.999999999999ap-4 and
    [float(Decimal('0.3'))] is 0x1.3333333333333p-2; one half and one
    thousand are exact; 0.1 + 0.2 is the float above 0.3. *)
Example float_samples :
  PyFloat.of_Decimal 0.1 = S754_finite false 7205759403792794 (-56)
  /\ PyFloat.of_Decimal 0.3 = S754_finite false 5404319552844595 (-54)
  /\ PyFloat.to_Q (PyFloat.of_Decimal 0.5) = Some (4503599627370496 # 9007199254740992)%Q
  /\ PyFloat.add (PyFloat.of_int 0) (PyFloat.of_Decimal 1000.00)
     = S754_finite false 8796093022208000 (-43)
  /\ PyFloat.add (PyFloat.of_Decimal 0.1) (PyFloat.of_Decimal 0.2)
     = S754_finite false 5404319552844596 (-54).
Proof. repeat split; vm_compute; reflexivity. Qed.

(** ** The breakdown dictionary *)

Lemma get_set_same (k : string) (v : Breakdown.entry) (d : Breakdown.dict) :
  Breakdown.get k (Breakdown.set k v d) = Some v.
Proof.
  induction d as [|[k' v'] d IH]; simpl.
  - now rewrite String.eqb_refl.
  - destruct (String.eqb k' k) eqn:E; simpl; rewrite E; [reflexivity | assumption].
Qed.

Lemma get_set_other (k k' : string) (v : Breakdown.entry) (d : Breakdown.dict) :
  String.eqb k k' = false ->
  Breakdown.get k' (Breakdown.set k v d) = Breakdown.get k' d.
Proof.
  intros Hk. induction d as [|[k0 v0] d IH]; simpl.
  - now rewrite Hk.
  - destruct (String.eqb k0 k) eqn:E; simpl.
    + apply String.eqb_eq in E. subst k0. now rewrite Hk.
    + now rewrite IH.
Qed.

Lemma get_update_same (k : string) (f : Breakdown.entry -> Breakdown.entry)
      (d : Breakdown.dict) :
  Breakdown.get k (update_entry k f d) = option_map f (Breakdown.get k d).
Proof.
  unfold update_entry. destruct (Breakdown.get k d) as [e|] eqn:E; simpl.
  - apply get_set_same.
  - assumption.
Qed.

Lemma get_update_other (k k' : string) (f : Breakdown.entry -> Breakdown.entry)
      (d : Breakdown.dict) :
  String.eqb k k' = false ->
  Breakdown.get k' (update_entry k f d) = Breakdown.get k' d.
Proof.
  intros Hk. unfold update_entry. destruct (Breakdown.get k d); [|reflexivity].
  now apply get_set_other.
Qed.

Lemma SaleType_value_eqb (a b : SaleType) :
  String.eqb (SaleType_value a) (SaleType_value b) = SaleType_eqb a b.
Proof. destruct a, b; reflexivity. Qed.

Lemma get_track_breakdown (bd : Breakdown.dict) (sale : Sale.t) (c : Decimal)
      (t : SaleType) :
  Breakdown.get (SaleType_value t) (track_breakdown bd sale c)
  = if SaleType_eqb (Sale.sale_type sale) t
    then Some (bump (Breakdown.get (SaleType_value t) bd) (Sale.sale_amount sale) c)
    else Breakdown.get (SaleType_value t) bd.
Proof.
  unfold track_breakdown. rewrite <- SaleType_value_eqb.
  destruct (String.eqb (SaleType_value (Sale.sale_type sale)) (SaleType_value t)) eqn:E.
  - apply String.eqb_eq in E. rewrite <- E.
    rewrite !get_update_same. unfold bump.
    destruct (Breakdown.get (SaleType_value (Sale.sale_type sale)) bd) as [e|] eqn:G.
    + rewrite G. reflexivity.
    + rewrite get_set_same. reflexivity.
  - rewrite !get_update_other by assumption.
    destruct (Breakdown.get (SaleType_value (Sale.sale_type sale)) bd); [reflexivity|].
    now apply get_set_other.
Qed.

Lemma get_commission_step (rules : list Rule.t) (st : loop_state) (sale : Sale.t)
      (t : SaleType) :
  Breakdown.get (SaleType_value t) (sales_breakdown (commission_step rules st sale))
  = if has_rule rules sale && SaleType_eqb (Sale.sale_type sale) t
    then Some (bump (Breakdown.get (SaleType_value t) (sales_breakdown st))
                    (Sale.sale_amount sale) (contribution rules sale))
    else Breakdown.get (SaleType_value t) (sales_breakdown st).
Proof.
  unfold commission_step, has_rule, contribution.
  destruct (find_applicable_rule rules sale) as [r|]; simpl; [|reflexivity].
  apply get_track_breakdown.
Qed.

Lemma get_commission_fold (rules : list Rule.t) (t : SaleType) (sales : list Sale.t)
      (st : loop_state) :
  Breakdown.get (SaleType_value t)
                (sales_breakdown (fold_left (commission_step rules) sales st))
  = entry_after rules t sales (Breakdown.get (SaleType_value t) (sales_breakdown st)).
Proof.
  unfold entry_after, matched. revert st.
  induction sales as [|s sales IH]; intros st; simpl; [reflexivity|].
  rewrite IH, get_commission_step.
  now destruct (has_rule rules s && SaleType_eqb (Sale.sale_type s) t).
Qed.

Lemma bump_fold (rules : list Rule.t) (l : list Sale.t) (e : Breakdown.entry) :
  fold_left (fun e sale => Some (bump e (Sale.sale_amount sale) (contribution rules sale)))
            l (Some e)
  = Some (Breakdown.mk
            (Breakdown.count e + Z.of_nat (List.length l))
            (fold_left (fun acc x => PyFloat.add acc (PyFloat.of_Decimal x))
                       (map Sale.sale_amount l) (Breakdown.total_amount e))
            (fold_left (fun acc x => PyFloat.add acc (PyFloat.of_Decimal x))
                       (map (contribution rules) l) (Breakdown.commission e))).
Proof.
  revert e. induction l as [|s l IH]; intros e.
  - simpl. rewrite Z.add_0_r. now destruct e.
  - cbn [fold_left map List.length]. unfold bump at 2. rewrite IH.
    cbn [Breakdown.count Breakdown.total_amount Breakdown.commission].
    f_equal. f_equal. lia.
Qed.

Lemma breakdown_of_loop (rules : list Rule.t) (t : SaleType) (sales : list Sale.t) :
  Breakdown.get (SaleType_value t) (sales_breakdown (commission_loop rules sales))
  = breakdown_entry rules t sales.
Proof.
  unfold commission_loop. rewrite get_commission_fold. simpl.
  unfold entry_after, breakdown_entry, float_sum.
  destruct (matched rules t sales) as [|s l]; [reflexivity|].
  cbn [fold_left map List.length]. unfold bump at 2. rewrite bump_fold.
  cbn [Breakdown.count Breakdown.total_amount Breakdown.commission].
  f_equal. f_equal. lia.
Qed.

(** ** The sales table after the commit *)

Lemma sales_flushed (dirty_sales : list Sale.t) (d : Database) :
  sales (flushed dirty_sales d)
  = map (fun row => fold_left (fun r sale => updated_by sale r) dirty_sales row)
        (sales d).
Proof.
  revert d. induction dirty_sales as [|s l IH]; intros d; simpl.
  - now rewrite map_id.
  - rewrite IH. simpl. rewrite map_map. reflexivity.
Qed.

Lemma processed_id (rules : list Rule.t) (sale : Sale.t) :
  Sale.id (processed rules sale) = Sale.id sale.
Proof. unfold processed. now destruct (find_applicable_rule rules sale). Qed.

Lemma updated_by_processed_self (rules : list Rule.t) (row r' : Sale.t) :
  has_rule rules row = true ->
  r' = row \/ r' = processed rules row ->
  updated_by (processed rules row) r' = processed rules row.
Proof.
  unfold has_rule, updated_by, processed.
  destruct (find_applicable_rule rules row) as [rule|]; [|discriminate].
  intros _ [->| ->]; simpl; now rewrite Z.eqb_refl.
Qed.

Lemma fold_updated_by_processed (rules : list Rule.t) (row : Sale.t)
      (l : list Sale.t) (r' : Sale.t) :
  (forall p, In p l -> has_rule rules p = true
                       /\ (Sale.id p = Sale.id row -> p = row)) ->
  r' = row \/ r' = processed rules row ->
  fold_left (fun r sale => updated_by sale r) (map (processed rules) l) r'
  = if existsb (fun p => Sale.id p =? Sale.id row) l
    then processed rules row
    else r'.
Proof.
  revert r'. induction l as [|p l IH]; intros r' Hl Hr'; [reflexivity|].
  cbn [map fold_left existsb].
  assert (Hid : Sale.id r' = Sale.id row)
    by (destruct Hr' as [->| ->]; [reflexivity | apply processed_id]).
  destruct (Hl p (or_introl eq_refl)) as [Hp Hsame].
  assert (Hl' : forall q, In q l -> has_rule rules q = true
                                    /\ (Sale.id q = Sale.id row -> q = row))
    by (intros q Hq; apply Hl; now right).
  destruct (Z.eqb_spec (Sale.id p) (Sale.id row)) as [E|E].
  - rewrite (Hsame E) in *. rewrite updated_by_processed_self by assumption.
    rewrite IH by auto. cbn [orb]. now destruct (existsb _ l).
  - assert (Hu : updated_by (processed rules p) r' = r').
    { unfold updated_by. rewrite processed_id, Hid.
      destruct (Z.eqb_spec (Sale.id row) (Sale.id p)); [congruence | reflexivity]. }
    rewrite Hu. cbn [orb]. now apply IH.
Qed.

Lemma NoDup_map_injective {A B} (f : A -> B) (l : list A) (x y : A) :
  NoDup (map f l) -> In x l -> In y l -> f x = f y -> x = y.
Proof.
  induction l as [|a l IH]; simpl; [intros _ []|].
  intros Hnd Hx Hy E. inversion Hnd as [|? ? Ha Hl]; subst.
  destruct Hx as [->|Hx], Hy as [->|Hy]; trivial.
  - exfalso. apply Ha. rewrite E. now apply in_map.
  - exfalso. apply Ha. rewrite <- E. now apply in_map.
  - now apply IH.
Qed.

Lemma existsb_id_filter (q : Sale.t -> bool) (table : list Sale.t) (row : Sale.t) :
  NoDup (map Sale.id table) ->
  In row table ->
  existsb (fun p => Sale.id p =? Sale.id row) (filter q table) = q row.
Proof.
  intros Hnd Hin. destruct (q row) eqn:Hq.
  - apply existsb_exists. exists row. split; [|apply Z.eqb_refl].
    apply filter_In. now split.
  - destruct (existsb _ _) eqn:E; [|reflexivity].
    apply existsb_exists in E as (p & Hp & Hid). apply Z.eqb_eq in Hid.
    apply filter_In in Hp as [Hp Hqp].
    assert (p = row) by (eapply NoDup_map_injective; eauto). congruence.
Qed.

Lemma dirty_of_computed (req : Request.t) (now : datetime) (range : Date.t * Date.t)
      (d : Database) :
  snd (computed_of req now range d)
  = map (processed (commission_rules_of req d))
        (filter (has_rule (commission_rules_of req d)) (closed_sales_of req range d)).
Proof.
  unfold computed_of, compute_summary. cbn [snd]. unfold commission_loop.
  now rewrite commission_fold_dirty.
Qed.

Lemma filter_filter_andb {A} (p q : A -> bool) (l : list A) :
  filter p (filter q l) = filter (fun x => q x && p x) l.
Proof.
  induction l as [|x l IH]; simpl; [reflexivity|].
  destruct (q x); simpl; [|assumption]. destruct (p x); now rewrite IH.
Qed.

Lemma sales_after_flush (req : Request.t) (now : datetime) (range : Date.t * Date.t)
      (d : Database) :
  sale_ids_unique d ->
  sales (flushed (snd (computed_of req now range d)) d)
  = map (row_after req range d) (sales d).
Proof.
  intros Hnd. rewrite sales_flushed, dirty_of_computed.
  apply map_ext_in. intros row Hin. unfold row_after, closed_sales_of.
  set (rules := commission_rules_of req d).
  set (sel := closed_sale_in (Request.employee_id req) (fst range) (snd range)).
  rewrite filter_filter_andb.
  rewrite (fold_updated_by_processed rules row).
  - rewrite existsb_id_filter by assumption.
    destruct (sel row); [|reflexivity]. cbn [andb].
    unfold has_rule, processed. now destruct (find_applicable_rule rules row).
  - intros p Hp. apply filter_In in Hp as [Hp Hq].
    apply andb_true_iff in Hq as [_ Hrule]. split; [assumption|].
    intros Hid. eapply NoDup_map_injective; eauto.
  - now left.
Qed.

Lemma run_tables (req : Request.t) (u : User.t) (now : datetime) (d : Database)
      (range : Date.t * Date.t) :
  calculates req u d range ->
  sale_ids_unique d ->
  users (tables (snd (run req u now d))) = users d
  /\ employee_commission_rules (tables (snd (run req u now d)))
     = employee_commission_rules d
  /\ sales (tables (snd (run req u now d))) = map (row_after req range d) (sales d).
Proof.
  intros (Ha & He & Hx & Hr & Hm) Hnd.
  destruct (existing_summary_of req d) as [existing|] eqn:Ex.
  - destruct Hx as [Hx|Hx]; [discriminate|].
    rewrite (run_update req u now d existing range); auto. cbn [snd tables].
    unfold update_summary. cbn [users employee_commission_rules sales].
    rewrite flushed_users, flushed_rules, sales_after_flush by assumption.
    repeat split.
  - rewrite (run_insert req u now d range); auto. cbn [snd tables].
    unfold insert_summary. cbn [users employee_commission_rules sales].
    rewrite flushed_users, flushed_rules, sales_after_flush by assumption.
    repeat split.
Qed.

(** ** Recalculation reads nothing it wrote *)

Lemma find_applicable_rule_ext (rules : list Rule.t) (s s' : Sale.t) :
  Sale.sale_type s' = Sale.sale_type s ->
  Sale.sale_amount s' = Sale.sale_amount s ->
  find_applicable_rule rules s' = find_applicable_rule rules s.
Proof.
  intros Ht Ha. induction rules as [|r rules IH]; simpl; [reflexivity|].
  now rewrite Ht, Ha, IH.
Qed.

Lemma processed_fields (rules : list Rule.t) (s : Sale.t) :
  Sale.sale_type (processed rules s) = Sale.sale_type s
  /\ Sale.sale_amount (processed rules s) = Sale.sale_amount s
  /\ Sale.status (processed rules s) = Sale.status s
  /\ Sale.salesperson_id (processed rules s) = Sale.salesperson_id s
  /\ Sale.close_date (processed rules s) = Sale.close_date s
  /\ forall a st, Sale.set_commission (processed rules s) a st
                  = Sale.set_commission s a st.
Proof.
  unfold processed. destruct (find_applicable_rule rules s); repeat split.
Qed.

Lemma commission_step_processed (rules rules' : list Rule.t) (st : loop_state)
      (s : Sale.t) :
  commission_step rules st (processed rules' s) = commission_step rules st s.
Proof.
  destruct (processed_fields rules' s) as (Ht & Ha & _ & _ & _ & Hset).
  unfold commission_step.
  rewrite (find_applicable_rule_ext rules s (processed rules' s) Ht Ha).
  destruct (find_applicable_rule rules s) as [r|]; [|reflexivity].
  unfold sale_commission, track_breakdown. now rewrite Ht, Ha, Hset.
Qed.

Lemma commission_loop_processed (rules rules' : list Rule.t) (sales : list Sale.t) :
  commission_loop rules (map (processed rules') sales) = commission_loop rules sales.
Proof.
  unfold commission_loop. generalize (mk_loop_state 0%Q [] []).
  induction sales as [|s sales IH]; intros st; simpl; [reflexivity|].
  now rewrite commission_step_processed, IH.
Qed.

Lemma sum_amounts_processed (rules : list Rule.t) (sales : list Sale.t) :
  sum_amounts (map (processed rules) sales) = sum_amounts sales.
Proof.
  unfold sum_amounts. generalize 0%Q.
  induction sales as [|s sales IH]; intros acc; simpl; [reflexivity|].
  destruct (processed_fields rules s) as (_ & -> & _). apply IH.
Qed.

Lemma closed_sale_in_processed (rules : list Rule.t) (e : Z) (a b : Date.t)
      (s : Sale.t) :
  closed_sale_in e a b (processed rules s) = closed_sale_in e a b s.
Proof.
  unfold closed_sale_in.
  destruct (processed_fields rules s) as (_ & _ & -> & -> & -> & _). reflexivity.
Qed.

Lemma active_lead_of_processed (rules : list Rule.t) (e : Z) (s : Sale.t) :
  active_lead_of e (processed rules s) = active_lead_of e s.
Proof.
  unfold active_lead_of.
  destruct (processed_fields rules s) as (_ & _ & -> & -> & _). reflexivity.
Qed.

Lemma filter_closed_after (req : Request.t) (range : Date.t * Date.t) (d : Database)
      (table : list Sale.t) :
  filter (closed_sale_in (Request.employee_id req) (fst range) (snd range))
         (map (row_after req range d) table)
  = map (processed (commission_rules_of req d))
        (filter (closed_sale_in (Request.employee_id req) (fst range) (snd range))
                table).
Proof.
  induction table as [|s l IH]; simpl; [reflexivity|].
  assert (Hrow : closed_sale_in (Request.employee_id req) (fst range) (snd range)
                   (row_after req range d s)
                 = closed_sale_in (Request.employee_id req) (fst range) (snd range) s).
  { unfold row_after. destruct (closed_sale_in _ _ _ s) eqn:E; [|assumption].
    now rewrite closed_sale_in_processed. }
  rewrite Hrow. destruct (closed_sale_in _ _ _ s) eqn:E; [|assumption].
  simpl. rewrite IH. unfold row_after. now rewrite E.
Qed.

Lemma filter_leads_after (req : Request.t) (range : Date.t * Date.t) (d : Database)
      (e : Z) (table : list Sale.t) :
  List.length (filter (active_lead_of e) (map (row_after req range d) table))
  = List.length (filter (active_lead_of e) table).
Proof.
  induction table as [|s l IH]; simpl; [reflexivity|].
  assert (E : active_lead_of e (row_after req range d s) = active_lead_of e s).
  { unfold row_after. destruct (closed_sale_in _ _ _ s); [|reflexivity].
    apply active_lead_of_processed. }
  rewrite E. destruct (active_lead_of e s); simpl; now rewrite IH.
Qed.

(** The values a forced recalculation computes right after a calculation
    are the ones just computed, whatever the clock says. *)
Lemma computed_again (req : Request.t) (u : User.t) (now now' : datetime)
      (d : Database) (range : Date.t * Date.t) :
  calculates req u d range ->
  sale_ids_unique d ->
  computed_of (forced req) now' range (tables (snd (run req u now d)))
  = computed_of req now' range d.
Proof.
  intros Hc Hnd. destruct (run_tables req u now d range Hc Hnd) as (_ & Hr & Hs).
  unfold computed_of, commission_rules_of, closed_sales_of, active_leads_of.
  cbn [forced Request.employee_id]. rewrite Hr, Hs.
  rewrite filter_closed_after, filter_leads_after.
  unfold compute_summary.
  fold (commission_rules_of req d).
  rewrite commission_loop_processed, sum_amounts_processed, length_map.
  reflexivity.
Qed.

Lemma calculates_again (req : Request.t) (u : User.t) (now : datetime)
      (d : Database) (range : Date.t * Date.t) :
  calculates req u d range ->
  sale_ids_unique d ->
  calculates (forced req) u (tables (snd (run req u now d))) range.
Proof.
  intros Hc Hnd. destruct (run_tables req u now d range Hc Hnd) as (Hu & Hr & _).
  destruct Hc as (Ha & He & _ & Hrules & Hm).
  unfold calculates, employee_of, commission_rules_of in *.
  cbn [forced Request.employee_id Request.year Request.month Request.recalculate].
  rewrite Hu, Hr. repeat split; auto.
Qed.

(** ** Base commission *)

Ltac nodup := repeat constructor; simpl; intuition discriminate.

Lemma find_by_id_map (f : Sale.t -> Sale.t) (l : list Sale.t) (row : Sale.t) :
  (forall r, Sale.id (f r) = Sale.id r) ->
  NoDup (map Sale.id l) ->
  In row l ->
  find (sale_by_id (Sale.id row)) (map f l) = Some (f row).
Proof.
  intros Hf. induction l as [|x l IH]; simpl; [intros _ []|].
  intros Hnd Hin. inversion Hnd as [|? ? Hx Hl]; subst.
  unfold sale_by_id at 1. rewrite Hf.
  destruct (Z.eqb_spec (Sale.id x) (Sale.id row)) as [E|E].
  - destruct Hin as [->|Hin]; [reflexivity|].
    exfalso. apply Hx. rewrite E. now apply in_map.
  - destruct Hin as [->|Hin]; [congruence|]. now apply IH.
Qed.

Lemma row_after_id (req : Request.t) (range : Date.t * Date.t) (d : Database)
      (row : Sale.t) :
  Sale.id (row_after req range d row) = Sale.id row.
Proof.
  unfold row_after, processed.
  destruct (closed_sale_in _ _ _ row); [|reflexivity].
  now destruct (find_applicable_rule _ row).
Qed.

(** C1.  Each sale of the loop takes the first rule, in list order, whose
    type is null or the sale's and whose minimum the sale's amount reaches.
    With such a rule the sale's commission is amount * rate / 100: it is
    added to [base_commission], and the sale object is assigned this value
    as [commission_amount] and [calculated] as [commission_status], its
    other columns staying.  Without one the iteration changes nothing: the
    accumulators stay and the sale is not assigned.  Over the whole loop
    [base_commission] is the sum of the per-sale commissions; the summary
    the call returns holds it rounded to the two places of its column, and
    after the commit every selected sale that found a rule is stored with
    status [calculated] and its commission, rounded likewise, while every
    other row is as before. *)
Theorem C1_first_matching_rule_commission :
  (forall (commission_rules : list Rule.t) (st : loop_state) (sale : Sale.t),
      match find_applicable_rule commission_rules sale with
      | Some rule =>
          (exists before after,
              commission_rules = before ++ rule :: after
              /\ (forall r, In r before -> ~ Applies r sale)
              /\ Applies rule sale)
          /\ base_commission (commission_step commission_rules st sale)
             = (base_commission st
                + Sale.sale_amount sale * Rule.base_commission_rate rule / 100)%Q
          /\ exists assigned,
              dirty (commission_step commission_rules st sale)
              = dirty st ++ [assigned]
              /\ Sale.commission_amount assigned
                 = Some (Sale.sale_amount sale
                         * Rule.base_commission_rate rule / 100)%Q
              /\ Sale.commission_status assigned = calculated
              /\ sale_core assigned = sale_core sale
      | None =>
          (forall r, In r commission_rules -> ~ Applies r sale)
          /\ commission_step commission_rules st sale = st
      end)
  /\ (forall (req : Request.t) (u : User.t) (now : datetime) (d : Database)
             (range : Date.t * Date.t),
         calculates req u d range ->
         summary_ids_unique d ->
         sale_ids_unique d ->
         commit_fits (computed_of req now range d) = true ->
         let rules := commission_rules_of req d in
         let d' := tables (snd (run req u now d)) in
         (Summary.c_base_commission (fst (computed_of req now range d))
          == Qsum (map (contribution rules) (closed_sales_of req range d)))%Q
         /\ (exists summary,
                fst (run req u now d) = Return (Some summary)
                /\ Summary.base_commission (stored_summary summary)
                   = Numeric_2 (Qsum (map (contribution rules)
                                          (closed_sales_of req range d))))
         /\ List.length (sales d') = List.length (sales d)
         /\ forall row,
             In row (sales d) ->
             exists row',
               find (sale_by_id (Sale.id row)) (sales d') = Some row'
               /\ sale_core row' = sale_core row
               /\ match (if closed_sale_in (Request.employee_id req)
                                           (fst range) (snd range) row
                         then find_applicable_rule rules row
                         else None) with
                  | Some rule =>
                      Sale.commission_amount (stored_sale row')
                      = Some (Numeric_2 (Sale.sale_amount row
                                         * Rule.base_commission_rate rule / 100))
                      /\ Sale.commission_status row' = calculated
                  | None => row' = row
                  end).
Proof.
  split.
  - intros rules st sale.
    destruct (find_applicable_rule rules sale) as [rule|] eqn:E.
    + split; [now apply find_applicable_rule_Some|].
      unfold commission_step. rewrite E. cbn [base_commission dirty].
      split; [reflexivity|].
      eexists. split; [reflexivity|]. repeat split.
    + split; [now apply find_applicable_rule_None|].
      unfold commission_step. now rewrite E.
  - intros req u now d range Hc Hnd Hsales _ rules d'.
    assert (Hbase : (Summary.c_base_commission (fst (computed_of req now range d))
                     == Qsum (map (contribution rules)
                                  (closed_sales_of req range d)))%Q).
    { subst rules. unfold computed_of, compute_summary, commission_loop.
      cbn [fst Summary.c_base_commission].
      rewrite commission_fold_base. simpl. ring. }
    split; [exact Hbase|]. split.
    { destruct (run_returns_summary req u now d range Hc Hnd)
        as (summary & Hrun & _ & Hcar & _).
      exists summary. split; [assumption|].
      apply carries_stores in Hcar. destruct Hcar as (_ & _ & _ & -> & _).
      now apply Numeric_2_comp. }
    destruct (run_tables req u now d range Hc Hsales) as (_ & _ & Ht).
    subst d'. rewrite Ht. split; [apply length_map|].
    intros row Hin. exists (row_after req range d row).
    split.
    { apply find_by_id_map; [apply row_after_id | exact Hsales | exact Hin]. }
    unfold row_after, processed. fold rules.
    destruct (closed_sale_in _ _ _ row); [|split; reflexivity].
    destruct (find_applicable_rule rules row) as [rule|];
      [|split; reflexivity].
    split; [reflexivity|]. split; reflexivity.
Qed.

(** C1 on the sample database: the base commission is 2500.00, the sale
    of 1000 is stored with the commission 100.00 and status calculated,
    and the sale of 100, below the minimum, stays as it was. *)
Lemma C1_first_matching_rule_commission_witness :
  (exists summary,
      fst (run Sample.june Sample.manager 60 Sample.db) = Return (Some summary)
      /\ Summary.base_commission (stored_summary summary) = Qmake 250000 100)
  /\ (exists row',
         find (sale_by_id 1)
              (sales (tables (snd (run Sample.june Sample.manager 60 Sample.db))))
         = Some row'
         /\ Sale.commission_amount (stored_sale row') = Some (Qmake 10000 100)
         /\ Sale.commission_status row' = calculated)
  /\ find (sale_by_id 2)
          (sales (tables (snd (run Sample.june Sample.manager 60 Sample.db))))
     = Some (Sample.sale 2 consulting 100 1).
Proof.
  destruct C1_first_matching_rule_commission as [_ H].
  destruct (H Sample.june Sample.manager 60 Sample.db
              (Date.mk 2025 6 1, Date.mk 2025 6 30))
    as (_ & (summary & Hrun & Hbase) & _ & Hrows).
  - repeat split.
    + right. left. reflexivity.
    + discriminate.
    + left. reflexivity.
    + discriminate.
  - constructor.
  - nodup.
  - vm_compute. reflexivity.
  - split.
    { exists summary. split; [exact Hrun|]. rewrite Hbase.
      vm_compute. reflexivity. }
    split.
    + destruct (Hrows (Sample.sale 1 consulting 1000 30))
        as (row' & Hf & _ & Hm); [left; reflexivity|].
      exists row'. split; [exact Hf|].
      destruct Hm as [Ham Hst]. split; [rewrite Ham; vm_compute; reflexivity|].
      exact Hst.
    + destruct (Hrows (Sample.sale 2 consulting 100 1))
        as (row' & Hf & _ & Hm); [right; left; reflexivity|].
      change (Sale.id (Sample.sale 2 consulting 100 1)) with 2 in Hf.
      rewrite Hf. f_equal. exact Hm.
Defined.

(** ** Decimal totals, float breakdown *)

(** C7 as worded fails for three consulting sales of 0.10: the decimal total
    is 0.30, the breakdown holds the binary64 sum 5404319552844596 * 2^-54
    (0.30000000000000004), which is neither 0.30 nor the float nearest it. *)
Lemma C7_counterexample_breakdown_in_binary_floating_point :
  exists summary bd e,
    fst (run Sample.june Sample.manager 60 SampleCents.db) = Return (Some summary)
    /\ (Summary.total_sales_amount summary == 0.30)%Q
    /\ Summary.sales_breakdown summary = Some bd
    /\ Breakdown.get "consulting" bd = Some e
    /\ Breakdown.total_amount e = S754_finite false 5404319552844596 (-54)
    /\ Breakdown.total_amount e <> PyFloat.of_Decimal 0.30
    /\ exists q, PyFloat.to_Q (Breakdown.total_amount e) = Some q /\ ~ (q == 0.30)%Q.
Proof.
  eexists. eexists. eexists.
  split; [vm_compute; reflexivity|].
  split; [reflexivity|].
  split; [reflexivity|].
  split; [reflexivity|].
  split; [vm_compute; reflexivity|].
  split; [vm_compute; discriminate|].
  eexists. split; [vm_compute; reflexivity|]. vm_compute. discriminate.
Qed.

(** C7 (amended).  The per-sale commission, [total_sales_amount],
    [base_commission], [tier_bonus] and [total_commission] are computed in
    exact decimal arithmetic, each percentage divided by 100 where it is
    applied, and are rounded once, to the two places of their columns, when
    the summary is stored.  A forced recalculation over the tables the
    calculation left returns the same stored values: nothing drifts.  The
    breakdown amounts are binary floats: each entry holds the count of the
    sales of its type that found a rule and the left-to-right binary64 sums
    of [float(sale_amount)] and [float(commission)], in the order in which
    the query returned the sales. *)
Theorem C7_decimal_totals_and_float_breakdown :
  forall (req : Request.t) (u : User.t) (now : datetime) (d : Database)
         (range : Date.t * Date.t),
    calculates req u d range ->
    summary_ids_unique d ->
    sale_ids_unique d ->
    commit_fits (computed_of req now range d) = true ->
    let c := fst (computed_of req now range d) in
    (Summary.c_total_sales_amount c
     == Qsum (map Sale.sale_amount (closed_sales_of req range d)))%Q
    /\ (Summary.c_base_commission c
        == Qsum (map (fun sale =>
                        match find_applicable_rule (commission_rules_of req d) sale with
                        | Some rule =>
                            Sale.sale_amount sale
                            * Rule.base_commission_rate rule / 100
                        | None => 0
                        end)
                     (closed_sales_of req range d)))%Q
    /\ (Summary.c_tier_bonus c
        == Qsum (map (rule_tier_bonus (Summary.c_total_sales_amount c))
                     (commission_rules_of req d)))%Q
    /\ Summary.c_total_commission c
       = (Summary.c_base_commission c + Summary.c_tier_bonus c)%Q
    /\ exists summary,
        fst (run req u now d) = Return (Some summary)
        /\ Summary.total_sales_amount (stored_summary summary)
           = Numeric_2 (Summary.c_total_sales_amount c)
        /\ Summary.base_commission (stored_summary summary)
           = Numeric_2 (Summary.c_base_commission c)
        /\ Summary.tier_bonus (stored_summary summary)
           = Numeric_2 (Summary.c_tier_bonus c)
        /\ Summary.total_commission (stored_summary summary)
           = Numeric_2 (Summary.c_base_commission c + Summary.c_tier_bonus c)
        /\ (exists bd,
               Summary.sales_breakdown summary = Some bd
               /\ forall t : SaleType,
                   Breakdown.get (SaleType_value t) bd
                   = breakdown_entry (commission_rules_of req d) t
                                     (closed_sales_of req range d))
        /\ forall now' : datetime,
            exists again,
              fst (run (forced req) u now' (tables (snd (run req u now d))))
              = Return (Some again)
              /\ Summary.total_sales_amount (stored_summary again)
                 = Summary.total_sales_amount (stored_summary summary)
              /\ Summary.closed_deals_count again
                 = Summary.closed_deals_count summary
              /\ Summary.base_commission (stored_summary again)
                 = Summary.base_commission (stored_summary summary)
              /\ Summary.tier_bonus (stored_summary again)
                 = Summary.tier_bonus (stored_summary summary)
              /\ Summary.total_commission (stored_summary again)
                 = Summary.total_commission (stored_summary summary).
Proof.
  intros req u now d range Hc Hnd Hsales _ c.
  split.
  { subst c. unfold computed_of, compute_summary.
    cbn [fst Summary.c_total_sales_amount]. apply sum_amounts_Qsum. }
  split.
  { subst c. unfold computed_of, compute_summary, commission_loop.
    cbn [fst Summary.c_base_commission].
    rewrite commission_fold_base. simpl. rewrite Qplus_0_l. reflexivity. }
  split.
  { subst c. unfold computed_of, compute_summary.
    cbn [fst Summary.c_tier_bonus Summary.c_total_sales_amount].
    apply tier_loop_sum. }
  split; [reflexivity|].
  destruct (run_returns_summary req u now d range Hc Hnd)
    as (summary & Hrun & _ & Hcar & _).
  exists summary. split; [assumption|].
  pose proof (carries_stores _ _ Hcar) as (St & _ & _ & Sb & Stb & Stc & _).
  fold c in St, Sb, Stb, Stc.
  split; [exact St|]. split; [exact Sb|]. split; [exact Stb|].
  split; [exact Stc|].
  split.
  { destruct Hcar as (_ & _ & _ & _ & _ & _ & Hbd & _).
    eexists. split; [exact Hbd|]. intros t.
    unfold computed_of, compute_summary. cbn [fst Summary.c_sales_breakdown].
    apply breakdown_of_loop. }
  intros now'.
  pose proof (calculates_again req u now d range Hc Hsales) as Hc'.
  pose proof (call_keeps_summary_ids_unique req u now d Hnd) as Hnd'.
  destruct (run_returns_summary (forced req) u now' _ range Hc' Hnd')
    as (again & Hrun' & _ & Hcar' & _).
  exists again. split; [assumption|].
  rewrite (computed_again req u now now' d range Hc Hsales) in Hcar'.
  destruct Hcar as (Ht & Hn & _ & Hb & Htb & Htc & _).
  destruct Hcar' as (Ht' & Hn' & _ & Hb' & Htb' & Htc' & _).
  unfold computed_of, compute_summary in Ht, Hn, Hb, Htb, Htc, Ht', Hn', Hb', Htb', Htc'.
  cbn [fst Summary.c_total_sales_amount Summary.c_closed_deals_count
       Summary.c_base_commission Summary.c_tier_bonus Summary.c_total_commission]
    in Ht, Hn, Hb, Htb, Htc, Ht', Hn', Hb', Htb', Htc'.
  unfold stored_summary.
  cbn [Summary.total_sales_amount Summary.base_commission Summary.tier_bonus
       Summary.total_commission].
  repeat split; congruence.
Qed.

(** C7 (amended) on one sale of 12345.64 at 10% with a 2% tier: the exact
    commission 1234.564 and bonus 246.9128 add up to 1481.4768, and the
    summary returns 1234.56, 246.91 and 1481.48, also when recalculated. *)
Lemma C7_decimal_totals_and_float_breakdown_witness :
  Qeq (Summary.c_total_commission
         (fst (computed_of Sample.june 60 (Date.mk 2025 6 1, Date.mk 2025 6 30)
                           SampleRounding.db)))
      1481.4768%Q
  /\ exists summary,
      fst (run Sample.june Sample.manager 60 SampleRounding.db)
      = Return (Some summary)
      /\ Summary.base_commission (stored_summary summary) = Qmake 123456 100
      /\ Summary.tier_bonus (stored_summary summary) = Qmake 24691 100
      /\ Summary.total_commission (stored_summary summary) = Qmake 148148 100
      /\ forall now' : datetime,
          exists again,
            fst (run (forced Sample.june) Sample.manager now'
                     (tables (snd (run Sample.june Sample.manager 60
                                       SampleRounding.db))))
            = Return (Some again)
            /\ Summary.total_commission (stored_summary again)
               = Summary.total_commission (stored_summary summary).
Proof.
  destruct (C7_decimal_totals_and_float_breakdown
              Sample.june Sample.manager 60 SampleRounding.db
              (Date.mk 2025 6 1, Date.mk 2025 6 30))
    as (_ & _ & _ & H4 & summary & H1 & _ & Hb & Htb & Htc & _ & H7).
  - repeat split.
    + right. left. reflexivity.
    + discriminate.
    + left. reflexivity.
    + discriminate.
  - constructor.
  - nodup.
  - vm_compute. reflexivity.
  - split; [rewrite H4; vm_compute; reflexivity|].
    exists summary. split; [exact H1|].
    split; [rewrite Hb; vm_compute; reflexivity|].
    split; [rewrite Htb; vm_compute; reflexivity|].
    split; [rewrite Htc; vm_compute; reflexivity|].
    intros now'. destruct (H7 now') as (again & Ha & _ & _ & _ & _ & Hagain).
    exists again. split; assumption.
Defined.

(** ** One summary row per key *)

(** C4.  A call never adds a second summary row for a key: a key with at
    most one row keeps at most one row through any sequence of calls, for
    whatever keys and users.  A call that finds a stored summary for its
    key adds no row (the rows keep their ids and positions); a row is
    appended only when the key had none, and the new row carries the
    requested key.  A recalculation that goes through returns the stored
    row, same id, holding the newly computed values, the decimal ones
    rounded to the two places of their columns. *)
Theorem C4_at_most_one_summary_row_per_key :
  forall (calls : list call) (d : Database) (e y m : Z),
    (summary_rows e y m d <= 1)%nat ->
    (summary_rows e y m (after_all calls d) <= 1)%nat
    /\ (forall (req : Request.t) (u : User.t) (now : datetime),
           match existing_summary_of req d with
           | Some existing =>
               map Summary.id (monthly_commission_summaries (after (req, u, now) d))
               = map Summary.id (monthly_commission_summaries d)
           | None =>
               monthly_commission_summaries (after (req, u, now) d)
               = monthly_commission_summaries d
               \/ exists row,
                   monthly_commission_summaries (after (req, u, now) d)
                   = monthly_commission_summaries d ++ [row]
                   /\ Summary.employee_id row = Request.employee_id req
                   /\ Summary.year row = Request.year req
                   /\ Summary.month row = Request.month req
           end)
    /\ (forall (req : Request.t) (u : User.t) (now : datetime)
               (range : Date.t * Date.t) (existing : Summary.t),
           calculates req u d range ->
           summary_ids_unique d ->
           existing_summary_of req d = Some existing ->
           commit_fits (computed_of req now range d) = true ->
           exists summary,
             fst (run req u now d) = Return (Some summary)
             /\ Summary.id summary = Summary.id existing
             /\ In summary (monthly_commission_summaries (after (req, u, now) d))
             /\ stores (fst (computed_of req now range d)) summary).
Proof.
  intros calls d e y m H. split; [|split].
  - revert d H. induction calls as [|[[req u] now] calls IH]; intros d H; simpl.
    + assumption.
    + apply IH. unfold after. eapply call_keeps_one_row; [apply run_effect | assumption].
  - intros req u now. unfold after.
    destruct (run_effect req u now d) as [->|existing c dirty_sales Hx ->|row dirty_sales Hx Hkey ->].
    + destruct (existing_summary_of req d); [reflexivity | now left].
    + rewrite Hx. rewrite update_summary_ids. now rewrite flushed_summaries.
    + rewrite Hx. right. exists row. simpl. rewrite flushed_summaries.
      split; [reflexivity|].
      unfold summary_by_key in Hkey.
      apply andb_true_iff in Hkey as [Hkey Hm']. apply andb_true_iff in Hkey as [He' Hy'].
      apply Z.eqb_eq in He', Hy', Hm'. auto.
  - intros req u now range existing Hc Hnd Hx _.
    destruct (run_returns_summary req u now d range Hc Hnd)
      as (summary & Hrun & Hin & Hcar & _ & _ & _ & Hid).
    exists summary. unfold after. auto using carries_stores.
Qed.

(** C4 for June 2025 of the sample employee over three calls, and for a
    recalculation of the month with one sale of 12345.64: it returns row 1
    again, with a total commission of 1481.48. *)
Lemma C4_at_most_one_summary_row_per_key_witness :
  (summary_rows 2 2025 6 (after_all three_calls Sample.db) <= 1)%nat
  /\ exists summary,
      fst (run Sample.june_again Sample.manager 61
               (after (Sample.june, Sample.manager, 60) SampleRounding.db))
      = Return (Some summary)
      /\ Summary.id summary = 1
      /\ Summary.total_commission (stored_summary summary) = Qmake 148148 100.
Proof.
  split.
  - apply (C4_at_most_one_summary_row_per_key three_calls Sample.db 2 2025 6).
    repeat constructor.
  - destruct (C4_at_most_one_summary_row_per_key
                [] (after (Sample.june, Sample.manager, 60) SampleRounding.db)
                2 2025 6) as (_ & _ & H).
    + vm_compute. repeat constructor.
    + edestruct (H Sample.june_again Sample.manager 61
                   (Date.mk 2025 6 1, Date.mk 2025 6 30))
        as (summary & Hrun & Hid & _ & Hst).
      * repeat split.
        -- right. left. reflexivity.
        -- discriminate.
        -- right. reflexivity.
        -- discriminate.
      * vm_compute. nodup.
      * vm_compute. reflexivity.
      * vm_compute. reflexivity.
      * exists summary. split; [exact Hrun|]. split; [exact Hid|].
        destruct Hst as (_ & _ & _ & _ & _ & -> & _). vm_compute. reflexivity.
Defined.

(** The three calls above leave exactly one row, the one the first call
    inserted, with the timestamp of the recalculation. *)
Example three_calls_one_row :
  map (fun s => (Summary.id s, Summary.calculated_at s, Summary.last_updated s))
      (monthly_commission_summaries
         (after_all three_calls Sample.db))
  = [(1, 60, 61)].
Proof. vm_compute. reflexivity. Qed.

(** ** The date range of a month *)

(** For a month of the calendar the range runs from the first to the last
    day of that month; December rolls over to the next January. *)
Lemma month_range_valid (year month : Z) :
  1 <= year <= 9999 ->
  1 <= month <= 12 ->
  ~ (year = 9999 /\ month = 12) ->
  month_range year month
  = Return (Date.mk year month 1,
            Date.mk year month (Date.days_in_month year month)).
Proof.
  intros Hy Hm Hlast. unfold month_range.
  rewrite !date_c_int by (apply c_int_iff; lia).
  assert (E1 : (1 <=? year) && (year <=? 9999) = true)
    by (apply andb_true_iff; split; apply Z.leb_le; lia).
  assert (E2 : (1 <=? month) && (month <=? 12) = true)
    by (apply andb_true_iff; split; apply Z.leb_le; lia).
  assert (E3 : (1 <=? 1) && (1 <=? Date.days_in_month year month) = true).
  { apply andb_true_iff; split; apply Z.leb_le; [lia|].
    unfold Date.days_in_month.
    destruct (month =? 2); [destruct (Date.is_leap year); lia|].
    destruct ((month =? 4) || (month =? 6) || (month =? 9) || (month =? 11)); lia. }
  rewrite E1, E2, E3. cbn [negb].
  destruct (Z.eqb_spec month 12) as [->|Hne].
  - assert (E4 : (1 <=? year + 1) && (year + 1 <=? 9999) = true)
      by (apply andb_true_iff; split; apply Z.leb_le; lia).
    rewrite E4. cbn [negb].
    change ((1 <=? 1) && (1 <=? 12)) with true.
    change ((1 <=? 1) && (1 <=? Date.days_in_month (year + 1) 1)) with true.
    cbn [negb]. unfold Date.minus_one_day. cbn [Date.day Date.month Date.year].
    change (1 <? 1) with false. cbn iota.
    change (Date.days_in_month year 12) with 31.
    now replace (year + 1 - 1) with year by lia.
  - assert (E4 : (1 <=? month + 1) && (month + 1 <=? 12) = true)
      by (apply andb_true_iff; split; apply Z.leb_le; lia).
    assert (E5 : (1 <=? 1) && (1 <=? Date.days_in_month year (month + 1)) = true).
    { apply andb_true_iff; split; apply Z.leb_le; [lia|].
      unfold Date.days_in_month.
      destruct (month + 1 =? 2); [destruct (Date.is_leap year); lia|].
      destruct ((month + 1 =? 4) || (month + 1 =? 6) || (month + 1 =? 9)
                || (month + 1 =? 11)); lia. }
    rewrite E4, E5. cbn [negb]. unfold Date.minus_one_day.
    cbn [Date.day Date.month Date.year].
    replace (1 <? 1) with false by reflexivity.
    assert (E6 : (1 <? month + 1) = true) by (apply Z.ltb_lt; lia).
    rewrite E6. now replace (month + 1 - 1) with month by lia.
Qed.

(** The last day of December is in the December range and not in the
    range of the following January. *)
Example december_boundary :
  month_range 2025 12 = Return (Date.mk 2025 12 1, Date.mk 2025 12 31)
  /\ month_range 2026 1 = Return (Date.mk 2026 1 1, Date.mk 2026 1 31)
  /\ Date.leb (Date.mk 2025 12 1) (Date.mk 2025 12 31)
     && Date.leb (Date.mk 2025 12 31) (Date.mk 2025 12 31) = true
  /\ Date.leb (Date.mk 2026 1 1) (Date.mk 2025 12 31) = false.
Proof. repeat split. Qed.

(** The rollover of December reaches year 10000 for year 9999. *)
Example december_9999 :
  month_range 9999 12 = Raise (ValueError "year is out of range").
Proof. reflexivity. Qed.

(** No request with a month outside 1..12 is turned away before the rule
    query: once the caller is authorised, the employee exists, the early
    return does not apply and a rule is active, the handler raises
    [ValueError] after three queries and writes nothing (for a month that
    fits a C [int]; beyond, the exception is [OverflowError]). *)
Lemma run_month_out_of_range (req : Request.t) (u : User.t) (now : datetime)
      (d : Database) :
  authorised u ->
  employee_of req d <> None ->
  existing_summary_of req d = None \/ Request.recalculate req = true ->
  commission_rules_of req d <> [] ->
  1 <= Request.year req <= 9999 ->
  - 2147483648 <= Request.month req <= 2147483647 ->
  ~ (1 <= Request.month req <= 12) ->
  run req u now d
  = (Raise (ValueError "month must be in 1..12"),
     mkSession d [SelectUser; SelectSummary; SelectRules]).
Proof.
  intros Ha He Hx Hr Hy Hc Hm. apply run_bad_date; trivial.
  now apply month_range_out_of_range.
Qed.

(* ================================================================== *)
(** * Further properties of calculate_monthly_commission *)

(** ** Failure leaves no trace *)

Lemma date_raises (y m dd : Z) (e : exn) :
  Date.date y m dd = Raise e ->
  if Date.c_int y && Date.c_int m && Date.c_int dd
  then exists msg, e = ValueError msg
  else exists msg, e = OverflowError msg.
Proof.
  unfold Date.date.
  destruct (Date.c_int y && Date.c_int m && Date.c_int dd); cbn [negb].
  - destruct (negb ((1 <=? y) && (y <=? 9999))); [intros [= <-]; eauto|].
    destruct (negb ((1 <=? m) && (m <=? 12))); [intros [= <-]; eauto|].
    destruct (negb ((1 <=? dd) && (dd <=? Date.days_in_month y m)));
      [intros [= <-]; eauto | discriminate].
  - intros [= <-]. eauto.
Qed.

Lemma date_raises_kind (y m dd : Z) (e : exn) :
  Date.date y m dd = Raise e ->
  exists msg, e = ValueError msg \/ e = OverflowError msg.
Proof.
  intros H. apply date_raises in H.
  destruct (Date.c_int y && Date.c_int m && Date.c_int dd);
    destruct H as [msg ->]; eauto.
Qed.

Lemma month_range_raises_kind (year month : Z) (e : exn) :
  month_range year month = Raise e ->
  exists msg, e = ValueError msg \/ e = OverflowError msg.
Proof.
  unfold month_range.
  destruct (Date.date year month 1) as [start|e1] eqn:E1.
  - destruct (month =? 12).
    + destruct (Date.date (year + 1) 1 1) as [nxt|e2] eqn:E2; [discriminate|].
      intros [= <-]. now apply date_raises_kind in E2.
    + destruct (Date.date year (month + 1) 1) as [nxt|e2] eqn:E2; [discriminate|].
      intros [= <-]. now apply date_raises_kind in E2.
  - intros [= <-]. now apply date_raises_kind in E1.
Qed.

(** X1.  The handler itself raises in four places, all of them before the
    sales are queried: 403 for a caller without one of the roles, 404 for
    an unknown employee, 400 when the employee has no active rule, and the
    [ValueError] or [OverflowError] of the date constructor.  A call that
    ends with one of these exceptions has queried at most the user, the
    summary and the rules, has sent no [UPDATE] or [INSERT], and leaves
    every table as it was.  (An error the database raises at the commit is
    none of these exceptions.) *)
Theorem X1_own_exceptions_precede_every_write :
  forall (req : Request.t) (u : User.t) (now : datetime) (d : Database) (e : exn),
    fst (run req u now d) = Raise e ->
    ((e = HTTPException 403
             "Not authorized to perform this action. Insufficient role."
      /\ ~ authorised u)
     \/ (e = HTTPException 404 "Employee not found"
         /\ employee_of req d = None)
     \/ (e = HTTPException 400 "No commission rules found for this employee"
         /\ commission_rules_of req d = [])
     \/ (month_range (Request.year req) (Request.month req) = Raise e
         /\ exists msg, e = ValueError msg \/ e = OverflowError msg))
    /\ tables (snd (run req u now d)) = d
    /\ existsb is_write (log (snd (run req u now d))) = false
    /\ forall st, In st (log (snd (run req u now d))) ->
                  In st [SelectUser; SelectSummary; SelectRules].
Proof.
  intros req u now d e.
  destruct (authorised_dec u) as [Ha|Ha].
  2: { rewrite run_forbidden by assumption. intros [= <-].
       split; [now left|]. repeat split. intros st []. }
  destruct (employee_of req d) as [emp|] eqn:He.
  2: { rewrite run_employee_missing by assumption. intros [= <-].
       split; [right; left; now split|]. repeat split.
       intros st [<-|[]]. now left. }
  assert (He' : employee_of req d <> None) by congruence.
  destruct (commission_rules_of req d) as [|r rs] eqn:Hrules.
  { destruct (existing_summary_of req d) as [existing|] eqn:Hx;
      [destruct (Request.recalculate req) eqn:Hr|].
    - rewrite run_no_rules; auto. intros [= <-].
      split; [right; right; left; now split|]. repeat split. intros st H. exact H.
    - rewrite (run_existing req u now d existing); auto. discriminate.
    - rewrite run_no_rules; auto. intros [= <-].
      split; [right; right; left; now split|]. repeat split. intros st H. exact H. }
  assert (Hrules' : commission_rules_of req d <> []) by congruence.
  destruct (month_range (Request.year req) (Request.month req)) as [range|e'] eqn:Hm.
  - destruct (existing_summary_of req d) as [existing|] eqn:Hx;
      [destruct (Request.recalculate req) eqn:Hr|].
    + rewrite (run_update req u now d existing range); auto; try discriminate.
    + rewrite (run_existing req u now d existing); auto; try discriminate.
    + rewrite (run_insert req u now d range); auto; try discriminate.
  - pose proof (month_range_raises_kind _ _ _ Hm) as Hk.
    destruct (existing_summary_of req d) as [existing|] eqn:Hx;
      [destruct (Request.recalculate req) eqn:Hr|].
    + rewrite (run_bad_date req u now d e'); auto. intros [= <-].
      split; [right; right; right; now split|]. repeat split. intros st H. exact H.
    + rewrite (run_existing req u now d existing); auto. discriminate.
    + rewrite (run_bad_date req u now d e'); auto. intros [= <-].
      split; [right; right; right; now split|]. repeat split. intros st H. exact H.
Qed.

(** X1 for the request of month 13. *)
Lemma X1_own_exceptions_precede_every_write_witness :
  tables (snd (run Sample.month_13 Sample.manager 60 Sample.db)) = Sample.db
  /\ existsb is_write (log (snd (run Sample.month_13 Sample.manager 60 Sample.db)))
     = false.
Proof.
  destruct (X1_own_exceptions_precede_every_write
              Sample.month_13 Sample.manager 60 Sample.db
              (ValueError "month must be in 1..12")) as (_ & H1 & H2 & _).
  - reflexivity.
  - now split.
Defined.

(** ** What a call leaves alone *)

Lemma updated_by_core (sale row : Sale.t) :
  sale_core (updated_by sale row) = sale_core row.
Proof. unfold updated_by. now destruct (Sale.id row =? Sale.id sale). Qed.

Lemma fold_updated_by_core (l : list Sale.t) (row : Sale.t) :
  sale_core (fold_left (fun r sale => updated_by sale r) l row) = sale_core row.
Proof.
  revert row. induction l as [|s l IH]; intros row; simpl; [reflexivity|].
  now rewrite IH, updated_by_core.
Qed.

Lemma flushed_core (l : list Sale.t) (d : Database) :
  map sale_core (sales (flushed l d)) = map sale_core (sales d).
Proof.
  rewrite sales_flushed, map_map. apply map_ext. intros row.
  apply fold_updated_by_core.
Qed.

(** X2.  No call changes the users or the rules, adds or removes a sale,
    or changes a sale's id, type, status, amount, salesperson, close date
    or commission rate: of the sales table only [commission_amount] and
    [commission_status] can differ afterwards. *)
Theorem X2_call_changes_only_commission_columns :
  forall (req : Request.t) (u : User.t) (now : datetime) (d : Database),
    users (tables (snd (run req u now d))) = users d
    /\ employee_commission_rules (tables (snd (run req u now d)))
       = employee_commission_rules d
    /\ map sale_core (sales (tables (snd (run req u now d))))
       = map sale_core (sales d).
Proof.
  intros req u now d.
  destruct (run_effect req u now d)
    as [->|existing c dirty_sales Hx ->|row dirty_sales Hx Hkey ->].
  - repeat split.
  - cbn [update_summary users employee_commission_rules sales].
    now rewrite flushed_users, flushed_rules, flushed_core.
  - cbn [insert_summary users employee_commission_rules sales].
    now rewrite flushed_users, flushed_rules, flushed_core.
Qed.

(** X3.  With unique summary ids, a call leaves every stored summary of
    another (employee, year, month) exactly as it was. *)
Theorem X3_other_keys_untouched :
  forall (req : Request.t) (u : User.t) (now : datetime) (d : Database)
         (row : Summary.t),
    summary_ids_unique d ->
    In row (monthly_commission_summaries d) ->
    summary_by_key (Request.employee_id req) (Request.year req)
                   (Request.month req) row = false ->
    In row (monthly_commission_summaries (tables (snd (run req u now d)))).
Proof.
  intros req u now d row Hnd Hin Hkey.
  destruct (run_effect req u now d)
    as [->|existing c dirty_sales Hx ->|new dirty_sales Hx Hk ->].
  - assumption.
  - cbn [update_summary monthly_commission_summaries]. rewrite flushed_summaries.
    apply in_map_iff. exists row. split; [|assumption].
    destruct (Z.eqb_spec (Summary.id row) (Summary.id existing)) as [E|E];
      [|reflexivity].
    exfalso. unfold existing_summary_of in Hx.
    apply find_some_in in Hx as [Hin' Hkey'].
    assert (row = existing) by (eapply NoDup_map_injective; eauto).
    congruence.
  - cbn [insert_summary monthly_commission_summaries]. rewrite flushed_summaries.
    apply in_or_app. now left.
Qed.

(** X3 for a stored May summary while June is calculated. *)
Lemma X3_other_keys_untouched_witness :
  In (Summary.mk 7 2 2025 5 0 0 0 0 0 0 paid None None 50 50 1)
     (monthly_commission_summaries
        (tables (snd (run Sample.june Sample.manager 60
                          (mkDatabase (users Sample.db)
                             (employee_commission_rules Sample.db)
                             (sales Sample.db)
                             [Summary.mk 7 2 2025 5 0 0 0 0 0 0 paid None None
                                         50 50 1]))))).
Proof.
  apply X3_other_keys_untouched.
  - nodup.
  - left. reflexivity.
  - reflexivity.
Defined.

(** ** Recalculation of a stored summary *)

Lemma run_update_returns (req : Request.t) (u : User.t) (now : datetime)
      (d : Database) (range : Date.t * Date.t) (existing : Summary.t) :
  calculates req u d range ->
  summary_ids_unique d ->
  existing_summary_of req d = Some existing ->
  fst (run req u now d)
  = Return (Some (Summary.assign (fst (computed_of req now range d)) existing)).
Proof.
  intros (Ha & He & Hx & Hr & Hm) Hnd Ex.
  destruct Hx as [Hx|Hx]; [congruence|].
  rewrite (run_update req u now d existing range); auto. cbn [fst].
  f_equal. apply summary_lookup_update.
  pose proof Ex as Hin. unfold existing_summary_of in Hin.
  apply find_some_in in Hin as [Hin _].
  apply summary_lookup_unique; now rewrite flushed_summaries.
Qed.

(** X4.  A recalculation returns the stored row with its id, its payment
    status and payment date, and the time and user of the first
    calculation; only the computed columns and [last_updated] are new, so
    the user who recalculates is not recorded. *)
Theorem X4_recalculation_keeps_payment_and_origin :
  forall (req : Request.t) (u : User.t) (now : datetime) (d : Database)
         (range : Date.t * Date.t) (existing : Summary.t),
    calculates req u d range ->
    summary_ids_unique d ->
    existing_summary_of req d = Some existing ->
    exists summary,
      fst (run req u now d) = Return (Some summary)
      /\ Summary.id summary = Summary.id existing
      /\ Summary.payment_status summary = Summary.payment_status existing
      /\ Summary.payment_date summary = Summary.payment_date existing
      /\ Summary.calculated_at summary = Summary.calculated_at existing
      /\ Summary.calculated_by_id summary = Summary.calculated_by_id existing
      /\ Summary.last_updated summary = now.
Proof.
  intros req u now d range existing Hc Hnd Ex.
  eexists. split; [now apply (run_update_returns req u now d range existing)|].
  repeat split.
Qed.

(** X4 for a forced June recalculation by another manager. *)
Lemma X4_recalculation_keeps_payment_and_origin_witness :
  exists summary,
    fst (run Sample.june_again (User.mk 3 "head@bwc.test" "Head" true) 90
             Sample.db_with_summary) = Return (Some summary)
    /\ Summary.calculated_by_id summary = 1
    /\ Summary.last_updated summary = 90.
Proof.
  destruct (X4_recalculation_keeps_payment_and_origin
              Sample.june_again (User.mk 3 "head@bwc.test" "Head" true) 90
              Sample.db_with_summary (Date.mk 2025 6 1, Date.mk 2025 6 30)
              Sample.stored)
    as (summary & H1 & _ & _ & _ & _ & H6 & H7).
  - repeat split.
    + right. right. left. reflexivity.
    + discriminate.
    + right. reflexivity.
    + discriminate.
  - nodup.
  - reflexivity.
  - exists summary. auto.
Defined.

(** ** A month without closed sales *)

Lemma Qsum_zero (l : list Q) :
  (forall x, In x l -> (x == 0)%Q) -> (Qsum l == 0)%Q.
Proof.
  induction l as [|x l IH]; intros H; simpl; [reflexivity|].
  rewrite (H x (or_introl eq_refl)), IH; [ring|]. intros y Hy. apply H. now right.
Qed.

Lemma rule_tier_bonus_zero (r : Rule.t) : (rule_tier_bonus 0 r == 0)%Q.
Proof.
  unfold rule_tier_bonus, tier_part, tier_amount.
  destruct (tier_reached (Rule.tier1_threshold r) 0);
    destruct (tier_reached (Rule.tier2_threshold r) 0);
    destruct (tier_reached (Rule.tier3_threshold r) 0); field.
Qed.

(** X5.  When no sale of the employee closed in the month, the calculation
    still succeeds and stores a summary with zero deals, zero amounts and
    an empty breakdown, and no sale row is touched. *)
Theorem X5_month_without_closed_sales :
  forall (req : Request.t) (u : User.t) (now : datetime) (d : Database)
         (range : Date.t * Date.t),
    calculates req u d range ->
    summary_ids_unique d ->
    closed_sales_of req range d = [] ->
    (exists summary,
        fst (run req u now d) = Return (Some summary)
        /\ Summary.total_sales_amount summary = 0%Q
        /\ Summary.closed_deals_count summary = 0
        /\ Summary.base_commission summary = 0%Q
        /\ (Summary.tier_bonus summary == 0)%Q
        /\ (Summary.total_commission summary == 0)%Q
        /\ Summary.sales_breakdown summary = Some [])
    /\ sales (tables (snd (run req u now d))) = sales d.
Proof.
  intros req u now d range Hc Hnd Hclosed. split.
  - destruct (run_returns_summary req u now d range Hc Hnd)
      as (summary & Hrun & _ & Hcar & _).
    exists summary. split; [assumption|].
    destruct Hcar as (Ht & Hn & _ & Hb & Htb & Htc & Hbd & _).
    unfold computed_of, compute_summary in Ht, Hn, Hb, Htb, Htc, Hbd.
    rewrite Hclosed in Ht, Hn, Hb, Htb, Htc, Hbd.
    cbn [fst Summary.c_total_sales_amount Summary.c_closed_deals_count
         Summary.c_base_commission Summary.c_tier_bonus Summary.c_total_commission
         Summary.c_sales_breakdown] in Ht, Hn, Hb, Htb, Htc, Hbd.
    assert (Htier : (tier_loop (commission_rules_of req d) (sum_amounts []) == 0)%Q).
    { rewrite tier_loop_sum. apply Qsum_zero. intros x Hx.
      apply in_map_iff in Hx as (r & <- & _). apply rule_tier_bonus_zero. }
    repeat split; trivial.
    + now rewrite Htb.
    + rewrite Htc, Htier. reflexivity.
  - assert (Hdirty : snd (computed_of req now range d) = []).
    { rewrite dirty_of_computed, Hclosed. reflexivity. }
    destruct Hc as (Ha & He & Hx & Hr & Hm).
    destruct (existing_summary_of req d) as [existing|] eqn:Ex.
    + destruct Hx as [Hx|Hx]; [discriminate|].
      rewrite (run_update req u now d existing range); auto.
      cbn [snd tables update_summary sales]. now rewrite Hdirty.
    + rewrite (run_insert req u now d range); auto.
      cbn [snd tables insert_summary sales]. now rewrite Hdirty.
Qed.

(** X5 for July 2025 of the sample employee. *)
Lemma X5_month_without_closed_sales_witness :
  exists summary,
    fst (run (Request.mk 2 2025 7 false) Sample.manager 60 Sample.db)
    = Return (Some summary)
    /\ Summary.closed_deals_count summary = 0
    /\ Summary.sales_breakdown summary = Some [].
Proof.
  destruct (X5_month_without_closed_sales
              (Request.mk 2 2025 7 false) Sample.manager 60 Sample.db
              (Date.mk 2025 7 1, Date.mk 2025 7 31))
    as [(summary & H1 & _ & H3 & _ & _ & _ & H7) _].
  - repeat split.
    + right. left. reflexivity.
    + discriminate.
    + left. reflexivity.
    + discriminate.
  - constructor.
  - reflexivity.
  - exists summary. auto.
Defined.

(** ** Signs *)

Lemma Qnonneg_plus (x y : Q) : (0 <= x)%Q -> (0 <= y)%Q -> (0 <= x + y)%Q.
Proof.
  intros Hx Hy. rewrite <- (Qplus_0_l 0). now apply Qplus_le_compat.
Qed.

Lemma Qsum_nonneg (l : list Q) :
  (forall x, In x l -> (0 <= x)%Q) -> (0 <= Qsum l)%Q.
Proof.
  induction l as [|x l IH]; intros H; simpl; [apply Qle_refl|].
  apply Qnonneg_plus; [apply H; now left | apply IH; intros y Hy; apply H; now right].
Qed.

Lemma percent_nonneg (a r : Q) : (0 <= a)%Q -> (0 <= r)%Q -> (0 <= a * r / 100)%Q.
Proof.
  intros Ha Hr. unfold Qdiv. apply Qmult_le_0_compat; [|discriminate].
  now apply Qmult_le_0_compat.
Qed.

Lemma find_applicable_rule_In (rules : list Rule.t) (sale : Sale.t) (r : Rule.t) :
  find_applicable_rule rules sale = Some r -> In r rules.
Proof.
  intros H. apply find_applicable_rule_Some in H as (before & after & -> & _).
  apply in_or_app. right. now left.
Qed.

Lemma contribution_nonneg (rules : list Rule.t) (sale : Sale.t) :
  (forall r, In r rules -> nonnegative_rule r) ->
  (0 <= Sale.sale_amount sale)%Q ->
  (0 <= contribution rules sale)%Q.
Proof.
  intros Hr Ha. unfold contribution.
  destruct (find_applicable_rule rules sale) as [r|] eqn:E; [|apply Qle_refl].
  apply find_applicable_rule_In in E. destruct (Hr r E) as (Hb & _).
  now apply percent_nonneg.
Qed.

Lemma rule_tier_bonus_nonneg (total : Decimal) (r : Rule.t) :
  nonnegative_rule r -> (0 <= total)%Q -> (0 <= rule_tier_bonus total r)%Q.
Proof.
  intros (_ & H1 & H2 & H3) Ht. unfold rule_tier_bonus, tier_part, tier_amount.
  repeat apply Qnonneg_plus;
    match goal with
    | |- (0 <= if ?b then _ else _)%Q =>
        destruct b; [now apply percent_nonneg | apply Qle_refl]
    end.
Qed.

(** X6.  When the selected sales have non-negative amounts and the active
    rules non-negative rates, the stored total, base commission and tier
    bonus are non-negative and the total commission is at least the base
    commission. *)
Theorem X6_commission_is_not_negative :
  forall (req : Request.t) (u : User.t) (now : datetime) (d : Database)
         (range : Date.t * Date.t),
    calculates req u d range ->
    summary_ids_unique d ->
    (forall s, In s (closed_sales_of req range d) -> (0 <= Sale.sale_amount s)%Q) ->
    (forall r, In r (commission_rules_of req d) -> nonnegative_rule r) ->
    exists summary,
      fst (run req u now d) = Return (Some summary)
      /\ (0 <= Summary.total_sales_amount summary)%Q
      /\ (0 <= Summary.base_commission summary)%Q
      /\ (0 <= Summary.tier_bonus summary)%Q
      /\ (Summary.base_commission summary <= Summary.total_commission summary)%Q.
Proof.
  intros req u now d range Hc Hnd Hsales Hrules.
  destruct (run_returns_summary req u now d range Hc Hnd)
    as (summary & Hrun & _ & Hcar & _).
  exists summary. split; [assumption|].
  destruct Hcar as (Ht & _ & _ & Hb & Htb & Htc & _).
  unfold computed_of, compute_summary in Ht, Hb, Htb, Htc.
  cbn [fst Summary.c_total_sales_amount Summary.c_base_commission
       Summary.c_tier_bonus Summary.c_total_commission] in Ht, Hb, Htb, Htc.
  assert (H1 : (0 <= Summary.total_sales_amount summary)%Q).
  { rewrite Ht, sum_amounts_Qsum. apply Qsum_nonneg. intros x Hx.
    apply in_map_iff in Hx as (s & <- & Hs). now apply Hsales. }
  assert (H2 : (0 <= Summary.base_commission summary)%Q).
  { rewrite Hb. unfold commission_loop. rewrite commission_fold_base. simpl.
    rewrite Qplus_0_l. apply Qsum_nonneg. intros x Hx.
    apply in_map_iff in Hx as (s & <- & Hs).
    apply contribution_nonneg; [assumption | now apply Hsales]. }
  assert (H3 : (0 <= Summary.tier_bonus summary)%Q).
  { rewrite Htb, tier_loop_sum. apply Qsum_nonneg. intros x Hx.
    apply in_map_iff in Hx as (r & <- & Hr').
    apply rule_tier_bonus_nonneg; [now apply Hrules | now rewrite <- Ht]. }
  repeat split; trivial.
  rewrite Htc, <- Hb, <- Htb.
  rewrite <- (Qplus_0_r (Summary.base_commission summary)) at 1.
  apply Qplus_le_compat; [apply Qle_refl | assumption].
Qed.

(** X6 for June 2025 of the sample database. *)
Lemma X6_commission_is_not_negative_witness :
  exists summary,
    fst (run Sample.june Sample.manager 60 Sample.db) = Return (Some summary)
    /\ (0 <= Summary.base_commission summary)%Q
    /\ (Summary.base_commission summary <= Summary.total_commission summary)%Q.
Proof.
  destruct (X6_commission_is_not_negative
              Sample.june Sample.manager 60 Sample.db
              (Date.mk 2025 6 1, Date.mk 2025 6 30))
    as (summary & H1 & _ & H3 & _ & H5).
  - repeat split.
    + right. left. reflexivity.
    + discriminate.
    + left. reflexivity.
    + discriminate.
  - constructor.
  - intros s [<-|[<-|[<-|[]]]]; discriminate.
  - intros r [<-|[]]. repeat split; discriminate.
  - exists summary. auto.
Defined.

(** ** The month of a request *)

Lemma date_Return_inv (y m dd : Z) (d : Date.t) :
  Date.date y m dd = Return d ->
  d = Date.mk y m dd
  /\ 1 <= y <= 9999 /\ 1 <= m <= 12 /\ 1 <= dd <= Date.days_in_month y m.
Proof.
  unfold Date.date.
  destruct (Date.c_int y && Date.c_int m && Date.c_int dd); [|discriminate].
  cbn [negb].
  destruct ((1 <=? y) && (y <=? 9999)) eqn:Ey; [|discriminate].
  destruct ((1 <=? m) && (m <=? 12)) eqn:Em; [|discriminate].
  destruct ((1 <=? dd) && (dd <=? Date.days_in_month y m)) eqn:Ed; [|discriminate].
  cbn [negb]. intros [= <-].
  apply andb_true_iff in Ey as [Ey1 Ey2]. apply andb_true_iff in Em as [Em1 Em2].
  apply andb_true_iff in Ed as [Ed1 Ed2].
  apply Z.leb_le in Ey1, Ey2, Em1, Em2, Ed1, Ed2. repeat split; assumption.
Qed.

Lemma month_range_Return_inv (year month : Z) (range : Date.t * Date.t) :
  month_range year month = Return range -> valid_period year month.
Proof.
  unfold month_range.
  destruct (Date.date year month 1) as [start|e] eqn:E1; [|discriminate].
  apply date_Return_inv in E1 as (_ & Hy & Hm & _).
  destruct (month =? 12) eqn:E12.
  - destruct (Date.date (year + 1) 1 1) as [nxt|e] eqn:E2; [|discriminate].
    apply date_Return_inv in E2 as (_ & Hy' & _). intros _.
    repeat split; try lia.
  - apply Z.eqb_neq in E12. intros _. repeat split; try lia.
Qed.

Lemma month_range_raises (year month : Z) :
  ~ valid_period year month ->
  if Date.c_int year && Date.c_int month
  then exists msg, month_range year month = Raise (ValueError msg)
  else exists msg, month_range year month = Raise (OverflowError msg).
Proof.
  intros Hn. destruct (month_range year month) as [range|e] eqn:E.
  { exfalso. apply Hn. now apply (month_range_Return_inv _ _ range). }
  unfold month_range in E.
  destruct (Date.date year month 1) as [start|e1] eqn:E1.
  - apply date_Return_inv in E1 as (_ & Hy & Hm & _).
    assert (Hc : Date.c_int year && Date.c_int month = true).
    { apply andb_true_iff. split; apply c_int_iff; lia. }
    rewrite Hc. destruct (month =? 12) eqn:E12.
    + destruct (Date.date (year + 1) 1 1) as [nxt|e2] eqn:E2; [discriminate|].
      injection E as <-. apply date_raises in E2.
      assert (Hc2 : Date.c_int (year + 1) && Date.c_int 1 && Date.c_int 1 = true).
      { rewrite !andb_true_iff. repeat split; apply c_int_iff; lia. }
      rewrite Hc2 in E2. destruct E2 as [msg ->]. eauto.
    + destruct (Date.date year (month + 1) 1) as [nxt|e2] eqn:E2; [discriminate|].
      injection E as <-. apply date_raises in E2.
      assert (Hc2 : Date.c_int year && Date.c_int (month + 1) && Date.c_int 1 = true).
      { rewrite !andb_true_iff. repeat split; apply c_int_iff; lia. }
      rewrite Hc2 in E2. destruct E2 as [msg ->]. eauto.
  - injection E as <-. apply date_raises in E1.
    change (Date.c_int 1) with true in E1. rewrite andb_true_r in E1.
    destruct (Date.c_int year && Date.c_int month);
      destruct E1 as [msg ->]; eauto.
Qed.

Lemma days_in_month_bounds (y m : Z) : 28 <= Date.days_in_month y m <= 31.
Proof.
  unfold Date.days_in_month.
  destruct (m =? 2); [destruct (Date.is_leap y); lia|].
  destruct ((m =? 4) || (m =? 6) || (m =? 9) || (m =? 11)); lia.
Qed.

(** X7.  The date range exists exactly for the years 1 to 9999 and the
    months 1 to 12, December 9999 excepted: there it runs from the first to
    the last day of the month, in that order.  Everywhere else the date
    constructor raises: [OverflowError] when the year or the month of the
    request does not fit a C [int], [ValueError] otherwise. *)
Theorem X7_month_range_exists_exactly_for_calendar_months :
  forall year month : Z,
    (valid_period year month ->
     month_range year month
     = Return (Date.mk year month 1,
               Date.mk year month (Date.days_in_month year month))
     /\ Date.leb (Date.mk year month 1)
                 (Date.mk year month (Date.days_in_month year month)) = true)
    /\ (~ valid_period year month ->
        if Date.c_int year && Date.c_int month
        then exists msg, month_range year month = Raise (ValueError msg)
        else exists msg, month_range year month = Raise (OverflowError msg)).
Proof.
  intros year month. split.
  - intros (Hy & Hm & Hl). split; [now apply month_range_valid|].
    unfold Date.leb. cbn [Date.year Date.month Date.day].
    rewrite !Z.eqb_refl, Z.ltb_irrefl. cbn [orb andb].
    pose proof (days_in_month_bounds year month).
    rewrite Z.ltb_irrefl. cbn [orb]. apply Z.leb_le. lia.
  - apply month_range_raises.
Qed.

(** X7 for February 2024, for month 0 and for month 2^31. *)
Lemma X7_month_range_exists_exactly_for_calendar_months_witness :
  month_range 2024 2 = Return (Date.mk 2024 2 1, Date.mk 2024 2 29)
  /\ (exists msg, month_range 2024 0 = Raise (ValueError msg))
  /\ exists msg, month_range 2024 2147483648 = Raise (OverflowError msg).
Proof.
  split; [|split].
  - apply (X7_month_range_exists_exactly_for_calendar_months 2024 2).
    unfold valid_period. lia.
  - apply (proj2 (X7_month_range_exists_exactly_for_calendar_months 2024 0)).
    unfold valid_period. lia.
  - apply (proj2 (X7_month_range_exists_exactly_for_calendar_months
                    2024 2147483648)).
    unfold valid_period. lia.
Defined.

Lemma leb_in_month (y m : Z) (d : Date.t) :
  1 <= Date.day d <= Date.days_in_month (Date.year d) (Date.month d) ->
  Date.leb (Date.mk y m 1) d
  && Date.leb d (Date.mk y m (Date.days_in_month y m)) = true
  <-> Date.year d = y /\ Date.month d = m.
Proof.
  intros Hd. unfold Date.leb. cbn [Date.year Date.month Date.day].
  split.
  - intros H. apply andb_true_iff in H as [H1 H2].
    repeat (rewrite orb_true_iff in H1 || rewrite andb_true_iff in H1).
    repeat (rewrite orb_true_iff in H2 || rewrite andb_true_iff in H2).
    rewrite ?Z.ltb_lt, ?Z.eqb_eq, ?Z.leb_le in H1, H2. lia.
  - intros [<- <-]. rewrite !Z.eqb_refl, !Z.ltb_irrefl. cbn [orb andb].
    apply andb_true_iff. split; apply Z.leb_le; lia.
Qed.

Lemma closed_sale_in_month :
  forall (employee_id year month : Z) (range : Date.t * Date.t) (s : Sale.t),
    month_range year month = Return range ->
    match Sale.close_date s with
    | Some d =>
        valid_date d ->
        (closed_sale_in employee_id (fst range) (snd range) s = true
         <-> Sale.salesperson_id s = employee_id
             /\ Sale.status s = closed_won
             /\ Date.year d = year /\ Date.month d = month)
    | None => closed_sale_in employee_id (fst range) (snd range) s = false
    end.
Proof.
  intros e y m range s Hm.
  pose proof (month_range_Return_inv y m range Hm) as (Hy & Hmo & Hl).
  rewrite (month_range_valid y m Hy Hmo Hl) in Hm. injection Hm as <-.
  cbn [fst snd]. unfold closed_sale_in.
  destruct (Sale.close_date s) as [d|].
  - intros Hv. unfold valid_date in Hv.
    apply date_Return_inv in Hv as (_ & _ & _ & Hd).
    rewrite !andb_true_iff, Z.eqb_eq, SaleStatus_eqb_eq.
    rewrite <- andb_true_iff, (leb_in_month y m d Hd). tauto.
  - now rewrite andb_false_r.
Qed.

(** X8.  For a request whose date range exists, the sales query selects a
    sale with a valid close date exactly when the sale belongs to the
    employee, is closed-won and its close date lies in the requested year
    and month; a sale without a close date is never selected. *)
Theorem X8_selected_sales_are_those_closed_in_the_month :
  forall (employee_id year month : Z) (range : Date.t * Date.t) (s : Sale.t),
    month_range year month = Return range ->
    match Sale.close_date s with
    | Some d =>
        valid_date d ->
        (closed_sale_in employee_id (fst range) (snd range) s = true
         <-> Sale.salesperson_id s = employee_id
             /\ Sale.status s = closed_won
             /\ Date.year d = year /\ Date.month d = month)
    | None => closed_sale_in employee_id (fst range) (snd range) s = false
    end.
Proof. exact closed_sale_in_month. Qed.

(** X8 for the sample sale closed on 30 June 2025. *)
Lemma X8_selected_sales_are_those_closed_in_the_month_witness :
  closed_sale_in 2 (Date.mk 2025 6 1) (Date.mk 2025 6 30)
                 (Sample.sale 1 consulting 1000 30) = true
  <-> 2 = 2 /\ closed_won = closed_won /\ 2025 = 2025 /\ 6 = 6.
Proof.
  apply (X8_selected_sales_are_those_closed_in_the_month
           2 2025 6 (Date.mk 2025 6 1, Date.mk 2025 6 30)
           (Sample.sale 1 consulting 1000 30)).
  - reflexivity.
  - reflexivity.
Defined.

(** ** The breakdown as a whole *)

Lemma get_None_iff (k : string) (d : Breakdown.dict) :
  Breakdown.get k d = None <-> ~ In k (map fst d).
Proof.
  induction d as [|[k' v] d IH]; simpl.
  - split; [intros _ [] | reflexivity].
  - destruct (String.eqb_spec k' k) as [->|Hne].
    + split; [discriminate | intros H; exfalso; apply H; now left].
    + rewrite IH. split.
      * intros H [E|Hin]; [congruence | now apply H].
      * intros H Hin. apply H. now right.
Qed.

Lemma set_spec (k : string) (v : Breakdown.entry) (d : Breakdown.dict) :
  map fst (Breakdown.set k v d)
  = match Breakdown.get k d with
    | Some _ => map fst d
    | None => map fst d ++ [k]
    end
  /\ total_count (Breakdown.set k v d)
     = total_count d + Breakdown.count v
       - match Breakdown.get k d with
         | Some e => Breakdown.count e
         | None => 0
         end.
Proof.
  induction d as [|[k' v'] d [IH1 IH2]]; simpl.
  - split; [reflexivity | lia].
  - destruct (String.eqb_spec k' k) as [->|Hne]; simpl.
    + split; [reflexivity | lia].
    + rewrite IH1, IH2. split; [|lia].
      now destruct (Breakdown.get k d).
Qed.

Lemma update_entry_spec (k : string) (f : Breakdown.entry -> Breakdown.entry)
      (d : Breakdown.dict) (e : Breakdown.entry) :
  Breakdown.get k d = Some e ->
  Breakdown.get k (update_entry k f d) = Some (f e)
  /\ map fst (update_entry k f d) = map fst d
  /\ total_count (update_entry k f d)
     = total_count d + Breakdown.count (f e) - Breakdown.count e.
Proof.
  intros H. split; [rewrite get_update_same, H; reflexivity|].
  unfold update_entry. rewrite H.
  destruct (set_spec k (f e) d) as [H1 H2]. rewrite H in H1, H2. now split.
Qed.

Lemma track_breakdown_spec (bd : Breakdown.dict) (sale : Sale.t) (c : Decimal) :
  NoDup (map fst bd) ->
  NoDup (map fst (track_breakdown bd sale c))
  /\ total_count (track_breakdown bd sale c) = total_count bd + 1.
Proof.
  intros Hnd. unfold track_breakdown.
  set (key := SaleType_value (Sale.sale_type sale)).
  set (sb1 := match Breakdown.get key bd with
              | Some _ => bd
              | None => Breakdown.set key
                          (Breakdown.mk 0 (PyFloat.of_int 0) (PyFloat.of_int 0)) bd
              end).
  assert (H1 : exists e1,
             Breakdown.get key sb1 = Some e1
             /\ NoDup (map fst sb1)
             /\ total_count sb1 = total_count bd).
  { subst sb1. destruct (Breakdown.get key bd) as [e|] eqn:G.
    - exists e. auto.
    - eexists. split; [apply get_set_same|].
      destruct (set_spec key (Breakdown.mk 0 (PyFloat.of_int 0) (PyFloat.of_int 0)) bd)
        as [Hk Hc].
      rewrite G in Hk, Hc. rewrite Hk, Hc. split.
      + apply NoDup_snoc; [assumption | now apply get_None_iff].
      + simpl. lia. }
  destruct H1 as (e1 & G1 & Hnd1 & Hc1).
  destruct (update_entry_spec key
              (fun e => Breakdown.mk (Breakdown.count e + 1)
                          (Breakdown.total_amount e) (Breakdown.commission e))
              sb1 e1 G1) as (G2 & K2 & C2).
  match type of G2 with Breakdown.get _ ?sb = _ => set (sb2 := sb) in * end.
  destruct (update_entry_spec key
              (fun e => Breakdown.mk (Breakdown.count e)
                          (PyFloat.add (Breakdown.total_amount e)
                                       (PyFloat.of_Decimal (Sale.sale_amount sale)))
                          (Breakdown.commission e))
              sb2 _ G2) as (G3 & K3 & C3).
  match type of G3 with Breakdown.get _ ?sb = _ => set (sb3 := sb) in * end.
  destruct (update_entry_spec key
              (fun e => Breakdown.mk (Breakdown.count e) (Breakdown.total_amount e)
                          (PyFloat.add (Breakdown.commission e)
                                       (PyFloat.of_Decimal c)))
              sb3 _ G3) as (G4 & K4 & C4).
  rewrite K4, K3, K2, C4, C3, C2, Hc1. split; [assumption|].
  simpl. lia.
Qed.

Lemma commission_fold_breakdown (rules : list Rule.t) (sales : list Sale.t)
      (st : loop_state) :
  NoDup (map fst (sales_breakdown st)) ->
  NoDup (map fst (sales_breakdown (fold_left (commission_step rules) sales st)))
  /\ total_count (sales_breakdown (fold_left (commission_step rules) sales st))
     = total_count (sales_breakdown st)
       + Z.of_nat (List.length (filter (has_rule rules) sales)).
Proof.
  revert st. induction sales as [|s sales IH]; intros st Hnd.
  - simpl. split; [assumption | lia].
  - cbn [fold_left filter].
    assert (Hstep : NoDup (map fst (sales_breakdown (commission_step rules st s)))
                    /\ total_count (sales_breakdown (commission_step rules st s))
                       = total_count (sales_breakdown st)
                         + (if has_rule rules s then 1 else 0)).
    { unfold commission_step, has_rule.
      destruct (find_applicable_rule rules s) as [r|]; simpl.
      - now apply track_breakdown_spec.
      - split; [assumption | lia]. }
    destruct Hstep as [Hnd' Hc'].
    destruct (IH _ Hnd') as [IH1 IH2]. split; [assumption|].
    rewrite IH2, Hc'. destruct (has_rule rules s); cbn [List.length]; lia.
Qed.

Lemma filter_length_le {A} (p : A -> bool) (l : list A) :
  (List.length (filter p l) <= List.length l)%nat.
Proof.
  induction l as [|x l IH]; simpl; [lia|]. destruct (p x); simpl; lia.
Qed.

(** X9.  The stored breakdown has one entry per sale type, and its counts
    add up to the number of selected sales that found a rule, which is at
    most [closed_deals_count]. *)
Theorem X9_breakdown_counts_the_sales_with_a_rule :
  forall (req : Request.t) (u : User.t) (now : datetime) (d : Database)
         (range : Date.t * Date.t),
    calculates req u d range ->
    summary_ids_unique d ->
    exists summary bd,
      fst (run req u now d) = Return (Some summary)
      /\ Summary.sales_breakdown summary = Some bd
      /\ NoDup (map fst bd)
      /\ total_count bd
         = Z.of_nat (List.length (filter (has_rule (commission_rules_of req d))
                                         (closed_sales_of req range d)))
      /\ total_count bd <= Summary.closed_deals_count summary.
Proof.
  intros req u now d range Hc Hnd.
  destruct (run_returns_summary req u now d range Hc Hnd)
    as (summary & Hrun & _ & Hcar & _).
  destruct Hcar as (_ & Hn & _ & _ & _ & _ & Hbd & _).
  unfold computed_of, compute_summary in Hn, Hbd.
  cbn [fst Summary.c_closed_deals_count Summary.c_sales_breakdown] in Hn, Hbd.
  exists summary. eexists. split; [assumption|]. split; [exact Hbd|].
  unfold commission_loop.
  destruct (commission_fold_breakdown (commission_rules_of req d)
              (closed_sales_of req range d) (mk_loop_state 0%Q [] []))
    as [H1 H2]; [constructor|].
  split; [assumption|]. rewrite H2. simpl. split; [reflexivity|].
  rewrite Hn. apply inj_le. apply filter_length_le.
Qed.

(** X9 for June 2025 of the sample database: two of the three sales found
    the rule. *)
Lemma X9_breakdown_counts_the_sales_with_a_rule_witness :
  exists summary bd,
    fst (run Sample.june Sample.manager 60 Sample.db) = Return (Some summary)
    /\ Summary.sales_breakdown summary = Some bd
    /\ total_count bd = 2
    /\ Summary.closed_deals_count summary = 3.
Proof.
  destruct (X9_breakdown_counts_the_sales_with_a_rule
              Sample.june Sample.manager 60 Sample.db
              (Date.mk 2025 6 1, Date.mk 2025 6 30))
    as (summary & bd & H1 & H2 & _ & H4 & _).
  - repeat split.
    + right. left. reflexivity.
    + discriminate.
    + left. reflexivity.
    + discriminate.
  - constructor.
  - exists summary, bd. split; [assumption|]. split; [assumption|].
    split; [exact H4|].
    assert (E : Return (Some summary)
                = fst (run Sample.june Sample.manager 60 Sample.db))
      by (symmetry; exact H1).
    vm_compute in E. injection E as ->. reflexivity.
Defined.

(* ================================================================== *)
(** * The rule and summary endpoints *)

Lemma check_roles_st_in {S} (u : User.t) (roles : list string) (s : S) :
  has_role u roles -> check_roles_st u roles s = (Ok tt, s).
Proof.
  intros H. unfold check_roles_st.
  assert (E : existsb (String.eqb (User.role u)) roles = true).
  { apply existsb_exists. exists (User.role u). split; [exact H | apply String.eqb_refl]. }
  now rewrite E.
Qed.

Lemma check_roles_st_out {S} (u : User.t) (roles : list string) (s : S) :
  ~ has_role u roles ->
  check_roles_st u roles s
  = (Err (Exn (HTTPException 403
                 "Not authorized to perform this action. Insufficient role.")), s).
Proof.
  intros H. unfold check_roles_st.
  assert (E : existsb (String.eqb (User.role u)) roles = false).
  { destruct (existsb _ roles) eqn:E; [|reflexivity]. exfalso. apply H.
    apply existsb_exists in E as (x & Hin & Heq). apply String.eqb_eq in Heq.
    unfold has_role. now rewrite Heq. }
  now rewrite E.
Qed.

Lemma has_role_dec (u : User.t) (roles : list string) :
  {has_role u roles} + {~ has_role u roles}.
Proof. apply in_dec, string_dec. Qed.

(** ** Listing rules *)

(** X10.  For an authorised caller and a non-zero employee id the rule
    listing returns exactly the rules the calculation for that employee
    uses, in the same order; without an employee id, or with the id 0, it
    returns the active rules of all employees.  It changes nothing, and an
    unauthorised caller gets 403. *)
Theorem X10_rule_listing_agrees_with_calculation :
  forall (u : User.t) (d : Database),
    (authorised u ->
     (forall req : Request.t,
         Request.employee_id req <> 0 ->
         get_commission_rules (Some (Request.employee_id req)) u d
         = (Ok (commission_rules_of req d), d))
     /\ get_commission_rules None u d
        = (Ok (filter Rule.is_active (employee_commission_rules d)), d)
     /\ get_commission_rules (Some 0) u d = get_commission_rules None u d)
    /\ (~ authorised u ->
        forall employee_id,
          get_commission_rules employee_id u d
          = (Err (Exn (HTTPException 403
                         "Not authorized to perform this action. Insufficient role.")),
             d)).
Proof.
  intros u d.
  assert (Hact : forall l : list Rule.t,
             filter (fun r => Bool.eqb (Rule.is_active r) true) l
             = filter Rule.is_active l).
  { intros l. apply filter_ext. intros r. now destruct (Rule.is_active r). }
  split.
  - intros Ha. unfold get_commission_rules, st_bind.
    rewrite (check_roles_st_in u _ d Ha). unfold st_query. repeat split.
    + intros req He. unfold truthy_int.
      apply Z.eqb_neq in He. rewrite He. cbn [negb].
      rewrite filter_filter_andb. reflexivity.
    + cbn [truthy_int]. now rewrite Hact.
  - intros Ha e. unfold get_commission_rules, st_bind.
    now rewrite (check_roles_st_out u _ d Ha).
Qed.

(** X10 for the sample employee. *)
Lemma X10_rule_listing_agrees_with_calculation_witness :
  get_commission_rules (Some 2) Sample.manager Sample.db
  = (Ok [Sample.rule], Sample.db)
  /\ get_commission_rules (Some 2) Sample.agent Sample.db
     = (Err (Exn (HTTPException 403
                    "Not authorized to perform this action. Insufficient role.")),
        Sample.db).
Proof.
  destruct (X10_rule_listing_agrees_with_calculation Sample.manager Sample.db)
    as [H1 _].
  destruct (X10_rule_listing_agrees_with_calculation Sample.agent Sample.db)
    as [_ H2].
  split.
  - destruct H1 as [H1 _]; [right; left; reflexivity|].
    apply (H1 Sample.june). discriminate.
  - apply H2. intros [H|[H|[H|[]]]]; discriminate.
Defined.

(** ** Creating a rule *)

Lemma find_applicable_rule_app (l l' : list Rule.t) (sale : Sale.t) :
  find_applicable_rule (l ++ l') sale
  = match find_applicable_rule l sale with
    | Some r => Some r
    | None => find_applicable_rule l' sale
    end.
Proof.
  induction l as [|r l IH]; [reflexivity|].
  simpl app. rewrite !find_applicable_rule_cons.
  now destruct (rule_applies r sale).
Qed.

Lemma next_rule_id_fresh (d : Database) (row : Rule.t) :
  In row (employee_commission_rules d) -> Rule.id row < next_rule_id d.
Proof.
  unfold next_rule_id.
  induction (employee_commission_rules d) as [|x l IH]; simpl; [intros []|].
  intros [->|Hin]; [lia|]. specialize (IH Hin). lia.
Qed.

Lemma create_commission_rule_run (rule : RuleCreate.t) (u : User.t) (d : Database) :
  authorised u ->
  find (user_by_id (RuleCreate.employee_id rule)) (users d) <> None ->
  create_commission_rule rule u d
  = (Ok (Some (new_rule (next_rule_id d) rule)),
     insert_rule (new_rule (next_rule_id d) rule) d).
Proof.
  intros Ha He. unfold create_commission_rule, st_bind.
  rewrite (check_roles_st_in u _ d Ha). unfold st_query at 1.
  destruct (find _ (users d)); [|contradiction].
  unfold st_query, st_execute. f_equal. f_equal. simpl.
  rewrite find_app_none.
  - simpl. unfold rule_by_id. simpl. now rewrite Z.eqb_refl.
  - destruct (find _ _) as [row|] eqn:E; [|reflexivity].
    apply find_some_in in E as [Hin Hid]. apply Z.eqb_eq in Hid.
    apply next_rule_id_fresh in Hin. lia.
Qed.

(** X11.  A created rule is active and goes last in the table: the rules of
    the calculation for its employee gain it at the end, those of other
    employees stay, and every sale that already found a rule keeps finding
    that same rule, so its commission is unchanged. *)
Theorem X11_new_rule_has_lowest_priority :
  forall (rule : RuleCreate.t) (u : User.t) (d : Database),
    authorised u ->
    find (user_by_id (RuleCreate.employee_id rule)) (users d) <> None ->
    let d' := snd (create_commission_rule rule u d) in
    exists row,
      fst (create_commission_rule rule u d) = Ok (Some row)
      /\ Rule.is_active row = true
      /\ Rule.employee_id row = RuleCreate.employee_id rule
      /\ (forall req : Request.t,
             commission_rules_of req d'
             = commission_rules_of req d
               ++ (if Request.employee_id req =? RuleCreate.employee_id rule
                   then [row] else []))
      /\ (forall (req : Request.t) (sale : Sale.t) (r : Rule.t),
             find_applicable_rule (commission_rules_of req d) sale = Some r ->
             find_applicable_rule (commission_rules_of req d') sale = Some r
             /\ contribution (commission_rules_of req d') sale
                = contribution (commission_rules_of req d) sale).
Proof.
  intros rule u d Ha He d'. subst d'.
  rewrite (create_commission_rule_run rule u d Ha He). cbn [fst snd].
  eexists. split; [reflexivity|]. split; [reflexivity|]. split; [reflexivity|].
  assert (Hrules : forall req : Request.t,
             commission_rules_of req (insert_rule (new_rule (next_rule_id d) rule) d)
             = commission_rules_of req d
               ++ (if Request.employee_id req =? RuleCreate.employee_id rule
                   then [new_rule (next_rule_id d) rule] else [])).
  { intros req. unfold commission_rules_of. simpl. rewrite filter_app. simpl.
    unfold active_rule_of at 2. simpl.
    rewrite (Z.eqb_sym (RuleCreate.employee_id rule)).
    now destruct (Request.employee_id req =? RuleCreate.employee_id rule). }
  split; [exact Hrules|].
  intros req sale r Hfind.
  assert (E : find_applicable_rule
                (commission_rules_of req
                   (insert_rule (new_rule (next_rule_id d) rule) d)) sale = Some r).
  { rewrite Hrules, find_applicable_rule_app. now rewrite Hfind. }
  split; [assumption|]. unfold contribution. now rewrite E, Hfind.
Qed.

(** X11 for a second rule of the sample employee. *)
Lemma X11_new_rule_has_lowest_priority_witness :
  exists row,
    fst (create_commission_rule
           (RuleCreate.mk 2 (Some consulting) 20 0 None 0 None 0 None 0
                          Sample.jan_2024 None)
           Sample.manager Sample.db) = Ok (Some row)
    /\ Rule.is_active row = true.
Proof.
  destruct (X11_new_rule_has_lowest_priority
              (RuleCreate.mk 2 (Some consulting) 20 0 None 0 None 0 None 0
                             Sample.jan_2024 None)
              Sample.manager Sample.db)
    as (row & H1 & H2 & _).
  - right. left. reflexivity.
  - discriminate.
  - exists row. auto.
Defined.

(** X12.  For an employee without active rules the calculation is refused
    with 400.  Once [create_commission_rule] has stored a rule for that
    employee, that rule is the one rule of the calculation and the same
    request is no longer refused for lack of rules: of the handler's own
    exceptions only the one of the date constructor is left, and when the
    month of the request exists the handler goes on to query the sales. *)
Theorem X12_rule_creation_lifts_the_refusal :
  forall (rule : RuleCreate.t) (req : Request.t) (u : User.t) (now : datetime)
         (d : Database),
    authorised u ->
    employee_of req d <> None ->
    RuleCreate.employee_id rule = Request.employee_id req ->
    commission_rules_of req d = [] ->
    existing_summary_of req d = None \/ Request.recalculate req = true ->
    fst (run req u now d)
    = Raise (HTTPException 400 "No commission rules found for this employee")
    /\ forall row,
        fst (create_commission_rule rule u d) = Ok (Some row) ->
        let d' := snd (create_commission_rule rule u d) in
        commission_rules_of req d' = [row]
        /\ (forall e, fst (run req u now d') = Raise e ->
                      month_range (Request.year req) (Request.month req) = Raise e)
        /\ (forall range,
               month_range (Request.year req) (Request.month req) = Return range ->
               In SelectSales (log (snd (run req u now d')))).
Proof.
  intros rule req u now d Ha He Hid Hnone Hx. split.
  { now rewrite (run_no_rules req u now d Ha He Hx Hnone). }
  assert (He' : find (user_by_id (RuleCreate.employee_id rule)) (users d) <> None)
    by (rewrite Hid; exact He).
  rewrite (create_commission_rule_run rule u d Ha He'). cbn [fst snd].
  intros row [= <-].
  set (d' := insert_rule (new_rule (next_rule_id d) rule) d).
  assert (Hrules : commission_rules_of req d' = [new_rule (next_rule_id d) rule]).
  { unfold commission_rules_of in *. subst d'. simpl. rewrite filter_app, Hnone.
    simpl. unfold active_rule_of at 1. simpl. now rewrite Hid, Z.eqb_refl. }
  assert (Hne : commission_rules_of req d' <> []) by (rewrite Hrules; discriminate).
  assert (Hemp : employee_of req d' <> None) by exact He.
  assert (Hx' : existing_summary_of req d' = None \/ Request.recalculate req = true)
    by exact Hx.
  split; [exact Hrules|].
  destruct (month_range (Request.year req) (Request.month req)) as [range|e'] eqn:Hm.
  - assert (Hlog : (forall e, fst (run req u now d') <> Raise e)
                   /\ In SelectSales (log (snd (run req u now d')))).
    { destruct (existing_summary_of req d') as [existing|] eqn:Ex.
      - destruct Hx' as [Hx'|Hx']; [discriminate|].
        rewrite (run_update req u now d' existing range); auto.
        cbn [fst snd log]. repeat split; try discriminate.
        apply in_or_app. left. simpl. tauto.
      - rewrite (run_insert req u now d' range); auto.
        cbn [fst snd log]. repeat split; try discriminate.
        apply in_or_app. left. simpl. tauto. }
    destruct Hlog as (Hnr & Hin). split.
    + intros e He0. now apply Hnr in He0.
    + intros range' _. exact Hin.
  - rewrite (run_bad_date req u now d' e'); auto. cbn [fst snd log]. split.
    + intros e [= <-]. reflexivity.
    + intros range [=].
Qed.

(** X12 on the sample database without rules. *)
Lemma X12_rule_creation_lifts_the_refusal_witness :
  fst (run Sample.june Sample.manager 60 Sample.db_no_rules)
  = Raise (HTTPException 400 "No commission rules found for this employee")
  /\ In SelectSales
        (log (snd (run Sample.june Sample.manager 60
                       (snd (create_commission_rule
                               (RuleCreate.mk 2 None 10 500 None 0 None 0 None 0
                                              Sample.jan_2024 None)
                               Sample.manager Sample.db_no_rules))))).
Proof.
  destruct (X12_rule_creation_lifts_the_refusal
              (RuleCreate.mk 2 None 10 500 None 0 None 0 None 0 Sample.jan_2024 None)
              Sample.june Sample.manager 60 Sample.db_no_rules) as (H1 & H2).
  - right. left. reflexivity.
  - discriminate.
  - reflexivity.
  - reflexivity.
  - left. reflexivity.
  - split; [exact H1|].
    edestruct H2 as (_ & _ & H3); [vm_compute; reflexivity|].
    apply (H3 (Date.mk 2025 6 1, Date.mk 2025 6 30)). reflexivity.
Defined.

(** ** Listing summaries *)

Lemma summary_not_after_total (x y : Summary.t) :
  summary_not_after x y = false -> summary_not_after y x = true.
Proof.
  unfold summary_not_after. intros H.
  apply orb_false_iff in H as [H1 H2]. apply Z.ltb_ge in H1.
  apply orb_true_iff.
  destruct (Z.eqb_spec (Summary.year x) (Summary.year y)) as [E|E].
  - cbn [andb] in H2. apply Z.leb_gt in H2. right.
    apply andb_true_iff. split; [apply Z.eqb_eq; congruence | apply Z.leb_le; lia].
  - left. apply Z.ltb_lt. lia.
Qed.

Lemma insert_summary_desc_perm (x : Summary.t) (l : list Summary.t) :
  Permutation (insert_summary_desc x l) (x :: l).
Proof.
  induction l as [|y l IH]; simpl; [reflexivity|].
  destruct (summary_not_after x y); [reflexivity|].
  rewrite IH. apply perm_swap.
Qed.

Lemma insert_summary_desc_sorted (x : Summary.t) (l : list Summary.t) :
  period_descending l -> period_descending (insert_summary_desc x l).
Proof.
  unfold period_descending. induction l as [|y l IH]; intros Hs; simpl.
  - repeat constructor.
  - destruct (summary_not_after x y) eqn:E.
    + constructor; [assumption | now constructor].
    + inversion Hs as [|? ? Hl Hhd]; subst.
      constructor; [now apply IH|].
      destruct l as [|z l]; simpl.
      * constructor. now apply summary_not_after_total.
      * destruct (summary_not_after x z).
        -- constructor. now apply summary_not_after_total.
        -- inversion Hhd; subst. now constructor.
Qed.

Lemma order_by_period_desc_spec (l : list Summary.t) :
  period_descending (order_by_period_desc l)
  /\ Permutation (order_by_period_desc l) l.
Proof.
  induction l as [|x l [IH1 IH2]]; simpl.
  - split; [constructor | reflexivity].
  - split.
    + now apply insert_summary_desc_sorted.
    + rewrite insert_summary_desc_perm. now constructor.
Qed.

Lemma listed_by_key (e y m : Z) (d : Database) :
  e <> 0 -> y <> 0 -> m <> 0 ->
  listed_summaries (Some e) (Some y) (Some m) d
  = filter (summary_by_key e y m) (monthly_commission_summaries d).
Proof.
  intros He Hy Hm. unfold listed_summaries, filter_if_truthy, truthy_int.
  apply Z.eqb_neq in He, Hy, Hm. rewrite He, Hy, Hm. cbn [negb].
  rewrite !filter_filter_andb. apply filter_ext. intros row.
  unfold summary_by_key. now rewrite andb_assoc.
Qed.

(** X13.  For an authorised caller the summary listing returns the rows
    that pass the given filters, each exactly once, ordered by year and
    then month, latest first; a filter that is absent or 0 is not applied,
    and three non-zero filters select the rows of that (employee, year,
    month).  The tables are not changed. *)
Theorem X13_summary_listing_is_sorted_and_complete :
  forall (employee_id year month : option Z) (u : User.t) (d : Database),
    authorised u ->
    exists l,
      get_commission_summaries employee_id year month u d = (Ok l, d)
      /\ period_descending l
      /\ Permutation l (listed_summaries employee_id year month d)
      /\ listed_summaries None None None d = monthly_commission_summaries d
      /\ listed_summaries (Some 0) (Some 0) (Some 0) d
         = monthly_commission_summaries d
      /\ forall e y m,
          employee_id = Some e -> year = Some y -> month = Some m ->
          e <> 0 -> y <> 0 -> m <> 0 ->
          forall row, In row l
                      <-> In row (monthly_commission_summaries d)
                          /\ Summary.employee_id row = e
                          /\ Summary.year row = y
                          /\ Summary.month row = m.
Proof.
  intros e y m u d Ha.
  exists (order_by_period_desc (listed_summaries e y m d)).
  destruct (order_by_period_desc_spec (listed_summaries e y m d)) as [Hs Hp].
  split.
  { unfold get_commission_summaries, st_bind.
    now rewrite (check_roles_st_in u _ d Ha). }
  split; [assumption|]. split; [assumption|].
  split; [reflexivity|]. split; [reflexivity|].
  intros e' y' m' -> -> -> He Hy Hm row.
  rewrite (listed_by_key e' y' m' d He Hy Hm) in Hp |- *. split.
  - intros Hin. apply (Permutation_in _ Hp) in Hin.
    apply filter_In in Hin as [Hin Hk]. unfold summary_by_key in Hk.
    apply andb_true_iff in Hk as [Hk H3]. apply andb_true_iff in Hk as [H1 H2].
    apply Z.eqb_eq in H1, H2, H3. auto.
  - intros (Hin & H1 & H2 & H3).
    apply (Permutation_in _ (Permutation_sym Hp)).
    apply filter_In. split; [assumption|]. unfold summary_by_key.
    rewrite H1, H2, H3, !Z.eqb_refl. reflexivity.
Qed.

(** X13 for the sample database with the stored June summary. *)
Lemma X13_summary_listing_is_sorted_and_complete_witness :
  exists l,
    get_commission_summaries (Some 2) (Some 2025) None Sample.manager
                             Sample.db_with_summary
    = (Ok l, Sample.db_with_summary)
    /\ period_descending l.
Proof.
  destruct (X13_summary_listing_is_sorted_and_complete
              (Some 2) (Some 2025) None Sample.manager Sample.db_with_summary)
    as (l & H1 & H2 & _).
  - right. left. reflexivity.
  - exists l. auto.
Defined.

Lemma filter_singleton {A} (p : A -> bool) (l : list A) (x : A) :
  In x l -> p x = true -> (List.length (filter p l) <= 1)%nat -> filter p l = [x].
Proof.
  intros Hin Hp Hlen.
  assert (Hx : In x (filter p l)) by (apply filter_In; now split).
  destruct (filter p l) as [|a [|b rest]]; simpl in *.
  - contradiction.
  - destruct Hx as [->|[]]. reflexivity.
  - lia.
Qed.

(** X14.  A summary the calculation has just returned is found by the
    summary listing for the same non-zero employee, year and month; when
    the key had at most one row before, the listing returns that summary
    alone. *)
Theorem X14_calculated_summary_is_listed :
  forall (req : Request.t) (u : User.t) (now : datetime) (d : Database)
         (range : Date.t * Date.t),
    calculates req u d range ->
    summary_ids_unique d ->
    Request.employee_id req <> 0 ->
    let d' := tables (snd (run req u now d)) in
    exists summary l,
      fst (run req u now d) = Return (Some summary)
      /\ get_commission_summaries (Some (Request.employee_id req))
                                  (Some (Request.year req))
                                  (Some (Request.month req)) u d'
         = (Ok l, d')
      /\ In summary l
      /\ ((summary_rows (Request.employee_id req) (Request.year req)
                        (Request.month req) d <= 1)%nat ->
          l = [summary]).
Proof.
  intros req u now d range Hc Hnd He d'.
  destruct (run_returns_summary req u now d range Hc Hnd)
    as (summary & Hrun & Hin & _ & H1 & H2 & H3 & _).
  fold d' in Hin.
  pose proof Hc as (Ha & _ & _ & _ & Hm).
  apply month_range_Return_inv in Hm as (Hy & Hmo & _).
  assert (Hy0 : Request.year req <> 0) by lia.
  assert (Hm0 : Request.month req <> 0) by lia.
  assert (Hkey : summary_by_key (Request.employee_id req) (Request.year req)
                                (Request.month req) summary = true).
  { unfold summary_by_key. now rewrite H1, H2, H3, !Z.eqb_refl. }
  exists summary.
  exists (order_by_period_desc
            (listed_summaries (Some (Request.employee_id req))
                              (Some (Request.year req))
                              (Some (Request.month req)) d')).
  destruct (order_by_period_desc_spec
              (listed_summaries (Some (Request.employee_id req))
                                (Some (Request.year req))
                                (Some (Request.month req)) d')) as [_ Hp].
  split; [assumption|]. split.
  { unfold get_commission_summaries, st_bind.
    now rewrite (check_roles_st_in u _ d' Ha). }
  rewrite (listed_by_key _ _ _ d' He Hy0 Hm0) in *. split.
  - apply (Permutation_in _ (Permutation_sym Hp)). apply filter_In. now split.
  - intros Hrows.
    assert (Hrows' : (summary_rows (Request.employee_id req) (Request.year req)
                                   (Request.month req) d' <= 1)%nat).
    { subst d'. eapply call_keeps_one_row; [apply run_effect | assumption]. }
    rewrite (filter_singleton _ _ summary Hin Hkey Hrows'). reflexivity.
Qed.

(** X14 for June 2025 of the sample database. *)
Lemma X14_calculated_summary_is_listed_witness :
  exists summary l,
    fst (run Sample.june Sample.manager 60 Sample.db) = Return (Some summary)
    /\ get_commission_summaries (Some 2) (Some 2025) (Some 6) Sample.manager
         (tables (snd (run Sample.june Sample.manager 60 Sample.db)))
       = (Ok l, tables (snd (run Sample.june Sample.manager 60 Sample.db)))
    /\ l = [summary].
Proof.
  destruct (X14_calculated_summary_is_listed
              Sample.june Sample.manager 60 Sample.db
              (Date.mk 2025 6 1, Date.mk 2025 6 30))
    as (summary & l & H1 & H2 & _ & H4).
  - repeat split.
    + right. left. reflexivity.
    + discriminate.
    + left. reflexivity.
    + discriminate.
  - constructor.
  - discriminate.
  - exists summary, l. split; [assumption|]. split; [assumption|].
    apply H4. repeat constructor.
Defined.

(* ================================================================== *)
(** * The sale endpoints *)

(** ** Sale.calculate_commission *)

(** X15.  [Sale.calculate_commission] stores amount * commission_rate / 100
    for a closed-won sale and 0 for any other sale, and leaves every other
    column alone.  The status becomes [calculated] only for a closed-won
    sale with a non-zero amount: a closed-won sale of amount 0 keeps its
    commission status.  Calling the method again changes nothing. *)
Theorem X15_sale_commission_from_own_rate :
  forall self : Sale.t,
    let after := Sale_calculate_commission self in
    sale_core after = sale_core self
    /\ (exists c,
           Sale.commission_amount after = Some c
           /\ (c == if SaleStatus_eqb (Sale.status self) closed_won
                    then Sale.sale_amount self * Sale.commission_rate self / 100
                    else 0)%Q)
    /\ Sale.commission_status after
       = (if SaleStatus_eqb (Sale.status self) closed_won
             && negb (Qeq_bool (Sale.sale_amount self) 0)
          then calculated
          else Sale.commission_status self)
    /\ Sale_calculate_commission after = after.
Proof.
  intros self after. subst after. unfold Sale_calculate_commission, Decimal_bool.
  destruct (SaleStatus_eqb (Sale.status self) closed_won) eqn:Es;
    destruct (Qeq_bool (Sale.sale_amount self) 0) eqn:Ea; cbn [andb negb];
    repeat split; try (eexists; split; [reflexivity|]); try reflexivity.
  - apply Qeq_bool_iff in Ea. rewrite Ea. field.
  - cbn [Sale.set_commission Sale.status Sale.sale_amount]. rewrite Es, Ea.
    reflexivity.
  - cbn [Sale.set_commission Sale.status Sale.sale_amount]. rewrite Es, Ea.
    reflexivity.
  - cbn [Sale.set_commission Sale.status Sale.sale_amount]. rewrite Es.
    reflexivity.
  - cbn [Sale.set_commission Sale.status Sale.sale_amount]. rewrite Es.
    reflexivity.
Qed.

Lemma calculate_commission_won (s : Sale.t) :
  Sale.status s = closed_won ->
  sale_core (Sale_calculate_commission s) = sale_core s
  /\ exists c,
      Sale.commission_amount (Sale_calculate_commission s) = Some c
      /\ (c == Sale.sale_amount s * Sale.commission_rate s / 100)%Q.
Proof.
  intros Hs. unfold Sale_calculate_commission, Decimal_bool. rewrite Hs.
  cbn [SaleStatus_eqb andb].
  destruct (Qeq_bool (Sale.sale_amount s) 0) eqn:Ea; cbn [negb].
  - split; [reflexivity|]. eexists. split; [reflexivity|].
    apply Qeq_bool_iff in Ea. rewrite Ea. field.
  - split; [reflexivity|]. eexists. split; reflexivity.
Qed.

Lemma calculate_commission_won_status (s : Sale.t) :
  Sale.status s = closed_won ->
  ~ (Sale.sale_amount s == 0)%Q ->
  Sale.commission_status (Sale_calculate_commission s) = calculated.
Proof.
  intros Hs Hne. unfold Sale_calculate_commission, Decimal_bool. rewrite Hs.
  cbn [SaleStatus_eqb andb].
  destruct (Qeq_bool (Sale.sale_amount s) 0) eqn:Ea; cbn [negb]; [|reflexivity].
  apply Qeq_bool_iff in Ea. contradiction.
Qed.

(** ** update_sale_status *)

Lemma find_sale_unique (d : Database) (row : Sale.t) :
  sale_ids_unique d ->
  In row (sales d) ->
  find (sale_by_id (Sale.id row)) (sales d) = Some row.
Proof.
  unfold sale_ids_unique.
  induction (sales d) as [|x l IH]; simpl; [intros _ []|].
  intros Hnd Hin. inversion Hnd as [|? ? Hx Hl]; subst.
  unfold sale_by_id at 1.
  destruct (Z.eqb_spec (Sale.id x) (Sale.id row)) as [E|E].
  - destruct Hin as [->|Hin]; [reflexivity|].
    exfalso. apply Hx. rewrite E. now apply in_map.
  - destruct Hin as [->|Hin]; [congruence|]. now apply IH.
Qed.

Lemma apply_status_update_fields (su : SaleStatusUpdate.t) (today : Date.t)
      (row : Sale.t) :
  let row' := apply_status_update su today row in
  Sale.id row' = Sale.id row
  /\ Sale.sale_type row' = Sale.sale_type row
  /\ Sale.sale_amount row' = Sale.sale_amount row
  /\ Sale.salesperson_id row' = Sale.salesperson_id row
  /\ Sale.commission_rate row' = Sale.commission_rate row
  /\ Sale.status row' = SaleStatusUpdate.status su
  /\ Sale.close_date row' = close_date_after su today (Sale.close_date row).
Proof.
  unfold apply_status_update, close_date_after, Sale_calculate_commission.
  destruct su as [st given]. cbn [SaleStatusUpdate.status SaleStatusUpdate.close_date].
  destruct given as [g|]; destruct (Sale.close_date row) as [k|] eqn:Ek;
    destruct st; cbn; rewrite ?Ek;
    repeat match goal with
           | |- context [if ?b then _ else _] => destruct b
           end; cbn; repeat split; try assumption.
Qed.

Lemma write_sale_self (su : SaleStatusUpdate.t) (today : Date.t) (row : Sale.t) :
  write_sale (apply_status_update su today row) row
  = apply_status_update su today row.
Proof.
  destruct (apply_status_update_fields su today row) as (H1 & H2 & H3 & H4 & H5 & _).
  unfold write_sale. rewrite H1, Z.eqb_refl.
  rewrite <- H1, <- H2, <- H3, <- H4, <- H5.
  now destruct (apply_status_update su today row).
Qed.

Lemma update_sale_status_run (su : SaleStatusUpdate.t) (u : User.t) (today : Date.t)
      (d : Database) (row : Sale.t) :
  has_role u sales_roles ->
  sale_ids_unique d ->
  In row (sales d) ->
  update_sale_status (Sale.id row) su u today d
  = (Err ResponseValidationError,
     with_sale_rows (replace_sale (Sale.id row) (apply_status_update su today row)) d).
Proof.
  intros Ha Hnd Hin. unfold sales_roles in Ha. unfold update_sale_status, st_bind.
  rewrite (check_roles_st_in u _ d Ha). unfold st_query at 1.
  rewrite (find_sale_unique d row Hnd Hin).
  unfold st_execute, st_query, st_raise. f_equal.
  unfold with_sale_rows, replace_sale. f_equal.
  apply map_ext_in. intros x Hx.
  destruct (Z.eqb_spec (Sale.id x) (Sale.id row)) as [E|E].
  - assert (x = row) by (eapply NoDup_map_injective; eauto). subst x.
    apply write_sale_self.
  - unfold write_sale.
    destruct (apply_status_update_fields su today row) as (-> & _).
    now apply Z.eqb_neq in E as ->.
Qed.

Lemma find_replace_sale (sale_id : Z) (row' : Sale.t) (rows : list Sale.t) :
  Sale.id row' = sale_id ->
  find (sale_by_id sale_id) rows <> None ->
  find (sale_by_id sale_id) (replace_sale sale_id row' rows) = Some row'.
Proof.
  intros Hid. unfold replace_sale.
  induction rows as [|x l IH]; simpl; [congruence|].
  unfold sale_by_id at 1 3. destruct (Sale.id x =? sale_id) eqn:E.
  - intros _. unfold sale_by_id. now rewrite Hid, Z.eqb_refl.
  - rewrite E. exact IH.
Qed.




(** X17.  A status update to anything but closed-won leaves the sale's
    commission amount and commission status as they are, so a won sale that
    is reopened, lost or cancelled keeps its calculated commission.  An
    update to closed-won assigns amount * commission_rate / 100 from the
    sale's own rate, whatever the status was before; when that value fits
    the [Numeric(10,2)] column, [get_sale] then reads it rounded to two
    places, and the commission status is [calculated] unless the amount is
    zero. *)
Theorem X17_commission_under_status_updates :
  forall (su : SaleStatusUpdate.t) (u : User.t) (today : Date.t) (d : Database)
         (row : Sale.t),
    has_role u sales_roles ->
    sale_ids_unique d ->
    In row (sales d) ->
    exists row',
      get_sale (Sale.id row)
               (snd (update_sale_status (Sale.id row) su u today d))
      = (Ok row', snd (update_sale_status (Sale.id row) su u today d))
      /\ (SaleStatusUpdate.status su <> closed_won ->
          Sale.commission_amount row' = Sale.commission_amount row
          /\ Sale.commission_status row' = Sale.commission_status row)
      /\ (SaleStatusUpdate.status su = closed_won ->
          Numeric_fits 10 (Sale.sale_amount row * Sale.commission_rate row / 100)
          = true ->
          Sale.commission_amount (stored_sale row')
          = Some (Numeric_2 (Sale.sale_amount row * Sale.commission_rate row / 100))
          /\ (~ (Sale.sale_amount row == 0)%Q ->
              Sale.commission_status row' = calculated)).
Proof.
  intros su u today d row Ha Hnd Hin.
  rewrite (update_sale_status_run su u today d row Ha Hnd Hin). cbn [snd].
  exists (apply_status_update su today row). split.
  { unfold get_sale, st_bind, st_query. cbn [with_sale_rows sales].
    rewrite find_replace_sale; [reflexivity | |].
    - now destruct (apply_status_update_fields su today row) as (-> & _).
    - rewrite (find_sale_unique d row Hnd Hin). discriminate. }
  split.
  - intros Hne. unfold apply_status_update.
    assert (E : SaleStatus_eqb (SaleStatusUpdate.status su) closed_won = false).
    { destruct (SaleStatus_eqb _ closed_won) eqn:E; [|reflexivity].
      apply SaleStatus_eqb_eq in E. contradiction. }
    rewrite E.
    destruct (SaleStatusUpdate.close_date su);
      destruct (existsb _ _); cbn;
      destruct (Sale.close_date row); split; reflexivity.
  - intros Hwon _. destruct su as [st given]. cbn in Hwon. subst st.
    destruct row as [i ty st am sp cd cr ca cs].
    unfold apply_status_update.
    cbn [SaleStatusUpdate.status SaleStatusUpdate.close_date SaleStatus_eqb
         existsb orb].
    cbn [Sale.sale_amount Sale.commission_rate].
    destruct given as [g|]; destruct cd as [k|];
      cbn [set_status set_close_date Sale.close_date Sale.id Sale.sale_type
           Sale.status Sale.sale_amount Sale.salesperson_id Sale.commission_rate
           Sale.commission_amount Sale.commission_status];
      match goal with
      | |- context [Sale_calculate_commission ?s] =>
          destruct (calculate_commission_won s eq_refl) as (_ & c & Hc & Hq);
          pose proof (calculate_commission_won_status s eq_refl) as Hst
      end;
      cbn [Sale.sale_amount Sale.commission_rate] in Hq, Hst;
      (split;
       [unfold stored_sale; cbn [Sale.commission_amount]; rewrite Hc;
        cbn [option_map]; f_equal; now apply Numeric_2_comp
       | exact Hst]).
Qed.

(** X17 for reopening the first sample sale after its commission was
    calculated, and for winning a sale of 33.33 at 10%: the commission
    3.333 is read back as 3.33. *)
Lemma X17_commission_under_status_updates_witness :
  (exists row',
      get_sale 1 (snd (update_sale_status 1 (SaleStatusUpdate.mk lead None)
                         Sample.manager (Date.mk 2025 7 4)
                         (tables (snd (run Sample.june Sample.manager 60 Sample.db)))))
      = (Ok row',
         snd (update_sale_status 1 (SaleStatusUpdate.mk lead None)
                Sample.manager (Date.mk 2025 7 4)
                (tables (snd (run Sample.june Sample.manager 60 Sample.db)))))
      /\ Sale.commission_amount (stored_sale row') = Some (Qmake 10000 100)
      /\ Sale.commission_status row' = calculated)
  /\ exists row',
      get_sale 5 (snd (update_sale_status 5 (SaleStatusUpdate.mk closed_won None)
                         Sample.manager (Date.mk 2025 7 4)
                         (with_sales Sample.db
                            [Sale.mk 5 consulting lead 33.33 2 None 10 None pending])))
      = (Ok row',
         snd (update_sale_status 5 (SaleStatusUpdate.mk closed_won None)
                Sample.manager (Date.mk 2025 7 4)
                (with_sales Sample.db
                   [Sale.mk 5 consulting lead 33.33 2 None 10 None pending])))
      /\ Sale.commission_amount (stored_sale row') = Some (Qmake 333 100)
      /\ Sale.commission_status row' = calculated.
Proof.
  split.
  - destruct (X17_commission_under_status_updates
                (SaleStatusUpdate.mk lead None) Sample.manager (Date.mk 2025 7 4)
                (tables (snd (run Sample.june Sample.manager 60 Sample.db)))
                (Sale.set_commission (Sample.sale 1 consulting 1000 30)
                                     (Some (1000 * 10 / 100)%Q) calculated))
      as (row' & H1 & H2 & _).
    + right. left. reflexivity.
    + nodup.
    + left. reflexivity.
    + exists row'. split; [exact H1|].
      destruct H2 as [Ham Hst]; [discriminate|].
      split; [|exact Hst].
      unfold stored_sale. cbn [Sale.commission_amount]. rewrite Ham.
      vm_compute. reflexivity.
  - destruct (X17_commission_under_status_updates
                (SaleStatusUpdate.mk closed_won None) Sample.manager
                (Date.mk 2025 7 4)
                (with_sales Sample.db
                   [Sale.mk 5 consulting lead 33.33 2 None 10 None pending])
                (Sale.mk 5 consulting lead 33.33 2 None 10 None pending))
      as (row' & H1 & _ & H3).
    + right. left. reflexivity.
    + nodup.
    + left. reflexivity.
    + exists row'. split; [exact H1|].
      destruct H3 as [Ham Hst]; [reflexivity | vm_compute; reflexivity |].
      split; [rewrite Ham; vm_compute; reflexivity|].
      apply Hst. vm_compute. discriminate.
Defined.

(** X18.  A sale without a close date that is set to closed-won today is
    selected by the calculation for its salesperson and today's year and
    month: that calculation counts at least one closed deal. *)
Theorem X18_sale_won_today_counts_this_month :
  forall (u : User.t) (today : Date.t) (d : Database) (row : Sale.t)
         (req : Request.t) (range : Date.t * Date.t),
    has_role u sales_roles ->
    sale_ids_unique d ->
    In row (sales d) ->
    Sale.close_date row = None ->
    valid_date today ->
    Request.employee_id req = Sale.salesperson_id row ->
    Request.year req = Date.year today ->
    Request.month req = Date.month today ->
    month_range (Request.year req) (Request.month req) = Return range ->
    let d' := snd (update_sale_status (Sale.id row)
                     (SaleStatusUpdate.mk closed_won None) u today d) in
    exists row',
      get_sale (Sale.id row) d' = (Ok row', d')
      /\ In row' (closed_sales_of req range d')
      /\ forall (u' : User.t) (now : datetime),
          calculates req u' d' range ->
          summary_ids_unique d' ->
          exists summary,
            fst (run req u' now d') = Return (Some summary)
            /\ 1 <= Summary.closed_deals_count summary.
Proof.
  intros u today d row req range Ha Hnd Hin Hcd Hv He Hy Hm Hrange d'.
  destruct (apply_status_update_fields (SaleStatusUpdate.mk closed_won None) today row)
    as (H1 & H2 & H3 & H4 & H5 & H6 & H7).
  subst d'.
  rewrite (update_sale_status_run _ u today d row Ha Hnd Hin). cbn [snd].
  remember (apply_status_update (SaleStatusUpdate.mk closed_won None) today row)
    as row' eqn:Erow'.
  cbn [SaleStatusUpdate.status] in H6.
  unfold close_date_after in H7.
  cbn [SaleStatusUpdate.status SaleStatusUpdate.close_date] in H7.
  rewrite Hcd in H7.
  set (d' := with_sale_rows (replace_sale (Sale.id row) row') d).
  assert (Hin' : In row' (closed_sales_of req range d')).
  { unfold closed_sales_of. apply filter_In. split.
    - unfold d', with_sale_rows, replace_sale. cbn [sales].
      apply in_map_iff. exists row. split; [now rewrite Z.eqb_refl | assumption].
    - pose proof (closed_sale_in_month (Request.employee_id req) (Request.year req)
                    (Request.month req) range row' Hrange) as Hsel.
      rewrite H7 in Hsel.
      apply Hsel; [assumption|].
      rewrite H4, H6. auto. }
  exists row'. split.
  { unfold get_sale, st_bind, st_query. unfold d' at 1. cbn [with_sale_rows sales].
    rewrite find_replace_sale; [reflexivity | assumption |].
    rewrite (find_sale_unique d row Hnd Hin). discriminate. }
  split; [assumption|].
  intros u' now Hc Hnd'.
  destruct (run_returns_summary req u' now d' range Hc Hnd')
    as (summary & Hrun & _ & Hcar & _).
  exists summary. split; [assumption|].
  destruct Hcar as (_ & Hn & _). rewrite Hn.
  unfold computed_of, compute_summary. cbn [fst Summary.c_closed_deals_count].
  destruct (closed_sales_of req range d'); [contradiction | cbn [List.length]; lia].
Qed.

(** X18 for the sample lead, won on 4 July 2025. *)
Lemma X18_sale_won_today_counts_this_month_witness :
  exists row',
    get_sale 5 (snd (update_sale_status 5 (SaleStatusUpdate.mk closed_won None)
                       Sample.manager (Date.mk 2025 7 4) SampleLead.db))
    = (Ok row',
       snd (update_sale_status 5 (SaleStatusUpdate.mk closed_won None)
              Sample.manager (Date.mk 2025 7 4) SampleLead.db))
    /\ In row'
          (closed_sales_of (Request.mk 2 2025 7 false)
             (Date.mk 2025 7 1, Date.mk 2025 7 31)
             (snd (update_sale_status 5 (SaleStatusUpdate.mk closed_won None)
                     Sample.manager (Date.mk 2025 7 4) SampleLead.db))).
Proof.
  destruct (X18_sale_won_today_counts_this_month
              Sample.manager (Date.mk 2025 7 4) SampleLead.db SampleLead.lead_row
              (Request.mk 2 2025 7 false) (Date.mk 2025 7 1, Date.mk 2025 7 31))
    as (row' & H1 & H2 & _); try reflexivity.
  - right. left. reflexivity.
  - nodup.
  - left. reflexivity.
  - exists row'. split; assumption.
Defined.

(** ** delete_sale and create_sale *)

Lemma find_filter_out (sale_id : Z) (rows : list Sale.t) :
  find (sale_by_id sale_id)
       (filter (fun row => negb (Sale.id row =? sale_id)) rows) = None.
Proof.
  induction rows as [|x l IH]; simpl; [reflexivity|].
  destruct (Sale.id x =? sale_id) eqn:E; simpl; [assumption|].
  unfold sale_by_id at 1. now rewrite E.
Qed.

(** X19.  Only the role admin may delete a sale: every other caller gets
    403 and nothing changes.  For an admin an unknown id gives 404; a
    known id removes the rows with that id and no other, after which
    [get_sale] answers 404.  Users, rules and stored summaries are not
    touched, so a summary that counted the sale keeps its totals. *)
Theorem X19_delete_sale_removes_only_that_sale :
  forall (sale_id : Z) (u : User.t) (d : Database),
    (~ has_role u ["admin"]%string ->
     delete_sale sale_id u d
     = (Err (Exn (HTTPException 403
                    "Not authorized to perform this action. Insufficient role.")),
        d))
    /\ (has_role u ["admin"]%string ->
        find (sale_by_id sale_id) (sales d) = None ->
        delete_sale sale_id u d
        = (Err (Exn (HTTPException 404 "Sale not found")), d))
    /\ (has_role u ["admin"]%string ->
        find (sale_by_id sale_id) (sales d) <> None ->
        let d' := snd (delete_sale sale_id u d) in
        fst (delete_sale sale_id u d) = Ok tt
        /\ sales d' = filter (fun row => negb (Sale.id row =? sale_id)) (sales d)
        /\ users d' = users d
        /\ employee_commission_rules d' = employee_commission_rules d
        /\ monthly_commission_summaries d' = monthly_commission_summaries d
        /\ get_sale sale_id d'
           = (Err (Exn (HTTPException 404 "Sale not found")), d')).
Proof.
  intros sale_id u d. split; [|split].
  - intros Ha. unfold delete_sale, st_bind.
    now rewrite (check_roles_st_out u _ d Ha).
  - intros Ha Hf. unfold delete_sale, st_bind.
    rewrite (check_roles_st_in u _ d Ha). unfold st_query. now rewrite Hf.
  - intros Ha Hf d'.
    assert (Hrun : delete_sale sale_id u d
                   = (Ok tt,
                      with_sale_rows
                        (filter (fun row => negb (Sale.id row =? sale_id))) d)).
    { unfold delete_sale, st_bind.
      rewrite (check_roles_st_in u _ d Ha). unfold st_query.
      destruct (find (sale_by_id sale_id) (sales d)) as [s|] eqn:E; [|contradiction].
      apply find_some_in in E as [_ Hid]. apply Z.eqb_eq in Hid.
      unfold st_execute. now rewrite Hid. }
    subst d'. rewrite Hrun.
    cbn [fst snd with_sale_rows sales users employee_commission_rules
         monthly_commission_summaries].
    repeat split.
    unfold get_sale, st_bind, st_query. cbn [with_sale_rows sales].
    now rewrite find_filter_out.
Qed.

(** X19 for the sample lead: refused to a manager, done for an admin. *)
Lemma X19_delete_sale_removes_only_that_sale_witness :
  delete_sale 5 Sample.manager SampleLead.db
  = (Err (Exn (HTTPException 403
                 "Not authorized to perform this action. Insufficient role.")),
     SampleLead.db)
  /\ sales (snd (delete_sale 5 SampleLead.admin SampleLead.db)) = [].
Proof.
  destruct (X19_delete_sale_removes_only_that_sale 5 Sample.manager SampleLead.db)
    as (H1 & _).
  destruct (X19_delete_sale_removes_only_that_sale 5 SampleLead.admin SampleLead.db)
    as (_ & _ & H3).
  split.
  - apply H1. intros [H|[]]. discriminate.
  - destruct H3 as (_ & H & _).
    + left. reflexivity.
    + discriminate.
    + exact H.
Defined.

(** X20.  [create_sale] never returns a sale, whatever the database
    answers to the commit.  An unauthorised caller gets 403 and an unknown
    salesperson 404, both without a write.  Otherwise the row goes to the
    database: when the database refuses it, its error is raised and the
    table stays; when it stores the row under an unused key, the row is in
    the table, with status lead and no commission, the rows that were there
    stay, and the reload then raises [NameError] for the unbound name
    [sale_id], although [get_sale] finds the row. *)
Theorem X20_create_sale_never_returns_a_sale :
  forall (sale : SaleCreate.t) (u : User.t) (commit : commit_result)
         (d : Database),
    (forall row, fst (create_sale sale u commit d) <> Ok row)
    /\ (~ has_role u sales_roles ->
        create_sale sale u commit d
        = (Err (Exn (HTTPException 403
                       "Not authorized to perform this action. Insufficient role.")),
           d))
    /\ (has_role u sales_roles ->
        find (user_by_id (SaleCreate.salesperson_id sale)) (users d) = None ->
        create_sale sale u commit d
        = (Err (Exn (HTTPException 404 "Salesperson not found")), d))
    /\ (has_role u sales_roles ->
        find (user_by_id (SaleCreate.salesperson_id sale)) (users d) <> None ->
        match commit with
        | Refused detail =>
            create_sale sale u commit d = (Err (DBAPIError detail), d)
        | Stored id =>
            (forall r, In r (sales d) -> Sale.id r <> id) ->
            let d' := snd (create_sale sale u commit d) in
            fst (create_sale sale u commit d) = Err (NameError "sale_id")
            /\ (forall r, In r (sales d) -> In r (sales d'))
            /\ List.length (sales d') = S (List.length (sales d))
            /\ exists row,
                get_sale id d' = (Ok row, d')
                /\ In row (sales d')
                /\ Sale.id row = id
                /\ Sale.status row = lead
                /\ Sale.close_date row = None
                /\ Sale.commission_amount row = None
                /\ Sale.commission_status row = pending
                /\ Sale.sale_type row = SaleCreate.sale_type sale
                /\ Sale.salesperson_id row = SaleCreate.salesperson_id sale
                /\ Sale.sale_amount (stored_sale row)
                   = Numeric_2 (SaleCreate.sale_amount sale)
                /\ Sale.commission_rate (stored_sale row)
                   = Numeric_2 (SaleCreate.commission_rate sale)
        end).
Proof.
  intros sale u commit d.
  assert (H403 : ~ has_role u sales_roles ->
                 create_sale sale u commit d
                 = (Err (Exn (HTTPException 403
                      "Not authorized to perform this action. Insufficient role.")),
                    d)).
  { intros Ha. unfold sales_roles in Ha. unfold create_sale, st_bind.
    now rewrite (check_roles_st_out u _ d Ha). }
  assert (H404 : has_role u sales_roles ->
                 find (user_by_id (SaleCreate.salesperson_id sale)) (users d) = None ->
                 create_sale sale u commit d
                 = (Err (Exn (HTTPException 404 "Salesperson not found")), d)).
  { intros Ha Hf. unfold sales_roles in Ha. unfold create_sale, st_bind.
    rewrite (check_roles_st_in u _ d Ha). unfold st_query. now rewrite Hf. }
  assert (Hrun : has_role u sales_roles ->
                 find (user_by_id (SaleCreate.salesperson_id sale)) (users d) <> None ->
                 create_sale sale u commit d
                 = match commit with
                   | Refused detail => (Err (DBAPIError detail), d)
                   | Stored id =>
                       (Err (NameError "sale_id"),
                        with_sale_rows (fun rows => rows ++ [new_sale id sale]) d)
                   end).
  { intros Ha Hf. unfold sales_roles in Ha. unfold create_sale, st_bind.
    rewrite (check_roles_st_in u _ d Ha). unfold st_query at 1.
    destruct (find _ (users d)); [|contradiction]. now destruct commit. }
  split; [|split; [exact H403|split; [exact H404|]]].
  - intros row.
    destruct (has_role_dec u sales_roles) as [Ha|Ha]; [|now rewrite H403].
    destruct (find (user_by_id (SaleCreate.salesperson_id sale)) (users d)) eqn:E.
    + rewrite Hrun; [now destruct commit | assumption | congruence].
    + now rewrite H404.
  - intros Ha Hf. rewrite (Hrun Ha Hf). destruct commit as [id|detail];
      [|reflexivity].
    intros Hfresh. cbn [fst snd with_sale_rows sales].
    split; [reflexivity|].
    split; [intros r Hr; apply in_or_app; now left|].
    split; [rewrite length_app; simpl; lia|].
    exists (new_sale id sale). split.
    { unfold get_sale, st_bind, st_query. cbn [with_sale_rows sales].
      rewrite find_app_none.
      - simpl. unfold sale_by_id. simpl. now rewrite Z.eqb_refl.
      - destruct (find (sale_by_id id) (sales d)) as [row|] eqn:E;
          [|reflexivity].
        apply find_some_in in E as [Hin Hid]. apply Z.eqb_eq in Hid.
        now apply Hfresh in Hin. }
    split; [apply in_or_app; right; now left|].
    repeat split.
Qed.

(** X20 for a new sale of the sample employee, stored under key 9 or
    refused. *)
Lemma X20_create_sale_never_returns_a_sale_witness :
  fst (create_sale (SaleCreate.mk consulting 700 2 10) Sample.manager
                   (Stored 9) Sample.db)
  = Err (NameError "sale_id")
  /\ List.length
       (sales (snd (create_sale (SaleCreate.mk consulting 700 2 10)
                                Sample.manager (Stored 9) Sample.db)))
     = 4%nat
  /\ create_sale (SaleCreate.mk consulting 700 2 10) Sample.manager
                 (Refused "violates foreign key constraint") Sample.db
     = (Err (DBAPIError "violates foreign key constraint"), Sample.db).
Proof.
  destruct (X20_create_sale_never_returns_a_sale
              (SaleCreate.mk consulting 700 2 10) Sample.manager (Stored 9)
              Sample.db) as (_ & _ & _ & H).
  destruct H as (H1 & _ & H2 & _).
  - right. left. reflexivity.
  - discriminate.
  - intros r [<-|[<-|[<-|[]]]]; discriminate.
  - split; [exact H1|]. split; [exact H2|].
    destruct (X20_create_sale_never_returns_a_sale
                (SaleCreate.mk consulting 700 2 10) Sample.manager
                (Refused "violates foreign key constraint")
                Sample.db) as (_ & _ & _ & H).
    apply H.
    + right. left. reflexivity.
    + discriminate.
Defined.

(* ================================================================== *)
(** * Payments of commission summaries *)

Lemma month_name_exists {S} (m : Z) (s : S) :
  1 <= m <= 12 ->
  exists name, py_getitem month_names (m - 1) s = (Ok name, s).
Proof.
  intros Hm. unfold py_getitem.
  change (Z.of_nat (List.length month_names)) with 12.
  assert (E : (0 <=? m - 1) && (m - 1 <? 12) = true)
    by (apply andb_true_iff; split; [apply Z.leb_le | apply Z.ltb_lt]; lia).
  rewrite E.
  destruct (nth_error month_names (Z.to_nat (m - 1))) as [name|] eqn:En.
  - now exists name.
  - exfalso. apply nth_error_None in En. simpl in En. lia.
Qed.

Lemma next_payment_id_fresh (w : World) (row : Payment.t) :
  In row (payments w) -> Payment.id row < next_payment_id w.
Proof.
  unfold next_payment_id.
  induction (payments w) as [|x l IH]; simpl; [intros []|].
  intros [->|Hin]; [lia|]. specialize (IH Hin). lia.
Qed.

Lemma find_payment_fresh (w : World) (row : Payment.t) :
  Payment.id row = next_payment_id w ->
  find (payment_by_id (next_payment_id w)) (payments w ++ [row]) = Some row.
Proof.
  intros Hid. rewrite find_app_none.
  - simpl. unfold payment_by_id. now rewrite Hid, Z.eqb_refl.
  - destruct (find (payment_by_id (next_payment_id w)) (payments w)) as [p|] eqn:E;
      [|reflexivity].
    apply find_some_in in E as [Hin Hp]. apply Z.eqb_eq in Hp.
    apply next_payment_id_fresh in Hin. lia.
Qed.

Lemma create_commission_payment_run (u : User.t) (today : Date.t) (w : World)
      (summary : Summary.t) :
  authorised u ->
  find (summary_by_id (Summary.id summary)) (monthly_commission_summaries (db w))
  = Some summary ->
  find (payment_of_summary (Summary.id summary)) (payments w) = None ->
  1 <= Summary.month summary <= 12 ->
  find (user_by_id (Summary.employee_id summary)) (users (db w)) <> None ->
  create_commission_payment (Summary.id summary) u today w
  = (Ok (Some (commission_payment_of (next_payment_id w) summary u today)),
     update_summary_payment (Summary.id summary)
       (fun row => set_payment row pending (Summary.payment_date row))
       (insert_payment (commission_payment_of (next_payment_id w) summary u today)
                       w)).
Proof.
  intros Ha Hs Hp Hm He. unfold create_commission_payment, st_bind.
  rewrite (check_roles_st_in u _ w Ha). unfold st_query at 1. rewrite Hs.
  unfold st_query at 1. rewrite Hp.
  destruct (month_name_exists (Summary.month summary) w Hm) as [name ->].
  unfold st_query at 1.
  destruct (find (user_by_id (Summary.employee_id summary)) (users (db w)));
    [|contradiction].
  unfold st_query, st_execute. f_equal. f_equal.
  cbn [update_summary_payment insert_payment payments].
  now apply find_payment_fresh.
Qed.

Lemma payments_for_zero (id : Z) (w : World) :
  payments_for id w = 0%nat <-> find (payment_of_summary id) (payments w) = None.
Proof.
  unfold payments_for. induction (payments w) as [|p l IH]; simpl; [tauto|].
  destruct (payment_of_summary id p); simpl; [split; discriminate | exact IH].
Qed.

Lemma summary_lookup_map_id (id : Z) (f : Summary.t -> Summary.t)
      (rows : list Summary.t) (row : Summary.t) :
  (forall r, Summary.id (f r) = Summary.id r) ->
  find (summary_by_id id) rows = Some row ->
  find (summary_by_id id)
       (map (fun r => if Summary.id r =? id then f r else r) rows)
  = Some (f row).
Proof.
  intros Hf. induction rows as [|x l IH]; simpl; [discriminate|].
  unfold summary_by_id at 1 3. destruct (Summary.id x =? id) eqn:E.
  - intros [= ->]. simpl. unfold summary_by_id. now rewrite Hf, E.
  - rewrite E. exact IH.
Qed.

(** X21.  For a stored summary of a month 1..12 that no payment references
    yet, whose employee exists, [create_commission_payment] inserts one
    pending commission payment due today whose amount is the summary's
    [total_commission] and which references the summary and its employee,
    and sets the summary's payment status to pending, whatever it was. *)
Theorem X21_commission_payment_takes_total_commission :
  forall (u : User.t) (today : Date.t) (w : World) (summary : Summary.t),
    authorised u ->
    summary_ids_unique (db w) ->
    In summary (monthly_commission_summaries (db w)) ->
    payments_for (Summary.id summary) w = 0%nat ->
    1 <= Summary.month summary <= 12 ->
    find (user_by_id (Summary.employee_id summary)) (users (db w)) <> None ->
    let w' := snd (create_commission_payment (Summary.id summary) u today w) in
    exists p,
      fst (create_commission_payment (Summary.id summary) u today w) = Ok (Some p)
      /\ payments w' = payments w ++ [p]
      /\ Payment.amount p = Summary.total_commission summary
      /\ Payment.payment_type p = commission_payment
      /\ Payment.status p = payment_pending
      /\ Payment.due_date p = today
      /\ Payment.employee_id p = Some (Summary.employee_id summary)
      /\ Payment.commission_summary_id p = Some (Summary.id summary)
      /\ summary_lookup (Summary.id summary) (db w')
         = Some (set_payment summary pending (Summary.payment_date summary))
      /\ payments_for (Summary.id summary) w' = 1%nat.
Proof.
  intros u today w summary Ha Hnd Hin Hnone Hm He w'. subst w'.
  pose proof (summary_lookup_unique (db w) summary Hnd Hin) as Hs.
  unfold summary_lookup in Hs.
  pose proof (proj1 (payments_for_zero _ _) Hnone) as Hp.
  rewrite (create_commission_payment_run u today w summary Ha Hs Hp Hm He).
  cbn [fst snd]. eexists. split; [reflexivity|].
  cbn [update_summary_payment insert_payment payments db].
  repeat split.
  - unfold summary_lookup. cbn [monthly_commission_summaries].
    now apply (summary_lookup_map_id (Summary.id summary)
                 (fun row => set_payment row pending (Summary.payment_date row))).
  - unfold payments_for in *.
    cbn [update_summary_payment insert_payment payments].
    rewrite filter_app, length_app, Hnone.
    simpl. unfold payment_of_summary. simpl. now rewrite Z.eqb_refl.
Qed.

(** X21 for the June summary of the sample database. *)
Lemma X21_commission_payment_takes_total_commission_witness :
  exists p,
    fst (create_commission_payment 1 Sample.manager (Date.mk 2025 7 1)
                                   SamplePayments.calculated) = Ok (Some p)
    /\ (Payment.amount p == 3755)%Q.
Proof.
  assert (Hs : exists summary,
             In summary (monthly_commission_summaries
                           (db SamplePayments.calculated))
             /\ Summary.id summary = 1
             /\ Summary.month summary = 6
             /\ Summary.employee_id summary = 2
             /\ (Summary.total_commission summary == 3755)%Q).
  { eexists. split; [left; reflexivity|]. repeat split. }
  destruct Hs as (summary & Hin & Hid & Hm & He & Ht).
  destruct (X21_commission_payment_takes_total_commission
              Sample.manager (Date.mk 2025 7 1) SamplePayments.calculated summary)
    as (p & H1 & _ & H3 & _).
  - right. left. reflexivity.
  - nodup.
  - exact Hin.
  - rewrite Hid. reflexivity.
  - rewrite Hm. lia.
  - rewrite He. discriminate.
  - exists p. rewrite Hid in H1. split; [exact H1|]. now rewrite H3.
Defined.

Lemma create_commission_payment_cases (id : Z) (u : User.t) (today : Date.t)
      (w : World) :
  (exists e, create_commission_payment id u today w = (Err e, w))
  \/ exists s p,
      find (summary_by_id id) (monthly_commission_summaries (db w)) = Some s
      /\ find (payment_of_summary id) (payments w) = None
      /\ Payment.commission_summary_id p = Some id
      /\ create_commission_payment id u today w
         = (Ok (Some p),
            update_summary_payment (Summary.id s)
              (fun row => set_payment row pending (Summary.payment_date row))
              (insert_payment p w)).
Proof.
  destruct (create_commission_payment id u today w) as [r w'] eqn:E.
  revert E. unfold create_commission_payment, st_bind.
  destruct (has_role_dec u ["admin"; "Manager"; "Head"]%string) as [Ha|Ha].
  2: { rewrite (check_roles_st_out u _ w Ha). intros [= <- <-].
       left. eexists. reflexivity. }
  rewrite (check_roles_st_in u _ w Ha). unfold st_query at 1.
  destruct (find (summary_by_id id) (monthly_commission_summaries (db w)))
    as [s|] eqn:Es.
  2: { intros [= <- <-]. left. eexists. reflexivity. }
  unfold st_query at 1.
  destruct (find (payment_of_summary id) (payments w)) as [p0|] eqn:Ep.
  { intros [= <- <-]. left. eexists. reflexivity. }
  destruct (@py_getitem World string month_names (Summary.month s - 1) w)
    as [[name|e] w1] eqn:Eg.
  2: { unfold py_getitem in Eg. revert Eg.
       destruct (if _ : bool then _ else _); intros [= <- <-] [= <- <-];
         left; eexists; reflexivity. }
  assert (w1 = w) as ->.
  { unfold py_getitem in Eg. revert Eg.
    destruct (if _ : bool then _ else _); now intros [= <- <-]. }
  unfold st_query at 1.
  destruct (find (user_by_id (Summary.employee_id s)) (users (db w))).
  2: { intros [= <- <-]. left. eexists. reflexivity. }
  unfold st_query, st_execute.
  cbn [update_summary_payment insert_payment payments].
  rewrite find_payment_fresh by reflexivity.
  intros [= <- <-]. right. exists s. eexists.
  split; [reflexivity|]. split; [reflexivity|]. split; [|reflexivity].
  reflexivity.
Qed.

Lemma find_summary_after_payment (id sid : Z) (f : Summary.t -> Summary.t)
      (w : World) :
  (forall r, Summary.id (f r) = Summary.id r) ->
  find (summary_by_id id) (monthly_commission_summaries (db w)) <> None ->
  find (summary_by_id id)
       (monthly_commission_summaries (db (update_summary_payment sid f w)))
  <> None.
Proof.
  intros Hf. cbn [update_summary_payment db monthly_commission_summaries].
  induction (monthly_commission_summaries (db w)) as [|x l IH]; simpl; [congruence|].
  assert (E : summary_by_id id (if Summary.id x =? sid then f x else x)
              = summary_by_id id x).
  { unfold summary_by_id. destruct (Summary.id x =? sid); [now rewrite Hf | reflexivity]. }
  rewrite E. destruct (summary_by_id id x); [discriminate | exact IH].
Qed.

(** X22.  [create_commission_payment] never gives a summary a second
    payment: a summary with at most one payment has at most one after any
    call, and once a call has succeeded, every further call for the same
    summary by an authorised caller is refused with 400 and changes
    nothing. *)
Theorem X22_one_commission_payment_per_summary :
  forall (id : Z) (u : User.t) (today : Date.t) (w : World),
    let w' := snd (create_commission_payment id u today w) in
    (forall i, (payments_for i w <= 1)%nat -> (payments_for i w' <= 1)%nat)
    /\ (forall (p : option Payment.t) (u2 : User.t) (today2 : Date.t),
           fst (create_commission_payment id u today w) = Ok p ->
           authorised u2 ->
           create_commission_payment id u2 today2 w'
           = (Err (Exn (HTTPException 400
                          "Payment already exists for this commission summary")),
              w')).
Proof.
  intros id u today w w'. subst w'.
  destruct (create_commission_payment_cases id u today w)
    as [[e ->]|(s & p & Hs & Hp & Hpid & ->)]; cbn [fst snd].
  - split; [auto|]. intros p u2 today2 Hok. discriminate.
  - split.
    + intros i Hi. unfold payments_for in *.
      cbn [update_summary_payment insert_payment payments].
      rewrite filter_app, length_app. simpl.
      unfold payment_of_summary at 2. rewrite Hpid.
      destruct (Z.eqb_spec id i) as [<-|Hne]; simpl; [|lia].
      apply payments_for_zero in Hp. unfold payments_for in Hp. lia.
    + intros p' u2 today2 _ Ha2.
      remember (update_summary_payment (Summary.id s)
                  (fun row => set_payment row pending (Summary.payment_date row))
                  (insert_payment p w)) as W eqn:EW.
      assert (HW : find (summary_by_id id) (monthly_commission_summaries (db W))
                   <> None).
      { subst W. apply find_summary_after_payment; [reflexivity|].
        cbn [insert_payment db]. congruence. }
      assert (HP : payments W = payments w ++ [p]) by (subst W; reflexivity).
      unfold create_commission_payment, st_bind.
      rewrite (check_roles_st_in u2 _ _ Ha2). unfold st_query at 1.
      destruct (find (summary_by_id id) (monthly_commission_summaries (db W)))
        as [s'|]; [|contradiction].
      unfold st_query at 1. rewrite HP.
      destruct (find (payment_of_summary id) (payments w ++ [p])) as [q|] eqn:Eq;
        [reflexivity|].
      exfalso. rewrite find_app_none in Eq by assumption. simpl in Eq.
      unfold payment_of_summary in Eq. rewrite Hpid, Z.eqb_refl in Eq. discriminate.
Qed.

(** X22 for a second request after the June payment was created. *)
Lemma X22_one_commission_payment_per_summary_witness :
  create_commission_payment 1 Sample.manager (Date.mk 2025 7 2)
                            SamplePayments.with_payment
  = (Err (Exn (HTTPException 400
                 "Payment already exists for this commission summary")),
     SamplePayments.with_payment).
Proof.
  destruct (X22_one_commission_payment_per_summary
              1 Sample.manager (Date.mk 2025 7 1) SamplePayments.calculated)
    as [_ H].
  eapply H.
  - vm_compute. reflexivity.
  - right. left. reflexivity.
Defined.

(** ** Paying and deleting a payment *)

Lemma apply_payment_status_fields (su : PaymentStatusUpdate.t) (today : Date.t)
      (p : Payment.t) :
  let p' := apply_payment_status su today p in
  Payment.id p' = Payment.id p
  /\ Payment.status p' = PaymentStatusUpdate.status su
  /\ Payment.paid_date p' = paid_date_after su today (Payment.paid_date p)
  /\ Payment.commission_summary_id p' = Payment.commission_summary_id p
  /\ Payment.amount p' = Payment.amount p
  /\ Payment.set_paid_date (Payment.set_status p (Payment.status p'))
                           (Payment.paid_date p') = p'.
Proof.
  destruct su as [st [given|]], p as [i a ty st0 due [kept|] e c ap cr];
    destruct st; cbn; repeat split; reflexivity.
Qed.

Lemma payment_lookup_map_id (id : Z) (f : Payment.t -> Payment.t)
      (rows : list Payment.t) (row : Payment.t) :
  (forall r, Payment.id (f r) = Payment.id r) ->
  find (payment_by_id id) rows = Some row ->
  find (payment_by_id id)
       (map (fun r => if Payment.id r =? id then f r else r) rows)
  = Some (f row).
Proof.
  intros Hf. induction rows as [|x l IH]; simpl; [discriminate|].
  unfold payment_by_id at 1 3. destruct (Payment.id x =? id) eqn:E.
  - intros [= ->]. simpl. unfold payment_by_id. now rewrite Hf, E.
  - rewrite E. exact IH.
Qed.

Lemma update_payment_status_run (payment_id : Z) (su : PaymentStatusUpdate.t)
      (u : User.t) (today : Date.t) (w : World) (p : Payment.t) :
  authorised u ->
  find (payment_by_id payment_id) (payments w) = Some p ->
  update_payment_status payment_id su u today w
  = (Ok (Some (apply_payment_status su today p)),
     match paid_summary su p w with
     | Some s =>
         update_summary_payment (Summary.id s)
           (fun row => set_payment row paid
                         (Payment.paid_date (apply_payment_status su today p)))
           (write_payment (apply_payment_status su today p) w)
     | None => write_payment (apply_payment_status su today p) w
     end).
Proof.
  intros Ha Hp.
  destruct (apply_payment_status_fields su today p)
    as (Hid & Hst & Hpd & Hcs & Ham & Hrow).
  assert (Hpid : Payment.id p = payment_id).
  { apply find_some_in in Hp as [_ Hp]. now apply Z.eqb_eq in Hp. }
  assert (Hfind : find (payment_by_id payment_id)
                       (payments (write_payment (apply_payment_status su today p) w))
                  = Some (apply_payment_status su today p)).
  { cbn [write_payment payments]. rewrite Hid, Hpid.
    rewrite (payment_lookup_map_id payment_id
               (fun row => Payment.set_paid_date
                             (Payment.set_status row
                                (Payment.status (apply_payment_status su today p)))
                             (Payment.paid_date (apply_payment_status su today p)))
               (payments w) p (fun r => eq_refl) Hp).
    now rewrite Hrow. }
  unfold update_payment_status, st_bind.
  rewrite (check_roles_st_in u _ w Ha). unfold st_query at 1. rewrite Hp.
  unfold paid_summary. rewrite Hcs.
  destruct (truthy_int (Payment.commission_summary_id p)
            && PaymentStatus_eqb (PaymentStatusUpdate.status su) payment_paid).
  - unfold st_query at 1.
    destruct (match Payment.commission_summary_id p with
              | Some i => find (summary_by_id i)
                               (monthly_commission_summaries (db w))
              | None => None
              end) as [s|].
    + unfold st_execute, st_query. cbn [update_summary_payment payments].
      now rewrite Hfind.
    + unfold st_execute, st_ret, st_query. now rewrite Hfind.
  - unfold st_execute, st_ret, st_query. now rewrite Hfind.
Qed.

(** X23.  For an authorised caller and a stored payment,
    [update_payment_status] returns the payment with the requested status
    and with the given paid date, else the stored one, else today when the
    status is paid.  Any status other than paid leaves the summaries as they
    are; paid, on a payment that references a stored summary with a non-zero
    id, sets that summary to paid with the payment's paid date. *)
Theorem X23_paid_payment_marks_its_summary_paid :
  forall (payment_id : Z) (su : PaymentStatusUpdate.t) (u : User.t)
         (today : Date.t) (w : World) (p : Payment.t),
    authorised u ->
    find (payment_by_id payment_id) (payments w) = Some p ->
    let r := update_payment_status payment_id su u today w in
    exists p',
      fst r = Ok (Some p')
      /\ find (payment_by_id payment_id) (payments (snd r)) = Some p'
      /\ Payment.status p' = PaymentStatusUpdate.status su
      /\ Payment.paid_date p' = paid_date_after su today (Payment.paid_date p)
      /\ Payment.amount p' = Payment.amount p
      /\ (PaymentStatusUpdate.status su <> payment_paid -> db (snd r) = db w)
      /\ (forall (i : Z) (s : Summary.t),
             PaymentStatusUpdate.status su = payment_paid ->
             Payment.commission_summary_id p = Some i -> i <> 0 ->
             find (summary_by_id i) (monthly_commission_summaries (db w))
             = Some s ->
             find (summary_by_id i)
                  (monthly_commission_summaries (db (snd r)))
             = Some (set_payment s paid (Payment.paid_date p'))
             /\ Payment.paid_date p' <> None).
Proof.
  intros payment_id su u today w p Ha Hp r. subst r.
  rewrite (update_payment_status_run payment_id su u today w p Ha Hp).
  cbn [fst snd].
  destruct (apply_payment_status_fields su today p)
    as (Hid & Hst & Hpd & Hcs & Ham & Hrow).
  assert (Hpid : Payment.id p = payment_id).
  { apply find_some_in in Hp as [_ Hp']. now apply Z.eqb_eq in Hp'. }
  assert (Hfind : find (payment_by_id payment_id)
                       (payments (write_payment (apply_payment_status su today p) w))
                  = Some (apply_payment_status su today p)).
  { cbn [write_payment payments]. rewrite Hid, Hpid.
    rewrite (payment_lookup_map_id payment_id
               (fun row => Payment.set_paid_date
                             (Payment.set_status row
                                (Payment.status (apply_payment_status su today p)))
                             (Payment.paid_date (apply_payment_status su today p)))
               (payments w) p (fun r => eq_refl) Hp).
    now rewrite Hrow. }
  exists (apply_payment_status su today p).
  split; [reflexivity|]. split.
  { destruct (paid_summary su p w); [cbn [update_summary_payment payments]|];
      exact Hfind. }
  split; [exact Hst|]. split; [exact Hpd|]. split; [exact Ham|]. split.
  - intros Hne. unfold paid_summary.
    destruct (PaymentStatusUpdate.status su); try congruence;
      rewrite andb_false_r; reflexivity.
  - intros i s Hpaid Hi Hne Hs. unfold paid_summary.
    rewrite Hi, Hpaid. cbn [truthy_int PaymentStatus_eqb].
    destruct (Z.eqb_spec i 0) as [|_]; [contradiction|]. cbn [negb andb].
    rewrite Hs. split.
    + cbn [update_summary_payment write_payment db monthly_commission_summaries].
      assert (Hsid : Summary.id s = i).
      { apply find_some_in in Hs as [_ Hs']. now apply Z.eqb_eq in Hs'. }
      rewrite Hsid.
      exact (summary_lookup_map_id i
               (fun row => set_payment row paid
                             (Payment.paid_date (apply_payment_status su today p)))
               _ s (fun r => eq_refl) Hs).
    + rewrite Hpd. unfold paid_date_after. rewrite Hpaid.
      destruct (PaymentStatusUpdate.paid_date su), (Payment.paid_date p);
        discriminate.
Qed.

(** X23 for the June commission payment, paid on 5 July. *)
Lemma X23_paid_payment_marks_its_summary_paid_witness :
  exists p',
    fst (update_payment_status 1 (PaymentStatusUpdate.mk payment_paid None)
           Sample.manager (Date.mk 2025 7 5) SamplePayments.with_payment)
    = Ok (Some p')
    /\ Payment.status p' = payment_paid
    /\ Payment.paid_date p' = Some (Date.mk 2025 7 5).
Proof.
  destruct (find (payment_by_id 1) (payments SamplePayments.with_payment))
    as [p|] eqn:E; [|vm_compute in E; discriminate].
  destruct (X23_paid_payment_marks_its_summary_paid
              1 (PaymentStatusUpdate.mk payment_paid None) Sample.manager
              (Date.mk 2025 7 5) SamplePayments.with_payment p)
    as (p' & H1 & _ & H3 & H4 & _).
  - right. left. reflexivity.
  - exact E.
  - exists p'. split; [exact H1|]. split; [exact H3|].
    rewrite H4. vm_compute in E. injection E as <-. reflexivity.
Defined.

(** X24.  [delete_payment] never changes the sales tables: a summary keeps
    the payment status its payment gave it.  It adds no payment, and when it
    succeeds the caller was authorised, a payment had the id, and the rows
    left are exactly those with another id. *)
Theorem X24_delete_payment_keeps_summaries :
  forall (payment_id : Z) (u : User.t) (w : World),
    let r := delete_payment payment_id u w in
    db (snd r) = db w
    /\ (forall q, In q (payments (snd r)) -> In q (payments w))
    /\ (fst r = Ok tt ->
        authorised u
        /\ find (payment_by_id payment_id) (payments w) <> None
        /\ forall q, In q (payments (snd r))
                     <-> In q (payments w) /\ Payment.id q <> payment_id).
Proof.
  intros payment_id u w r. subst r. unfold delete_payment, st_bind.
  destruct (has_role_dec u ["admin"; "Manager"; "Head"]%string) as [Ha|Ha].
  2: { rewrite (check_roles_st_out u _ w Ha). cbn [fst snd].
       split; [reflexivity|]. split; [auto | discriminate]. }
  rewrite (check_roles_st_in u _ w Ha). unfold st_query.
  destruct (find (payment_by_id payment_id) (payments w)) as [p|] eqn:Ep.
  2: { cbn [fst snd st_http st_raise].
       split; [reflexivity|]. split; [auto | discriminate]. }
  assert (Hpid : Payment.id p = payment_id).
  { apply find_some_in in Ep as [_ Hp]. now apply Z.eqb_eq in Hp. }
  unfold st_execute. cbn [fst snd db payments]. rewrite Hpid.
  split; [reflexivity|]. split.
  - intros q Hq. now apply filter_In in Hq.
  - intros _. split; [exact Ha|]. split; [discriminate|].
    intros q. rewrite filter_In, negb_true_iff, Z.eqb_neq. reflexivity.
Qed.

(** X24 for the June commission payment. *)
Lemma X24_delete_payment_keeps_summaries_witness :
  authorised Sample.manager
  /\ payments (snd (delete_payment 1 Sample.manager SamplePayments.with_payment))
     = [].
Proof.
  destruct (X24_delete_payment_keeps_summaries
              1 Sample.manager SamplePayments.with_payment) as (_ & _ & H).
  destruct H as (Ha & _ & _); [vm_compute; reflexivity|].
  split; [exact Ha | vm_compute; reflexivity].
Defined.
